(** * cournot-por: the resilient gateway client, the step sequencer and the
      report builder, embedded from the TypeScript sources.

    - [client.ts]   : [redactCode], [buildEnvelope], [isTransientError],
                      [isNetworkError], [GatewayClient.call]
    - [pipeline.ts] : [extractData], [runPipeline]
    - [schemas.ts]  : the five zod response schemas
    - [report.ts]   : [buildReport] and its extraction helpers

    JavaScript strings are modelled as [string] (sequences of 8-bit code
    units), JSON numbers as binary64 floats, HTTP statuses and millisecond
    delays as [Z].  Promises are modelled by an inductive program type
    whose nodes are the two injected effects ([fetchFn], [sleepFn]). *)

From Stdlib Require Import ZArith List Bool Lia Ascii String Floats
  Numbers.DecimalString.
Import ListNotations.

Local Open Scope string_scope.
Local Open Scope Z_scope.

Set Warnings "-register-all".

(* ===================================================================== *)
(** * JavaScript strings                                                  *)
(* ===================================================================== *)

Module JsString.

(** [s.startsWith(p)] *)
Fixpoint startsWith (s p : string) {struct p} : bool :=
  match p, s with
  | EmptyString, _ => true
  | String _ _, EmptyString => false
  | String a p', String b s' => Ascii.eqb a b && startsWith s' p'
  end.

(** [s.includes(p)] *)
Fixpoint includes (s p : string) : bool :=
  startsWith s p ||
  match s with
  | EmptyString => false
  | String _ s' => includes s' p
  end.

(** [ch.toLowerCase()] on the code units A-Z; other units are kept. *)
Definition lowerChar (ch : ascii) : ascii :=
  let n := nat_of_ascii ch in
  if (Nat.leb 65 n && Nat.leb n 90)%bool then ascii_of_nat (n + 32) else ch.

(** [s.toLowerCase()] *)
Fixpoint toLowerCase (s : string) : string :=
  match s with
  | EmptyString => EmptyString
  | String ch s' => String (lowerChar ch) (toLowerCase s')
  end.

(** [s.slice(0, n)] *)
Fixpoint take (n : nat) (s : string) : string :=
  match n, s with
  | S k, String ch s' => String ch (take k s')
  | _, _ => EmptyString
  end.

(** [s.slice(0, -1)] *)
Fixpoint dropLast (s : string) : string :=
  match s with
  | EmptyString => EmptyString
  | String _ EmptyString => EmptyString
  | String ch s' => String ch (dropLast s')
  end.

(** Template-literal rendering of an integral number. *)
Definition ofZ (z : Z) : string := NilZero.string_of_int (Z.to_int z).

(** [c] occurs in [t] as a literal substring. *)
Definition occurs (c t : string) : Prop :=
  exists p s, t = p ++ c ++ s.

End JsString.

(* ===================================================================== *)
(** * Regular expressions: the fragment [redactCode] builds               *)
(* ===================================================================== *)

Module RegExp.

(** A pattern without quantifiers, groups or alternatives is a sequence of
    one-character atoms. *)
Inductive atom : Type :=
| Lit (ch : ascii)            (* a pattern character or an identity escape *)
| AnyChar                     (* [.] *)
| Class (members : string).   (* [[...]] with listed members *)

Definition pattern := list atom.

(** SyntaxCharacter of the ECMAScript pattern grammar:
    [^ $ \ . * + ? ( ) [ ] { } |] *)
Definition syntaxCharacters : string := ".*+?^${}()|[]\".

Fixpoint member (ch : ascii) (s : string) : bool :=
  match s with
  | EmptyString => false
  | String x s' => Ascii.eqb x ch || member ch s'
  end.

Definition isSyntaxCharacter (ch : ascii) : bool := member ch syntaxCharacters.

Definition isLineTerminator (ch : ascii) : bool :=
  Ascii.eqb ch "010" || Ascii.eqb ch "013".

(** [new RegExp(source, 'g')] on the fragment: a backslash followed by a
    syntax character is an identity escape, a dot is the wildcard, any
    other non-syntax character stands for itself.  [None]: the source is
    outside the fragment (quantifiers, groups, classes, other escapes) or
    is not a pattern at all (a trailing backslash). *)
Fixpoint compile (source : string) : option pattern :=
  match source with
  | EmptyString => Some []
  | String ch rest =>
      if Ascii.eqb ch "\" then
        match rest with
        | String escaped rest' =>
            if isSyntaxCharacter escaped
            then option_map (cons (Lit escaped)) (compile rest')
            else None
        | EmptyString => None
        end
      else if Ascii.eqb ch "." then
        option_map (cons AnyChar) (compile rest)
      else if isSyntaxCharacter ch then None
      else option_map (cons (Lit ch)) (compile rest)
  end.

(** The pattern that matches [c] and nothing else. *)
Fixpoint literal (c : string) : pattern :=
  match c with
  | EmptyString => []
  | String ch rest => Lit ch :: literal rest
  end.

Definition atomMatches (a : atom) (ch : ascii) : bool :=
  match a with
  | Lit x => Ascii.eqb x ch
  | AnyChar => negb (isLineTerminator ch)
  | Class members => member ch members
  end.

(** Match the pattern at the start of [text]; the number of code units
    consumed on success. *)
Fixpoint matchAt (re : pattern) (text : string) : option nat :=
  match re, text with
  | [], _ => Some O
  | _ :: _, EmptyString => None
  | a :: re', String ch text' =>
      if atomMatches a ch then option_map S (matchAt re' text') else None
  end.

(** [text.replace(re, replacement)] for a global [re].  [inside] plays the
    part of [lastIndex]: the number of code units of the current match
    that the scan still has to step over.  [replacement] receives the
    matched substring (the [$&] of a replacement template).  After an
    empty match the scan advances by one code unit, as AdvanceStringIndex
    does. *)
Fixpoint replaceFrom (re : pattern) (replacement : string -> string)
    (inside : nat) (text : string) : string :=
  match text with
  | EmptyString =>
      match inside, matchAt re EmptyString with
      | O, Some _ => replacement EmptyString
      | _, _ => EmptyString
      end
  | String ch rest =>
      match inside with
      | S k => replaceFrom re replacement k rest
      | O =>
          match matchAt re text with
          | Some O =>
              replacement EmptyString
                ++ String ch (replaceFrom re replacement O rest)
          | Some (S k) =>
              replacement (JsString.take (S k) text)
                ++ replaceFrom re replacement k rest
          | None => String ch (replaceFrom re replacement O rest)
          end
      end
  end.

Definition replaceAll (re : pattern) (replacement : string -> string)
    (text : string) : string :=
  replaceFrom re replacement O text.

End RegExp.

(* ===================================================================== *)
(** * client.ts                                                           *)
(* ===================================================================== *)

Definition GATEWAY_URL : string :=
  "https://interface.cournot.ai/play/polymarket/ai_data".
Definition MAX_RETRIES : nat := 3.
Definition TIMEOUT_MS : Z := 300000.

Definition REDACTED : string := "[REDACTED]".

(** [code.replace(/[.*+?^${}()|[\]\\]/g, '\\$&')] *)
Definition escapeRegExp (code : string) : string :=
  RegExp.replaceAll [RegExp.Class RegExp.syntaxCharacters]
    (fun matched => String "\" matched) code.

(** [redactCode(text, code)].  The last branch stands for the RegExp
    constructor rejecting its source; [compile_escapeRegExp] below shows
    that an escaped credential never takes it. *)
Definition redactCode (text code : string) : string :=
  if String.eqb code "" then text
  else
    match RegExp.compile (escapeRegExp code) with
    | Some re => RegExp.replaceAll re (fun _ => REDACTED) text
    | None => text
    end.

(* ===================================================================== *)
(** * JavaScript values, as decoded from and encoded to JSON              *)
(* ===================================================================== *)

Module Json.

(** A decoded JSON value, or [undefined].  The fields of an object are
    listed in the order in which the object enumerates its keys, each key
    once. *)
Inductive Value : Type :=
| VUndefined
| VNull
| VBool (b : bool)
| VNum (x : float)
| VStr (s : string)
| VArr (items : list Value)
| VObj (fields : list (string * Value)).

(** ToBoolean *)
Definition truthy (v : Value) : bool :=
  match v with
  | VUndefined | VNull => false
  | VBool b => b
  | VNum x => negb (PrimFloat.is_zero x || PrimFloat.is_nan x)
  | VStr s => negb (String.eqb s "")
  | VArr _ | VObj _ => true
  end.

(** [typeof v === 'object'] *)
Definition typeofObject (v : Value) : bool :=
  match v with
  | VNull | VArr _ | VObj _ => true
  | _ => false
  end.

(** [Array.isArray(v)] *)
Definition isArray (v : Value) : bool :=
  match v with VArr _ => true | _ => false end.

(** [v === undefined] *)
Definition isUndefined (v : Value) : bool :=
  match v with VUndefined => true | _ => false end.

(** [a ?? b] *)
Definition coalesce (a b : Value) : Value :=
  match a with
  | VUndefined | VNull => b
  | _ => a
  end.

Fixpoint lookup (fields : list (string * Value)) (key : string)
    : option Value :=
  match fields with
  | [] => None
  | (k, v) :: rest => if String.eqb k key then Some v else lookup rest key
  end.

(** [v.key] for a non-nullish [v]; none of the keys read by this program
    is a property of Object.prototype, Array.prototype or of a primitive
    wrapper, so they are [undefined] on all but object fields. *)
Definition prop (v : Value) (key : string) : Value :=
  match v with
  | VObj fields =>
      match lookup fields key with Some x => x | None => VUndefined end
  | _ => VUndefined
  end.

(** [key in v] for [v] of type object *)
Definition hasProperty (v : Value) (key : string) : bool :=
  match v with
  | VObj fields =>
      match lookup fields key with Some _ => true | None => false end
  | _ => false
  end.

(** The code unit 0x22. *)
Definition quotationMark : ascii := "034".

Definition hexDigit (n : nat) : ascii :=
  match n with
  | 0 => "0" | 1 => "1" | 2 => "2" | 3 => "3" | 4 => "4" | 5 => "5"
  | 6 => "6" | 7 => "7" | 8 => "8" | 9 => "9" | 10 => "a" | 11 => "b"
  | 12 => "c" | 13 => "d" | 14 => "e" | _ => "f"
  end%nat%char.

(** QuoteJSONString, one code unit *)
Definition quoteChar (ch : ascii) : string :=
  let n := nat_of_ascii ch in
  match n with
  | 8 => "\b" | 9 => "\t" | 10 => "\n" | 12 => "\f" | 13 => "\r"
  | 34 => String "\" (String quotationMark "")
  | 92 => "\\"
  | _ =>
      if Nat.ltb n 32
      then "\u00" ++ String (hexDigit (Nat.div n 16))
                       (String (hexDigit (Nat.modulo n 16)) "")
      else String ch ""
  end%nat.

Fixpoint quoteChars (s : string) : string :=
  match s with
  | EmptyString => ""
  | String ch s' => quoteChar ch ++ quoteChars s'
  end.

Definition QuoteJSONString (s : string) : string :=
  String quotationMark (quoteChars s ++ String quotationMark "").

(** One member of a serialized object: the quoted key, a colon, the
    text of the value. *)
Definition member (key text : string) : string :=
  QuoteJSONString key ++ ":" ++ text.

Section Stringify.

(** Number::toString of ECMAScript (the shortest decimal that reads back
    as the same binary64 value) is taken as given. *)
Variable Number_toString : float -> string.

(** SerializeJSONProperty; [None] is JavaScript's [undefined] result.
    Inside an array an unserializable element becomes [null], inside
    an object its field is left out. *)
Fixpoint SerializeJSONProperty (v : Value) : option string :=
  match v with
  | VUndefined => None
  | VNull => Some "null"
  | VBool b => Some (if b then "true" else "false")
  | VNum x =>
      Some (if PrimFloat.is_finite x then Number_toString x else "null")
  | VStr s => Some (QuoteJSONString s)
  | VArr items =>
      Some ("[" ++ String.concat ","
              (map (fun item =>
                      match SerializeJSONProperty item with
                      | Some s => s
                      | None => "null"
                      end) items) ++ "]")
  | VObj fields =>
      Some ("{" ++ String.concat ","
              (flat_map (fun kv =>
                           match SerializeJSONProperty (snd kv) with
                           | Some s => [member (fst kv) s]
                           | None => []
                           end) fields) ++ "}")
  end.

(** [JSON.stringify(v)] *)
Definition stringify (v : Value) : option string :=
  SerializeJSONProperty v.

(** [JSON.stringify] of an object literal always yields a string. *)
Definition stringifyObject (fields : list (string * Value)) : string :=
  "{" ++ String.concat ","
    (flat_map (fun kv =>
                 match SerializeJSONProperty (snd kv) with
                 | Some s => [member (fst kv) s]
                 | None => []
                 end) fields) ++ "}".

End Stringify.

End Json.
Import Json.

(* ===================================================================== *)
(** * Exceptions, the transport and asynchronous programs                 *)
(* ===================================================================== *)

(** What a JavaScript [throw] (or a rejected promise) carries: an instance
    of [Error] with its [name] and [message], or any other value. *)
Inductive Thrown : Type :=
| JsError (name message : string)
| NonError (v : Value).

(** [new Error(message)] *)
Definition newError (message : string) : Thrown := JsError "Error" message.

(** The part of a fetch [Response] that the client reads.  [ok] is derived
    from the status as the Fetch standard defines it. *)
Module Response.
Record t : Type := make {
  status : Z;
  text : option string;      (* [text()]: the body, [None] when it rejects *)
  json : Value + Thrown      (* [json()]: the decoded body or a rejection *)
}.

Definition ok (r : t) : bool := (200 <=? status r) && (status r <=? 299).
End Response.

(** The [RequestInit] handed to [fetchFn], with the URL.  The abort signal
    only matters to the timer and is left out. *)
Module Request.
Record t : Type := make {
  url : string;
  method : string;
  headers : list (string * string);
  body : string
}.
End Request.

Inductive FetchOutcome : Type :=
| Resolved (response : Response.t)
| Rejected (err : Thrown).

(** An [async] computation over the two injected effects.  [sleepFn] is
    taken to resolve; [fetchFn] settles either way. *)
Inductive Prog (A : Type) : Type :=
| Return (a : A)
| Throw (err : Thrown)
| Sleep (ms : Z) (k : Prog A)
| Fetch (req : Request.t) (k : FetchOutcome -> Prog A).

Arguments Return {A} a.
Arguments Throw {A} err.
Arguments Sleep {A} ms k.
Arguments Fetch {A} req k.

Fixpoint bind {A B : Type} (p : Prog A) (f : A -> Prog B) : Prog B :=
  match p with
  | Return a => f a
  | Throw err => Throw err
  | Sleep ms k => Sleep ms (bind k f)
  | Fetch req k => Fetch req (fun outcome => bind (k outcome) f)
  end.

Notation "x <- p ;; q" := (bind p (fun x => q))
  (at level 61, p at next level, right associativity).

(** [try { p } catch (err) { handler }] *)
Fixpoint tryCatch {A : Type} (p : Prog A) (handler : Thrown -> Prog A)
    : Prog A :=
  match p with
  | Return a => Return a
  | Throw err => handler err
  | Sleep ms k => Sleep ms (tryCatch k handler)
  | Fetch req k => Fetch req (fun outcome => tryCatch (k outcome) handler)
  end.

(** [await fetchFn(url, init)] *)
Definition awaitFetch (req : Request.t) : Prog Response.t :=
  Fetch req (fun outcome =>
    match outcome with
    | Resolved response => Return response
    | Rejected err => Throw err
    end).

(** [await response.json()] *)
Definition awaitJson (response : Response.t) : Prog Value :=
  match Response.json response with
  | inl data => Return data
  | inr err => Throw err
  end.

(** [await response.text().catch(() => '')] *)
Definition awaitTextOrEmpty (response : Response.t) : string :=
  match Response.text response with
  | Some body => body
  | None => ""
  end.

(** ** Running a program against a transport

    A transport is described by the outcomes of its successive calls.  The
    run records every effect in order; when the description ends before
    the program does, the last fetch stays [Pending]. *)
Inductive Event : Type :=
| EvSleep (ms : Z)
| EvFetch (req : Request.t).

Inductive Outcome (A : Type) : Type :=
| Returned (a : A)
| Threw (err : Thrown)
| Pending.

Arguments Returned {A} a.
Arguments Threw {A} err.
Arguments Pending {A}.

Fixpoint exec {A : Type} (p : Prog A) (transport : list FetchOutcome)
    : list Event * Outcome A :=
  match p with
  | Return a => ([], Returned a)
  | Throw err => ([], Threw err)
  | Sleep ms k =>
      let (trace, result) := exec k transport in (EvSleep ms :: trace, result)
  | Fetch req k =>
      match transport with
      | [] => ([EvFetch req], Pending)
      | outcome :: rest =>
          let (trace, result) := exec (k outcome) rest in
          (EvFetch req :: trace, result)
      end
  end.

(** The transport calls of a run, in order. *)
Fixpoint requests (trace : list Event) : list Request.t :=
  match trace with
  | [] => []
  | EvFetch req :: rest => req :: requests rest
  | EvSleep _ :: rest => requests rest
  end.

(** The delays of a run, in order. *)
Fixpoint sleeps (trace : list Event) : list Z :=
  match trace with
  | [] => []
  | EvSleep ms :: rest => ms :: sleeps rest
  | EvFetch _ :: rest => sleeps rest
  end.

(** Number of transport attempts of a run. *)
Definition attempts (trace : list Event) : nat := List.length (requests trace).

(* ===================================================================== *)
(** * types.ts: the wire envelope                                         *)
(* ===================================================================== *)

Module GatewayEnvelope.
(** [post_data] is what [JSON.stringify] gave for the payload: a string,
    or [undefined] ([None]) for a payload that has no JSON text. *)
Record t : Type := make {
  code : string;
  post_data : option string;
  path : string;
  method : string
}.

(** The envelope as the object literal it is, fields in source order. *)
Definition toValue (e : t) : list (string * Value) :=
  [ ("code", VStr (code e));
    ("post_data", match post_data e with
                  | Some s => VStr s
                  | None => VUndefined
                  end);
    ("path", VStr (path e));
    ("method", VStr (method e)) ].
End GatewayEnvelope.

(* ===================================================================== *)
(** * client.ts: the resilient call primitive                             *)
(* ===================================================================== *)

Definition isTransientError (status : Z) : bool :=
  (status >=? 500) || (status =? 429) || (status =? 408).

Definition isNetworkError (err : Thrown) : bool :=
  match err with
  | NonError _ => false
  | JsError name message =>
      let msg := JsString.toLowerCase message in
      String.eqb name "AbortError" ||
      JsString.includes msg "fetch" ||
      JsString.includes msg "network" ||
      JsString.includes msg "econnrefused" ||
      JsString.includes msg "econnreset" ||
      JsString.includes msg "etimedout" ||
      JsString.includes msg "socket"
  end.

(** [Math.min(1000 * Math.pow(2, attempt), 10_000)] *)
Definition backoff (attempt : Z) : Z := Z.min (1000 * 2 ^ attempt) 10000.

(** What the loop does before the attempt numbered [attempt]:
    [if (attempt > 0) await this.sleepFn(backoff)]. *)
Definition delayBefore (attempt : Z) : list Event :=
  if attempt >? 0 then [EvSleep (backoff attempt)] else [].

(** How one turn of the retry loop ends when it does not throw. *)
Inductive Completion : Type :=
| ReturnData (data : Value)          (* [return data] *)
| Continue (lastError : Thrown).     (* [lastError = ...; continue] *)

Section Client.

Variable Number_toString : float -> string.

Definition buildEnvelope (code path method : string) (payload : Value)
    : GatewayEnvelope.t :=
  {| GatewayEnvelope.code := code;
     GatewayEnvelope.post_data := Json.stringify Number_toString payload;
     GatewayEnvelope.path := path;
     GatewayEnvelope.method := method |}.

(** The arguments of the one [fetchFn] call in the source. *)
Definition gatewayRequest (envelope : GatewayEnvelope.t) : Request.t :=
  {| Request.url := GATEWAY_URL;
     Request.method := "POST";
     Request.headers := [("Content-Type", "application/json")];
     Request.body :=
       Json.stringifyObject Number_toString
         (GatewayEnvelope.toValue envelope) |}.

(** [`Gateway returned ${status} for ${path}: ${safeBody}`] *)
Definition gatewayMessage (status : Z) (path safeBody : string) : string :=
  "Gateway returned " ++ JsString.ofZ status ++ " for " ++ path ++ ": "
    ++ safeBody.

(** [GatewayClient], with [this.code] bound at construction. *)
Section Call.

Variable code : string.
Variables (path method : string) (payload : Value).

Let envelope := buildEnvelope code path method payload.

(** The [try] block of one attempt, from the point where [fetchFn]
    has resolved. *)
Definition handleResponse (response : Response.t) : Prog Completion :=
  if negb (Response.ok response) then
    let body := awaitTextOrEmpty response in
    let safeBody := redactCode body code in
    if isTransientError (Response.status response) then
      Return (Continue
                (newError (gatewayMessage (Response.status response)
                             path safeBody)))
    else
      Throw (newError (gatewayMessage (Response.status response)
                         path safeBody))
  else
    data <- awaitJson response ;;
    Return (ReturnData data).

(** The [try] block of one attempt. *)
Definition tryBlock : Prog Completion :=
  response <- awaitFetch (gatewayRequest envelope) ;;
  handleResponse response.

(** The [catch (err)] clause. *)
Definition catchClause (err : Thrown) : Prog Completion :=
  match err with
  | JsError _ message =>
      if negb (JsString.startsWith message "Gateway returned")
         && isNetworkError err
      then
        Return (Continue
                  (newError
                     (redactCode
                        ("Network error calling " ++ path ++ ": "
                           ++ message)
                        code)))
      else Throw err
  | NonError _ => Throw err
  end.

(** The [for] loop from the turn numbered [attempt] on, with
    [remaining = MAX_RETRIES - attempt] turns left. *)
Fixpoint retryLoop (remaining : nat) (attempt : Z)
    (lastError : option Thrown) : Prog Value :=
  match remaining with
  | O =>
      Throw (match lastError with
             | Some err => err
             | None =>
                 newError ("Failed after "
                             ++ JsString.ofZ (Z.of_nat MAX_RETRIES)
                             ++ " retries for " ++ path)
             end)
  | S remaining' =>
      let turn :=
        completion <- tryCatch tryBlock catchClause ;;
        match completion with
        | ReturnData data => Return data
        | Continue err => retryLoop remaining' (attempt + 1) (Some err)
        end in
      if attempt >? 0 then Sleep (backoff attempt) turn else turn
  end.

Definition call : Prog Value := retryLoop MAX_RETRIES 0 None.

(** What one attempt comes to once the transport has settled, read off
    [handleResponse] and [catchClause]: a completion of the loop body
    or an exception that leaves [call].  The proofs below go through
    it ([exec_retryLoop_step]). *)
Definition settled (outcome : FetchOutcome) : Completion + Thrown :=
  match outcome with
  | Resolved response =>
      if negb (Response.ok response) then
        let message :=
          gatewayMessage (Response.status response) path
            (redactCode (awaitTextOrEmpty response) code) in
        if isTransientError (Response.status response)
        then inl (Continue (newError message))
        else inr (newError message)
      else
        match Response.json response with
        | inl data => inl (ReturnData data)
        | inr err =>
            match catchClause err with
            | Return completion => inl completion
            | _ => inr err
            end
        end
  | Rejected err =>
      match catchClause err with
      | Return completion => inl completion
      | _ => inr err
      end
  end.

End Call.

End Client.

(* ===================================================================== *)
(** * zod: the schema combinators that schemas.ts uses                    *)
(* ===================================================================== *)

(** zod is a library the program imports; what follows is the behaviour of
    the constructors that schemas.ts uses, as zod 3 documents it, with the
    output typed as types.ts declares it. *)
Module Zod.

Inductive ParseResult (A : Type) : Type :=
| Valid (a : A)
| Invalid (issues : list string).

Arguments Valid {A} a.
Arguments Invalid {A} issues.

(** [schema.parse(data)] either yields the typed output or throws. *)
Definition Schema (A : Type) : Type := Value -> ParseResult A.

Definition andThen {A B : Type} (r : ParseResult A)
    (f : A -> ParseResult B) : ParseResult B :=
  match r with
  | Valid a => f a
  | Invalid issues => Invalid issues
  end.

(** [z.unknown()] *)
Definition unknown : Schema Value := fun data => Valid data.

(** [z.string()] *)
Definition string : Schema String.string := fun data =>
  match data with
  | VStr s => Valid s
  | _ => Invalid ["Expected string"]
  end.

(** [z.number()]: a number other than NaN *)
Definition number : Schema float := fun data =>
  match data with
  | VNum x =>
      if PrimFloat.is_nan x then Invalid ["Expected number, received nan"]
      else Valid x
  | _ => Invalid ["Expected number"]
  end.

Fixpoint each {A : Type} (element : Schema A) (items : list Value)
    : ParseResult (list A) :=
  match items with
  | [] => Valid []
  | item :: rest =>
      andThen (element item) (fun a =>
      andThen (each element rest) (fun others => Valid (a :: others)))
  end.

(** [z.array(element)] *)
Definition array {A : Type} (element : Schema A) : Schema (list A) :=
  fun data =>
    match data with
    | VArr items => each element items
    | _ => Invalid ["Expected array"]
    end.

(** [inner.optional()] *)
Definition optional {A : Type} (inner : Schema A) : Schema (option A) :=
  fun data =>
    match data with
    | VUndefined => Valid None
    | _ => andThen (inner data) (fun a => Valid (Some a))
    end.

(** [inner.default(value)]: [undefined] is replaced by the default before
    the inner schema runs, so the output is never [undefined]. *)
Definition default {A : Type} (inner : Schema (option A)) (value : A)
    : Schema A :=
  fun data =>
    match data with
    | VUndefined => Valid value
    | _ =>
        andThen (inner data) (fun a =>
          Valid (match a with Some x => x | None => value end))
    end.

(** [z.object(shape)]: the data must be a plain object (not null, not an
    array); [shape] then reads the declared keys. *)
Definition object {A : Type}
    (shape : list (String.string * Value) -> ParseResult A) : Schema A :=
  fun data =>
    match data with
    | VObj fields => shape fields
    | _ => Invalid ["Expected object"]
    end.

(** One key of a shape: the schema runs on [data[key]]. *)
Definition field {A : Type} (fields : list (String.string * Value))
    (key : String.string) (schema : Schema A) : ParseResult A :=
  schema (prop (VObj fields) key).

(** [.passthrough()]: the keys of the data that the shape does not
    declare are kept as they are. *)
Definition unknownKeys (declared : list String.string)
    (fields : list (String.string * Value))
    : list (String.string * Value) :=
  filter (fun kv =>
            negb (existsb (String.eqb (fst kv)) declared)) fields.

End Zod.

Notation "'check' x ':=' r 'in' q" := (Zod.andThen r (fun x => q))
  (at level 10, x name, r at level 200, q at level 200).

(* ===================================================================== *)
(** * types.ts: step responses, report and options                        *)
(* ===================================================================== *)

Module PromptResponse.
Record t : Type := make {
  market_id : option string;
  prompt_spec : Value;
  tool_plan : Value;
  metadata : option Value;
  passthrough : list (string * Value)
}.
End PromptResponse.

Module CollectResponse.
Record t : Type := make {
  evidence_bundles : list Value;
  collectors_used : list string;
  execution_logs : option (list Value);
  errors : list Value;
  passthrough : list (string * Value)
}.
End CollectResponse.

Module AuditResponse.
Record t : Type := make {
  reasoning_trace : Value;
  errors : list Value;
  passthrough : list (string * Value)
}.
End AuditResponse.

Module JudgeResponse.
Record t : Type := make {
  verdict : Value;
  outcome : string;
  confidence : float;
  errors : list Value;
  passthrough : list (string * Value)
}.
End JudgeResponse.

Module Roots.
Record t : Type := make {
  prompt_spec_hash : string;
  evidence_root : string;
  reasoning_root : string;
  por_root : string
}.
End Roots.

Module BundleResponse.
Record t : Type := make {
  por_bundle : Value;
  por_root : string;
  roots : Roots.t;
  errors : list Value;
  passthrough : list (string * Value)
}.
End BundleResponse.

Module EvidenceHighlight.
Record t : Type := make {
  title : option string;
  source_url : option string;
  snippet : option string
}.
End EvidenceHighlight.

Module RawResponses.
Record t : Type := make {
  prompt_response : PromptResponse.t;
  collect_response : CollectResponse.t;
  audit_response : AuditResponse.t;
  judge_response : JudgeResponse.t;
  bundle_response : BundleResponse.t
}.
End RawResponses.

Module PorReport.
Record t : Type := make {
  outcome : string;
  confidence : float;
  resolution_rule_id : option string;
  evidence_highlights : list EvidenceHighlight.t;
  requirements_fulfilled : option (list string);
  requirements_unfulfilled : option (list string);
  reasoning_summary : list string;
  roots : Roots.t;
  raw : RawResponses.t
}.
End PorReport.

Module PipelineOptions.
Record t : Type := make {
  query : string;
  code : string;
  strict_mode : option bool;
  collectors : option (list string);
  include_raw_content : option bool
}.
End PipelineOptions.

(* ===================================================================== *)
(** * schemas.ts                                                          *)
(* ===================================================================== *)

Definition promptResponseSchema : Zod.Schema PromptResponse.t :=
  Zod.object (fun data =>
    check market_id := Zod.field data "market_id" (Zod.optional Zod.string) in
    check prompt_spec := Zod.field data "prompt_spec" Zod.unknown in
    check tool_plan := Zod.field data "tool_plan" Zod.unknown in
    check metadata := Zod.field data "metadata" (Zod.optional Zod.unknown) in
    Zod.Valid
      (PromptResponse.make market_id prompt_spec tool_plan metadata
         (Zod.unknownKeys
            ["market_id"; "prompt_spec"; "tool_plan"; "metadata"] data))).

Definition collectResponseSchema : Zod.Schema CollectResponse.t :=
  Zod.object (fun data =>
    check evidence_bundles :=
      Zod.field data "evidence_bundles" (Zod.array Zod.unknown) in
    check collectors_used :=
      Zod.field data "collectors_used"
        (Zod.default (Zod.optional (Zod.array Zod.string)) []) in
    check execution_logs :=
      Zod.field data "execution_logs"
        (Zod.optional (Zod.array Zod.unknown)) in
    check errors :=
      Zod.field data "errors"
        (Zod.default (Zod.optional (Zod.array Zod.unknown)) []) in
    Zod.Valid
      (CollectResponse.make evidence_bundles collectors_used execution_logs
         errors
         (Zod.unknownKeys
            ["evidence_bundles"; "collectors_used"; "execution_logs";
             "errors"] data))).

Definition auditResponseSchema : Zod.Schema AuditResponse.t :=
  Zod.object (fun data =>
    check reasoning_trace := Zod.field data "reasoning_trace" Zod.unknown in
    check errors :=
      Zod.field data "errors"
        (Zod.default (Zod.optional (Zod.array Zod.unknown)) []) in
    Zod.Valid
      (AuditResponse.make reasoning_trace errors
         (Zod.unknownKeys ["reasoning_trace"; "errors"] data))).

Definition judgeResponseSchema : Zod.Schema JudgeResponse.t :=
  Zod.object (fun data =>
    check verdict := Zod.field data "verdict" Zod.unknown in
    check outcome := Zod.field data "outcome" Zod.string in
    check confidence := Zod.field data "confidence" Zod.number in
    check errors :=
      Zod.field data "errors"
        (Zod.default (Zod.optional (Zod.array Zod.unknown)) []) in
    Zod.Valid
      (JudgeResponse.make verdict outcome confidence errors
         (Zod.unknownKeys ["verdict"; "outcome"; "confidence"; "errors"]
            data))).

Definition rootsSchema : Zod.Schema Roots.t :=
  Zod.object (fun data =>
    check prompt_spec_hash := Zod.field data "prompt_spec_hash" Zod.string in
    check evidence_root := Zod.field data "evidence_root" Zod.string in
    check reasoning_root := Zod.field data "reasoning_root" Zod.string in
    check por_root := Zod.field data "por_root" Zod.string in
    Zod.Valid
      (Roots.make prompt_spec_hash evidence_root reasoning_root por_root)).

Definition bundleResponseSchema : Zod.Schema BundleResponse.t :=
  Zod.object (fun data =>
    check por_bundle := Zod.field data "por_bundle" Zod.unknown in
    check por_root := Zod.field data "por_root" Zod.string in
    check roots := Zod.field data "roots" rootsSchema in
    check errors :=
      Zod.field data "errors"
        (Zod.default (Zod.optional (Zod.array Zod.unknown)) []) in
    Zod.Valid
      (BundleResponse.make por_bundle por_root roots errors
         (Zod.unknownKeys ["por_bundle"; "por_root"; "roots"; "errors"]
            data))).

(* ===================================================================== *)
(** * report.ts                                                           *)
(* ===================================================================== *)

Notation "a ?? b" := (coalesce a b) (at level 45, left associativity).

Definition asOptionalString (val : Value) : option string :=
  match val with
  | VStr s => Some s
  | _ => None
  end.

(** The body of the inner [for (const item of items)] loop: what one item
    pushes. *)
Definition itemHighlights (item : Value) : list EvidenceHighlight.t :=
  if negb (truthy item) || negb (typeofObject item) then []
  else
    let i := item in
    [ {| EvidenceHighlight.title :=
           asOptionalString (prop i "title" ?? prop i "headline" ?? prop i "name");
         EvidenceHighlight.source_url :=
           asOptionalString (prop i "source_url" ?? prop i "url" ?? prop i "link");
         EvidenceHighlight.snippet :=
           asOptionalString
             (prop i "snippet" ?? prop i "text" ?? prop i "content"
                ?? prop i "summary") |} ].

(** The body of the outer [for (const bundle of bundles)] loop: what one
    bundle pushes. *)
Definition bundleHighlights (bundle : Value) : list EvidenceHighlight.t :=
  if negb (truthy bundle) || negb (typeofObject bundle) then []
  else
    let b := bundle in
    let items :=
      prop b "items" ?? prop b "evidence_items" ?? prop b "results"
        ?? prop b "snippets" in
    (match items with
     | VArr elements => flat_map itemHighlights elements
     | _ => []
     end)
    ++
    (if isUndefined items || negb (isArray items) then
       if truthy (prop b "title") || truthy (prop b "snippet")
          || truthy (prop b "source_url") || truthy (prop b "url")
          || truthy (prop b "text")
       then
         [ {| EvidenceHighlight.title :=
                asOptionalString (prop b "title" ?? prop b "headline");
              EvidenceHighlight.source_url :=
                asOptionalString (prop b "source_url" ?? prop b "url");
              EvidenceHighlight.snippet :=
                asOptionalString
                  (prop b "snippet" ?? prop b "text" ?? prop b "summary") |} ]
       else []
     else []).

Definition extractEvidenceHighlights (bundles : list Value)
    : list EvidenceHighlight.t :=
  firstn 10 (flat_map bundleHighlights bundles).

(** [typeof step === 'object' && step !== null] *)
Definition isNonNullObject (v : Value) : bool :=
  match v with
  | VArr _ | VObj _ => true
  | _ => false
  end.

Section Report.

Variable Number_toString : float -> string.

(** [JSON.stringify(step)] where [step] passed the filter above; such a
    value always has a JSON text (see [stringify_nonNullObject]). *)
Definition stringifyStep (step : Value) : string :=
  match Json.stringify Number_toString step with
  | Some s => s
  | None => ""
  end.

(** The [Array.isArray(trace)] branch of [extractReasoningSummary]:
    filter, map, slice. *)
Definition summarizeSteps (trace : list Value) : list string :=
  firstn 10
    (map (fun step =>
            let desc :=
              prop step "description" ?? prop step "summary"
                ?? prop step "step" ?? prop step "text" in
            match desc with
            | VStr s => s
            | _ => stringifyStep step
            end)
       (filter isNonNullObject trace)).

(** The one recursive call of the source is on [steps] when it is an
    array, and so lands in the array branch; it is written here as that
    branch ([extractReasoningSummary_steps] states the recursion). *)
Definition extractReasoningSummary (trace : Value) : list string :=
  if negb (truthy trace) then []
  else
    match trace with
    | VArr steps => summarizeSteps steps
    | VObj _ =>
        let t := trace in
        let steps :=
          prop t "steps" ?? prop t "trace" ?? prop t "reasoning_steps" in
        match steps with
        | VArr elements => summarizeSteps elements
        | _ =>
            let summary := prop t "summary" ?? prop t "text" in
            match summary with
            | VStr s => [s]
            | _ => []
            end
        end
    | VStr s => [s]
    | _ => []
    end.

(** The body of the [for (const req of reqs)] loop: the label, and
    whether it goes to [fulfilled]; [None] for a skipped entry. *)
Definition requirementEntry (req : Value) : option (string * bool) :=
  if negb (truthy req) || negb (typeofObject req) then None
  else
    let r := req in
    match asOptionalString
            (prop r "description" ?? prop r "label" ?? prop r "name"
               ?? prop r "id") with
    | None => None
    | Some label =>
        if String.eqb label "" then None
        else
          let met :=
            prop r "fulfilled" ?? prop r "met" ?? prop r "satisfied"
              ?? prop r "passed" in
          Some (label, truthy met)
    end.

Fixpoint partitionRequirements (reqs : list Value)
    : list string * list string :=
  match reqs with
  | [] => ([], [])
  | req :: rest =>
      let (fulfilled, unfulfilled) := partitionRequirements rest in
      match requirementEntry req with
      | None => (fulfilled, unfulfilled)
      | Some (label, true) => (label :: fulfilled, unfulfilled)
      | Some (label, false) => (fulfilled, label :: unfulfilled)
      end
  end.

Definition extractRequirements (judge : JudgeResponse.t)
    : list string * list string :=
  let verdict := JudgeResponse.verdict judge in
  if negb (truthy verdict) || negb (typeofObject verdict) then ([], [])
  else
    let v := verdict in
    let reqs := prop v "requirements" ?? prop v "criteria" ?? prop v "rules" in
    match reqs with
    | VArr elements => partitionRequirements elements
    | _ => ([], [])
    end.

Definition extractResolutionRuleId (judge : JudgeResponse.t)
    : option string :=
  let verdict := JudgeResponse.verdict judge in
  if negb (truthy verdict) || negb (typeofObject verdict) then None
  else
    let v := verdict in
    asOptionalString (prop v "resolution_rule_id" ?? prop v "rule_id").

(** [list.length > 0 ? list : undefined] *)
Definition nonEmpty (l : list string) : option (list string) :=
  match l with
  | [] => None
  | _ :: _ => Some l
  end.

Definition buildReport (prompt : PromptResponse.t)
    (collect : CollectResponse.t) (audit : AuditResponse.t)
    (judge : JudgeResponse.t) (bundle : BundleResponse.t) : PorReport.t :=
  let evidenceHighlights :=
    extractEvidenceHighlights (CollectResponse.evidence_bundles collect) in
  let reasoningSummary :=
    extractReasoningSummary (AuditResponse.reasoning_trace audit) in
  let (fulfilled, unfulfilled) := extractRequirements judge in
  let resolutionRuleId := extractResolutionRuleId judge in
  {| PorReport.outcome := JudgeResponse.outcome judge;
     PorReport.confidence := JudgeResponse.confidence judge;
     PorReport.resolution_rule_id := resolutionRuleId;
     PorReport.evidence_highlights := evidenceHighlights;
     PorReport.requirements_fulfilled := nonEmpty fulfilled;
     PorReport.requirements_unfulfilled := nonEmpty unfulfilled;
     PorReport.reasoning_summary := reasoningSummary;
     PorReport.roots := BundleResponse.roots bundle;
     PorReport.raw :=
       {| RawResponses.prompt_response := prompt;
          RawResponses.collect_response := collect;
          RawResponses.audit_response := audit;
          RawResponses.judge_response := judge;
          RawResponses.bundle_response := bundle |} |}.

End Report.

(* ===================================================================== *)
(** * pipeline.ts: the step sequencer                                     *)
(* ===================================================================== *)

(** Unwrap response envelope: if the API wraps results in [{ data: ... }],
    extract the inner value. *)
Definition extractData (raw : Value) : Value :=
  if truthy raw && typeofObject raw && hasProperty raw "data"
  then prop raw "data"
  else raw.

(** [schema.parse(data)] inside an [async] function: the typed output, or
    a thrown ZodError.  The message of a ZodError is zod's rendering of its
    issues; here it is the issue texts of [Zod], joined. *)
Definition parse {A : Type} (schema : Zod.Schema A) (data : Value) : Prog A :=
  match schema data with
  | Zod.Valid a => Return a
  | Zod.Invalid issues => Throw (JsError "ZodError" (String.concat "; " issues))
  end.

(** [a ?? b] for an optional option field *)
Definition orDefault {A : Type} (a : option A) (b : A) : A :=
  match a with
  | Some x => x
  | None => b
  end.

Section Pipeline.

Variable Number_toString : float -> string.

(** The payloads of the five steps, as the object literals of the
    source. *)
Definition promptPayload (query : string) (strictMode : bool) : Value :=
  VObj [ ("user_input", VStr query); ("strict_mode", VBool strictMode) ].

Definition collectPayload (promptResponse : PromptResponse.t)
    (collectors : list string) (includeRaw : bool) : Value :=
  VObj [ ("prompt_spec", PromptResponse.prompt_spec promptResponse);
         ("tool_plan", PromptResponse.tool_plan promptResponse);
         ("collectors", VArr (map VStr collectors));
         ("include_raw_content", VBool includeRaw) ].

Definition auditPayload (promptResponse : PromptResponse.t)
    (collectResponse : CollectResponse.t) : Value :=
  VObj [ ("prompt_spec", PromptResponse.prompt_spec promptResponse);
         ("evidence_bundles",
           VArr (CollectResponse.evidence_bundles collectResponse)) ].

Definition judgePayload (promptResponse : PromptResponse.t)
    (collectResponse : CollectResponse.t) (auditResponse : AuditResponse.t)
    : Value :=
  VObj [ ("prompt_spec", PromptResponse.prompt_spec promptResponse);
         ("evidence_bundles",
           VArr (CollectResponse.evidence_bundles collectResponse));
         ("reasoning_trace", AuditResponse.reasoning_trace auditResponse) ].

Definition bundlePayload (promptResponse : PromptResponse.t)
    (collectResponse : CollectResponse.t) (auditResponse : AuditResponse.t)
    (judgeResponse : JudgeResponse.t) : Value :=
  VObj [ ("prompt_spec", PromptResponse.prompt_spec promptResponse);
         ("evidence_bundles",
           VArr (CollectResponse.evidence_bundles collectResponse));
         ("reasoning_trace", AuditResponse.reasoning_trace auditResponse);
         ("verdict", JudgeResponse.verdict judgeResponse) ].

(** Run the full 5-step PoR pipeline and return a structured report. *)
Definition runPipeline (options : PipelineOptions.t) : Prog PorReport.t :=
  let client := call Number_toString (PipelineOptions.code options) in
  let collectors :=
    orDefault (PipelineOptions.collectors options)
      ["CollectorGeminiGrounded"] in
  let strictMode := orDefault (PipelineOptions.strict_mode options) false in
  let includeRaw :=
    orDefault (PipelineOptions.include_raw_content options) false in

  (* Step 1: Prompt *)
  promptRaw <- client "/step/prompt" "POST"
                 (promptPayload (PipelineOptions.query options) strictMode) ;;
  promptResponse <- parse promptResponseSchema (extractData promptRaw) ;;

  (* Step 2: Collect *)
  collectRaw <- client "/step/collect" "POST"
                  (collectPayload promptResponse collectors includeRaw) ;;
  collectResponse <- parse collectResponseSchema (extractData collectRaw) ;;

  (* Step 3: Audit *)
  auditRaw <- client "/step/audit" "POST"
                (auditPayload promptResponse collectResponse) ;;
  auditResponse <- parse auditResponseSchema (extractData auditRaw) ;;

  (* Step 4: Judge *)
  judgeRaw <- client "/step/judge" "POST"
                (judgePayload promptResponse collectResponse auditResponse) ;;
  judgeResponse <- parse judgeResponseSchema (extractData judgeRaw) ;;

  (* Step 5: Bundle *)
  bundleRaw <- client "/step/bundle" "POST"
                 (bundlePayload promptResponse collectResponse auditResponse
                    judgeResponse) ;;
  bundleResponse <- parse bundleResponseSchema (extractData bundleRaw) ;;

  Return
    (buildReport Number_toString promptResponse collectResponse
       auditResponse judgeResponse bundleResponse).

(** The five validations of one run, on the decoded bodies of the five
    steps in order. *)
Definition validateAll (promptRaw collectRaw auditRaw judgeRaw bundleRaw : Value)
    : Zod.ParseResult PorReport.t :=
  check promptResponse := promptResponseSchema (extractData promptRaw) in
  check collectResponse := collectResponseSchema (extractData collectRaw) in
  check auditResponse := auditResponseSchema (extractData auditRaw) in
  check judgeResponse := judgeResponseSchema (extractData judgeRaw) in
  check bundleResponse := bundleResponseSchema (extractData bundleRaw) in
  Zod.Valid
    (buildReport Number_toString promptResponse collectResponse
       auditResponse judgeResponse bundleResponse).

(** The envelopes of the five calls of a run that validates. *)
Definition stepEnvelopes (options : PipelineOptions.t)
    (promptResponse : PromptResponse.t) (collectResponse : CollectResponse.t)
    (auditResponse : AuditResponse.t) (judgeResponse : JudgeResponse.t)
    : list GatewayEnvelope.t :=
  let code := PipelineOptions.code options in
  [ buildEnvelope Number_toString code "/step/prompt" "POST"
      (promptPayload (PipelineOptions.query options)
         (orDefault (PipelineOptions.strict_mode options) false));
    buildEnvelope Number_toString code "/step/collect" "POST"
      (collectPayload promptResponse
         (orDefault (PipelineOptions.collectors options)
            ["CollectorGeminiGrounded"])
         (orDefault (PipelineOptions.include_raw_content options) false));
    buildEnvelope Number_toString code "/step/audit" "POST"
      (auditPayload promptResponse collectResponse);
    buildEnvelope Number_toString code "/step/judge" "POST"
      (judgePayload promptResponse collectResponse auditResponse);
    buildEnvelope Number_toString code "/step/bundle" "POST"
      (bundlePayload promptResponse collectResponse auditResponse
         judgeResponse) ].

End Pipeline.

(** A transport response with a success status whose body decodes to
    [body]. *)
Definition succeedsWith (body : Value) (response : Response.t) : Prop :=
  Response.ok response = true /\ Response.json response = inl body.

(** A rendering of numbers for the concrete runs below, none of which
    serializes a number. *)
Definition noNumberText (x : float) : string := "".

(* ===================================================================== *)
(** * schemas.ts and pipeline.ts: the capabilities query                  *)
(* ===================================================================== *)

Module CapabilitiesResponse.
Record t : Type := make {
  collectors : option (list Value);
  providers : option (list Value);
  passthrough : list (string * Value)
}.
End CapabilitiesResponse.

Definition capabilitiesResponseSchema : Zod.Schema CapabilitiesResponse.t :=
  Zod.object (fun data =>
    check collectors :=
      Zod.field data "collectors" (Zod.optional (Zod.array Zod.unknown)) in
    check providers :=
      Zod.field data "providers" (Zod.optional (Zod.array Zod.unknown)) in
    Zod.Valid
      (CapabilitiesResponse.make collectors providers
         (Zod.unknownKeys ["collectors"; "providers"] data))).

Section Capabilities.

Variable Number_toString : float -> string.

(** Query backend capabilities (available collectors/providers). *)
Definition getCapabilities (code : string) : Prog CapabilitiesResponse.t :=
  raw <- call Number_toString code "/capabilities" "GET" (VObj []) ;;
  let data := extractData raw in
  parse capabilitiesResponseSchema data.

End Capabilities.

(** What a run leaves of the transport description: the outcomes that the
    program did not ask for. *)
Fixpoint leftover {A : Type} (p : Prog A) (transport : list FetchOutcome)
    : list FetchOutcome :=
  match p with
  | Return _ => transport
  | Throw _ => transport
  | Sleep _ k => leftover k transport
  | Fetch _ k =>
      match transport with
      | [] => []
      | outcome :: rest => leftover (k outcome) rest
      end
  end.

(** The sum of the delays of a run. *)
Fixpoint total (delays : list Z) : Z :=
  match delays with
  | [] => 0
  | d :: rest => d + total rest
  end.

(** No code unit of [c] is a code unit of [m]. *)
Fixpoint noCommonCharacter (c m : string) : bool :=
  match c with
  | EmptyString => true
  | String ch rest => negb (RegExp.member ch m) && noCommonCharacter rest m
  end.

(** The six lower-case markers that [isNetworkError] looks for. *)
Definition networkMarkers : list string :=
  ["fetch"; "network"; "econnrefused"; "econnreset"; "etimedout"; "socket"].

(* ===================================================================== *)
(** * report.ts: the Markdown rendering                                   *)
(* ===================================================================== *)

(** The line feed that joins the lines. *)
Definition lineFeed : string := String "010" "".

(** The mark between the two spaces of the text that joins the parts of
    a highlight, as the code units of the UTF-8 form of the source text. *)
Definition separatorMark : string :=
  String "195" (String "162"
    (String "226" (String "130" (String "172"
       (String "226" (String "128" (String "157" "")))))))%char.

(** Truthiness of a [string | undefined]. *)
Definition isNonEmptyString (s : option string) : bool :=
  match s with
  | Some text => negb (String.eqb text "")
  | None => false
  end.

(** Truthiness of [list?.length]. *)
Definition hasEntries (l : option (list string)) : bool :=
  match l with
  | Some (_ :: _) => true
  | _ => false
  end.

(** [if (part) parts.push(rendered)] *)
Definition pushIfPresent (part : option string) (render : string -> string)
    : list string :=
  match part with
  | Some text => if String.eqb text "" then [] else [render text]
  | None => []
  end.

(** Array concatenation, written apart from string concatenation. *)
Infix "+++" := List.app (at level 61, right associativity).

(** The line of one evidence highlight. *)
Definition highlightLine (item : EvidenceHighlight.t) : string :=
  let parts :=
    pushIfPresent (EvidenceHighlight.title item)
      (fun title => "**" ++ title ++ "**")
    +++ pushIfPresent (EvidenceHighlight.source_url item)
          (fun url => "[source](" ++ url ++ ")")
    +++ pushIfPresent (EvidenceHighlight.snippet item) (fun snippet => snippet)
  in
  "- " ++ String.concat (" " ++ separatorMark ++ " ") parts.

(** The numbered lines of the reasoning summary, from index [i] on. *)
Fixpoint numberedFrom (i : nat) (entries : list string) : list string :=
  match entries with
  | [] => []
  | entry :: rest =>
      (JsString.ofZ (Z.of_nat i + 1) ++ ". " ++ entry)
        :: numberedFrom (S i) rest
  end.

Definition DISCLAIMER : string :=
  "*Don't trust the output -- verify the evidence and reasoning.*".

Section Format.

(** [x.toFixed(1)] is taken as given. *)
Variable Number_toFixed1 : float -> string.

(** The [lines] array of [formatReport] at its [return]. *)
Definition formatReportLines (report : PorReport.t) : list string :=
  [ "# PoR Report";
    "";
    "**Outcome:** " ++ PorReport.outcome report;
    "**Confidence:** "
      ++ Number_toFixed1 (PrimFloat.mul (PorReport.confidence report) 100)
      ++ "%" ]
  +++ (if isNonEmptyString (PorReport.resolution_rule_id report)
       then [ "**Resolution Rule:** "
                ++ orDefault (PorReport.resolution_rule_id report) "" ]
       else [])
  +++ [ ""; "## Evidence Highlights" ]
  +++ (match PorReport.evidence_highlights report with
       | [] => [ "No evidence highlights available." ]
       | highlights => map highlightLine highlights
       end)
  +++ (if hasEntries (PorReport.requirements_fulfilled report)
          || hasEntries (PorReport.requirements_unfulfilled report)
       then
         [ ""; "## Requirements" ]
         +++ (if hasEntries (PorReport.requirements_fulfilled report)
              then "**Fulfilled:**"
                   :: map (fun r => "- [x] " ++ r)
                        (orDefault (PorReport.requirements_fulfilled report)
                           [])
              else [])
         +++ (if hasEntries (PorReport.requirements_unfulfilled report)
              then "**Unfulfilled:**"
                   :: map (fun r => "- [ ] " ++ r)
                        (orDefault (PorReport.requirements_unfulfilled report)
                           [])
              else [])
       else [])
  +++ [ ""; "## Reasoning Summary" ]
  +++ (match PorReport.reasoning_summary report with
       | [] => [ "No reasoning steps available." ]
       | summary => numberedFrom 0 summary
       end)
  +++ [ "";
        "## PoR Roots";
        "- **Prompt Spec Hash:** `"
          ++ Roots.prompt_spec_hash (PorReport.roots report) ++ "`";
        "- **Evidence Root:** `"
          ++ Roots.evidence_root (PorReport.roots report) ++ "`";
        "- **Reasoning Root:** `"
          ++ Roots.reasoning_root (PorReport.roots report) ++ "`";
        "- **PoR Root:** `" ++ Roots.por_root (PorReport.roots report) ++ "`" ]
  +++ [ ""; "---"; DISCLAIMER ].

(** [lines.join('\n')] *)
Definition formatReport (report : PorReport.t) : string :=
  String.concat lineFeed (formatReportLines report).

End Format.

(* ===================================================================== *)
(** * cli.ts: reading the command line                                    *)
(* ===================================================================== *)

(** [args.indexOf(x)], -1 when [x] is not an element. *)
Fixpoint indexOf (args : list string) (x : string) : Z :=
  match args with
  | [] => -1
  | a :: rest =>
      if String.eqb a x then 0
      else
        let i := indexOf rest x in
        if i =? -1 then -1 else i + 1
  end.

Definition getArg (args : list string) (name : string) : option string :=
  let idx := indexOf args ("--" ++ name) in
  if (idx =? -1) || (idx + 1 >=? Z.of_nat (List.length args)) then None
  else nth_error args (Z.to_nat (idx + 1)).

Definition hasFlag (args : list string) (name : string) : bool :=
  existsb (String.eqb ("--" ++ name)) args.

(** [s.split(sep)] for a separator of one code unit. *)
Fixpoint splitOn (sep : ascii) (s : string) : list string :=
  match s with
  | EmptyString => [ "" ]
  | String ch rest =>
      if Ascii.eqb ch sep then "" :: splitOn sep rest
      else
        match splitOn sep rest with
        | first :: others => String ch first :: others
        | [] => [ String ch "" ]
        end
  end.

(** What [main] goes on to do once it has read [args], which stands for
    [process.argv.slice(2)]: print the usage and exit with 0, print error
    lines and exit with 1, or start one of the two gateway runs (whose
    printing of the result is not part of this model). *)
Inductive Action : Type :=
| PrintUsage
| ReportError (errorLines : list string)
| RunCapabilities (code : string)
| RunResolve (options : PipelineOptions.t) (json : bool).

Definition main (args : list string) : Action :=
  let command := nth_error args 0 in
  if negb (isNonEmptyString command)
     || String.eqb (orDefault command "") "--help"
     || String.eqb (orDefault command "") "-h"
  then PrintUsage
  else
    let code := getArg args "code" in
    if negb (isNonEmptyString code) then
      ReportError
        [ "Error: --code is required. Provide your Cournot access code." ]
    else if String.eqb (orDefault command "") "capabilities" then
      RunCapabilities (orDefault code "")
    else if String.eqb (orDefault command "") "resolve" then
      let query := getArg args "query" in
      if negb (isNonEmptyString query) then
        ReportError [ "Error: --query is required." ]
      else
        let collectorsArg := getArg args "collectors" in
        let collectors :=
          if isNonEmptyString collectorsArg
          then Some (splitOn "," (orDefault collectorsArg ""))
          else None in
        RunResolve
          {| PipelineOptions.query := orDefault query "";
             PipelineOptions.code := orDefault code "";
             PipelineOptions.strict_mode := Some (hasFlag args "strict");
             PipelineOptions.collectors := collectors;
             PipelineOptions.include_raw_content :=
               Some (hasFlag args "include-raw") |}
          (hasFlag args "json")
    else
      ReportError [ "Unknown command: " ++ orDefault command "";
                    "Run with --help for usage information." ].

(* ===================================================================== *)
(** * Sample transports, after the test suites                            *)
(* ===================================================================== *)

(** A success response that decodes to [body]. *)
Definition jsonResponse (body : Value) : Response.t :=
  {| Response.status := 200;
     Response.text := None;
     Response.json := inl body |}.

(** An error response with a plain-text body. *)
Definition errorResponse (status : Z) (body : string) : Response.t :=
  {| Response.status := status;
     Response.text := Some body;
     Response.json := inr (JsError "SyntaxError" "Unexpected token") |}.

Definition MOCK_PROMPT_RESPONSE : Value :=
  VObj [ ("data",
    VObj [ ("market_id", VStr "market-123");
           ("prompt_spec",
             VObj [("id", VStr "spec-1"); ("query", VStr "Will it rain?")]);
           ("tool_plan", VObj [("tools", VArr [VStr "search"])]);
           ("metadata", VObj [("source", VStr "test")]) ]) ].

Definition MOCK_COLLECT_RESPONSE : Value :=
  VObj [ ("data",
    VObj [ ("evidence_bundles",
             VArr [ VObj [ ("items",
               VArr [ VObj [ ("title", VStr "Weather Report");
                             ("source_url", VStr "https://weather.example.com");
                             ("snippet", VStr "Rain expected tomorrow") ];
                      VObj [ ("title", VStr "Climate Data");
                             ("url", VStr "https://climate.example.com");
                             ("text", VStr "Precipitation probability 80%") ]
                    ]) ] ]);
           ("collectors_used", VArr [VStr "CollectorGeminiGrounded"]);
           ("execution_logs", VArr []);
           ("errors", VArr []) ]) ].

Definition MOCK_AUDIT_RESPONSE : Value :=
  VObj [ ("data",
    VObj [ ("reasoning_trace",
             VArr [ VObj [("description",
                           VStr "Analyzed weather forecasts from multiple sources")];
                    VObj [("description",
                           VStr "Cross-referenced with historical precipitation data")];
                    VObj [("description",
                           VStr "Evaluated confidence based on forecast agreement")]
                  ]);
           ("errors", VArr []) ]) ].

(** [0.85] is read as the nearest binary64 number. *)
Definition MOCK_JUDGE_RESPONSE : Value :=
  VObj [ ("data",
    VObj [ ("verdict",
             VObj [ ("resolution_rule_id", VStr "RULE-001");
                    ("requirements",
                      VArr [ VObj [ ("description", VStr "Multiple sources agree");
                                    ("fulfilled", VBool true) ];
                             VObj [ ("description", VStr "Recent data available");
                                    ("fulfilled", VBool true) ];
                             VObj [ ("description", VStr "Official source confirms");
                                    ("fulfilled", VBool false) ] ]) ]);
           ("outcome", VStr "YES");
           ("confidence", VNum 0x1.b333333333333p-1%float);
           ("errors", VArr []) ]) ].

Definition MOCK_BUNDLE_RESPONSE : Value :=
  VObj [ ("data",
    VObj [ ("por_bundle", VObj [("version", VNum 1%float); ("steps", VNum 5%float)]);
           ("por_root", VStr "0xabc123");
           ("roots",
             VObj [ ("prompt_spec_hash", VStr "0xdef456");
                    ("evidence_root", VStr "0x789abc");
                    ("reasoning_root", VStr "0xdef012");
                    ("por_root", VStr "0xabc123") ]);
           ("errors", VArr []) ]) ].

(** The responses of the test "handles non-wrapped responses (no data
    envelope)"; [0.3] is read as the nearest binary64 number. *)
Definition UNWRAPPED_PROMPT : Value :=
  VObj [ ("market_id", VStr "market-123");
         ("prompt_spec", VObj [("id", VStr "spec-1")]);
         ("tool_plan", VObj [("tools", VArr [])]) ].

Definition UNWRAPPED_COLLECT : Value :=
  VObj [ ("evidence_bundles", VArr []); ("collectors_used", VArr []);
         ("errors", VArr []) ].

Definition UNWRAPPED_AUDIT : Value :=
  VObj [ ("reasoning_trace", VArr []); ("errors", VArr []) ].

Definition UNWRAPPED_JUDGE : Value :=
  VObj [ ("verdict", VObj []); ("outcome", VStr "NO");
         ("confidence", VNum 0x1.3333333333333p-2%float);
         ("errors", VArr []) ].

Definition UNWRAPPED_BUNDLE : Value :=
  VObj [ ("por_bundle", VObj []);
         ("por_root", VStr "0x111");
         ("roots",
           VObj [ ("prompt_spec_hash", VStr "0x222");
                  ("evidence_root", VStr "0x333");
                  ("reasoning_root", VStr "0x444");
                  ("por_root", VStr "0x111") ]);
         ("errors", VArr []) ].

Definition testOptions : PipelineOptions.t :=
  {| PipelineOptions.query := "Will it rain?";
     PipelineOptions.code := "testCode";
     PipelineOptions.strict_mode := None;
     PipelineOptions.collectors := None;
     PipelineOptions.include_raw_content := None |}.

(** Twenty evidence items in one bundle, as in the test "limits evidence
    highlights to 10". *)
Definition manyItems : list Value :=
  map (fun i : nat =>
         VObj [ ("title", VStr ("Item " ++ JsString.ofZ (Z.of_nat i)));
                ("snippet", VStr ("Snippet " ++ JsString.ofZ (Z.of_nat i))) ])
    (seq 0 20).

(* ===================================================================== *)
(** * Properties of the string operations                                 *)
(* ===================================================================== *)

Lemma append_assoc (a b c : string) : (a ++ b) ++ c = a ++ (b ++ c).
Proof. induction a as [|x a IH]; simpl; [reflexivity | now rewrite IH]. Qed.

Lemma length_append (a b : string) :
  String.length (a ++ b) = (String.length a + String.length b)%nat.
Proof. induction a as [|x a IH]; simpl; [reflexivity | now rewrite IH]. Qed.

Lemma startsWith_append (c v : string) : JsString.startsWith (c ++ v) c = true.
Proof.
  induction c as [|x c IH]; simpl; [reflexivity|].
  now rewrite Ascii.eqb_refl, IH.
Qed.

Lemma startsWith_split (t c : string) :
  JsString.startsWith t c = true -> exists v, t = c ++ v.
Proof.
  revert t; induction c as [|x c IH]; intros t H.
  - now exists t.
  - destruct t as [|y t]; simpl in H; [discriminate|].
    apply andb_true_iff in H as [Hxy Ht].
    apply Ascii.eqb_eq in Hxy; subst y.
    destruct (IH _ Ht) as [v ->]. now exists v.
Qed.

(** Whether [x ++ y] starts with [c] is decided by [x] alone once [x] is
    at least as long as [c]. *)
Lemma startsWith_long_prefix (x y c : string) :
  (String.length c <= String.length x)%nat ->
  JsString.startsWith (x ++ y) c = JsString.startsWith x c.
Proof.
  revert x; induction c as [|a c IH]; intros x Hlen; [reflexivity|].
  destruct x as [|b x]; simpl in *; [lia|].
  rewrite IH by lia. reflexivity.
Qed.

Lemma includes_cons_false (ch : ascii) (t c : string) :
  JsString.includes (String ch t) c = false ->
  JsString.startsWith (String ch t) c = false /\ JsString.includes t c = false.
Proof. simpl. intros H. now apply orb_false_iff in H. Qed.

Lemma includes_startsWith (t c : string) :
  JsString.startsWith t c = true -> JsString.includes t c = true.
Proof. intros H. destruct t; simpl; now rewrite H. Qed.

(** [includes] decides literal occurrence. *)
Lemma includes_occurs (t c : string) :
  JsString.includes t c = true <-> JsString.occurs c t.
Proof.
  split.
  - induction t as [|ch t IH]; simpl; intros H.
    + rewrite orb_false_r in H. destruct (startsWith_split _ _ H) as [v Hv].
      exists "", v. exact Hv.
    + apply orb_true_iff in H as [H|H].
      * destruct (startsWith_split _ _ H) as [v Hv]. exists "", v. exact Hv.
      * destruct (IH H) as (p & s & ->). now exists (String ch p), s.
  - intros (p & s & ->). induction p as [|ch p IH].
    + apply includes_startsWith. exact (startsWith_append c s).
    + simpl. rewrite IH. apply orb_true_r.
Qed.

Lemma includes_infix (a b c : string) :
  JsString.includes (a ++ b ++ c) b = true.
Proof. apply includes_occurs. now exists a, c. Qed.

Lemma dropLast_snoc (c : string) :
  c <> "" -> exists z, c = JsString.dropLast c ++ String z "".
Proof.
  induction c as [|x c IH]; intros H; [congruence|].
  destruct c as [|y c].
  - now exists x.
  - destruct IH as [z Hz]; [discriminate|].
    exists z. change (JsString.dropLast (String x (String y c)))
      with (String x (JsString.dropLast (String y c))).
    change (String x (JsString.dropLast (String y c)) ++ String z "")
      with (String x (JsString.dropLast (String y c) ++ String z "")).
    now rewrite <- Hz.
Qed.

Lemma length_dropLast (c : string) :
  String.length (JsString.dropLast c) = Nat.pred (String.length c).
Proof.
  induction c as [|x c IH]; [reflexivity|].
  destruct c as [|y c]; [reflexivity|].
  change (JsString.dropLast (String x (String y c)))
    with (String x (JsString.dropLast (String y c))).
  cbn [String.length Nat.pred]. rewrite IH. reflexivity.
Qed.

(* ===================================================================== *)
(** * Redaction                                                           *)
(* ===================================================================== *)

Example redactCode_once :
  redactCode "Error with code cosZMi in request" "cosZMi"
  = "Error with code [REDACTED] in request".
Proof. reflexivity. Qed.

Example redactCode_twice :
  redactCode "cosZMi appears twice: cosZMi" "cosZMi"
  = "[REDACTED] appears twice: [REDACTED]".
Proof. reflexivity. Qed.

Example redactCode_metacharacters :
  redactCode "code a+b.c here, not aab!c" "a+b.c"
  = "code [REDACTED] here, not aab!c".
Proof. reflexivity. Qed.

(** Without the escaping step the same credential would be read as a
    pattern: the dot is a wildcard there. *)
Example unescaped_dot_is_a_wildcard :
  option_map (fun re => RegExp.replaceAll re (fun _ => REDACTED) "b.c or b!c")
    (RegExp.compile "b.c")
  = Some "[REDACTED] or [REDACTED]".
Proof. reflexivity. Qed.

(** Without the guard on the empty credential the empty pattern would match
    at every position. *)
Example empty_pattern_matches_everywhere :
  option_map (fun re => RegExp.replaceAll re (fun _ => "#") "abc")
    (RegExp.compile (escapeRegExp ""))
  = Some "#a#b#c#".
Proof. reflexivity. Qed.

Lemma not_syntax_not_special (ch : ascii) :
  RegExp.isSyntaxCharacter ch = false ->
  Ascii.eqb ch "\" = false /\ Ascii.eqb ch "." = false.
Proof.
  unfold RegExp.isSyntaxCharacter, RegExp.syntaxCharacters. simpl.
  intros H. repeat (apply orb_false_iff in H as [? H]).
  split; rewrite Ascii.eqb_sym; assumption.
Qed.

(** The first [replace] of [redactCode] puts a backslash in front of every
    syntax character and copies the others. *)
Lemma escapeRegExp_cons (ch : ascii) (rest : string) :
  escapeRegExp (String ch rest) =
  if RegExp.isSyntaxCharacter ch
  then String "\" (String ch (escapeRegExp rest))
  else String ch (escapeRegExp rest).
Proof.
  unfold escapeRegExp, RegExp.replaceAll.
  cbn [RegExp.replaceFrom RegExp.matchAt RegExp.atomMatches].
  fold (RegExp.isSyntaxCharacter ch).
  destruct (RegExp.isSyntaxCharacter ch); reflexivity.
Qed.

(** The RegExp constructor accepts every escaped credential, and reads it
    as the pattern of its literal characters. *)
Lemma compile_escapeRegExp (c : string) :
  RegExp.compile (escapeRegExp c) = Some (RegExp.literal c).
Proof.
  induction c as [|ch c IH]; [reflexivity|].
  rewrite escapeRegExp_cons.
  destruct (RegExp.isSyntaxCharacter ch) eqn:Hsyn.
  - cbn [RegExp.compile]. rewrite Ascii.eqb_refl, Hsyn, IH. reflexivity.
  - destruct (not_syntax_not_special _ Hsyn) as [Hb Hd].
    cbn [RegExp.compile]. rewrite Hb, Hd, Hsyn, IH. reflexivity.
Qed.

Lemma matchAt_literal (c t : string) :
  RegExp.matchAt (RegExp.literal c) t =
  if JsString.startsWith t c then Some (String.length c) else None.
Proof.
  revert t; induction c as [|x c IH]; intros t.
  - destruct t; reflexivity.
  - destruct t as [|y t]; [reflexivity|].
    cbn [RegExp.literal RegExp.matchAt RegExp.atomMatches JsString.startsWith].
    destruct (Ascii.eqb x y); [|reflexivity].
    rewrite IH. simpl. destruct (JsString.startsWith t c); reflexivity.
Qed.

(** Stepping over the rest of a match. *)
Lemma replaceFrom_skips (re : RegExp.pattern) (f : string -> string)
    (x v : string) :
  RegExp.replaceFrom re f (String.length x) (x ++ v)
  = RegExp.replaceFrom re f O v.
Proof.
  induction x as [|a x IH]; [reflexivity|].
  simpl String.length. simpl append. cbn [RegExp.replaceFrom]. exact IH.
Qed.

Lemma redactCode_literal (t c : string) :
  c <> "" ->
  redactCode t c = RegExp.replaceAll (RegExp.literal c) (fun _ => REDACTED) t.
Proof.
  intros Hc. unfold redactCode.
  destruct (String.eqb_spec c ""); [contradiction|].
  now rewrite compile_escapeRegExp.
Qed.

Lemma redactCode_empty_code (t : string) : redactCode t "" = t.
Proof. reflexivity. Qed.

(** A position where the credential does not start is copied. *)
Lemma replaceAll_literal_copy (c rest : string) (ch : ascii)
    (f : string -> string) :
  JsString.startsWith (String ch rest) c = false ->
  RegExp.replaceAll (RegExp.literal c) f (String ch rest)
  = String ch (RegExp.replaceAll (RegExp.literal c) f rest).
Proof.
  intros H. unfold RegExp.replaceAll. cbn [RegExp.replaceFrom].
  rewrite matchAt_literal, H. reflexivity.
Qed.

(** A position where the credential starts is replaced, and the scan
    resumes right after it. *)
Lemma replaceAll_literal_hit (c v marker : string) :
  c <> "" ->
  RegExp.replaceAll (RegExp.literal c) (fun _ => marker) (c ++ v)
  = marker ++ RegExp.replaceAll (RegExp.literal c) (fun _ => marker) v.
Proof.
  intros Hc. destruct c as [|x c]; [congruence|].
  unfold RegExp.replaceAll. simpl append. cbn [RegExp.replaceFrom].
  rewrite matchAt_literal.
  change (String x (c ++ v)) with (String x c ++ v).
  rewrite startsWith_append. cbn [String.length].
  f_equal. apply replaceFrom_skips.
Qed.

Lemma redactCode_no_occurrence (t c : string) :
  JsString.includes t c = false -> redactCode t c = t.
Proof.
  destruct (String.eqb_spec c "") as [->|Hc]; [reflexivity|].
  rewrite redactCode_literal by assumption.
  induction t as [|ch t IH]; intros H.
  - destruct c; [congruence | reflexivity].
  - apply includes_cons_false in H as [Hs Hi].
    rewrite replaceAll_literal_copy by assumption.
    now rewrite IH.
Qed.

Lemma redactCode_leftmost (u c v : string) :
  c <> "" ->
  JsString.includes (u ++ JsString.dropLast c) c = false ->
  redactCode (u ++ c ++ v) c = u ++ REDACTED ++ redactCode v c.
Proof.
  intros Hc. rewrite !redactCode_literal by assumption.
  induction u as [|ch u IH]; intros H.
  - cbn [append]. apply replaceAll_literal_hit; assumption.
  - cbn [append] in H. apply includes_cons_false in H as [Hs Hi].
    cbn [append]. rewrite replaceAll_literal_copy.
    + now rewrite IH.
    + destruct (dropLast_snoc c Hc) as [z Hz].
      rewrite Hz at 1. rewrite append_assoc.
      rewrite <- (append_assoc u).
      change (String ch ((u ++ JsString.dropLast c) ++ String z "" ++ v))
        with (String ch (u ++ JsString.dropLast c) ++ String z "" ++ v).
      rewrite startsWith_long_prefix; [exact Hs|].
      cbn [String.length]. rewrite length_append, length_dropLast.
      destruct c; [congruence|]. simpl. lia.
Qed.

Lemma includes_append_false (x y c : string) :
  JsString.includes (x ++ y) c = false -> JsString.includes x c = false.
Proof.
  intros H. destruct (JsString.includes x c) eqn:Hx; [|reflexivity].
  apply includes_occurs in Hx as (p & s & ->).
  assert (Hocc : JsString.includes ((p ++ c ++ s) ++ y) c = true).
  { apply includes_occurs. exists p, (s ++ y).
    now rewrite !append_assoc. }
  congruence.
Qed.

(** A text cut into [parts] by the occurrences of the credential is
    redacted part by part. *)
Lemma redactCode_joined (c : string) (parts : list string) :
  c <> "" ->
  Forall (fun u => JsString.includes (u ++ JsString.dropLast c) c = false)
    parts ->
  redactCode (String.concat c parts) c = String.concat REDACTED parts.
Proof.
  intros Hc Hparts. induction Hparts as [|u rest Hu Hrest IH].
  - apply redactCode_no_occurrence. destruct c; [congruence | reflexivity].
  - destruct rest as [|u' rest].
    + cbn [String.concat]. apply redactCode_no_occurrence.
      exact (includes_append_false _ _ _ Hu).
    + change (String.concat c (u :: u' :: rest))
        with (u ++ c ++ String.concat c (u' :: rest)).
      change (String.concat REDACTED (u :: u' :: rest))
        with (u ++ REDACTED ++ String.concat REDACTED (u' :: rest)).
      rewrite redactCode_leftmost by assumption.
      now rewrite IH.
Qed.

(** C1.  [redactCode(t, c)] leaves [t] unchanged when [c] is empty.  For any
    other [c] the pattern built from the escaped credential is the literal
    pattern of [c], whatever metacharacters [c] holds, and the result is
    [t] with every occurrence of [c], found from left to right, replaced
    by the marker: a text without occurrence is returned as it is; a text
    [u ++ c ++ v] whose leftmost occurrence of [c] starts after [u]
    becomes [u], the marker, and the redaction of [v]; and so a text made
    of parts joined by [c], where [c] occurs nowhere else, becomes the
    same parts joined by the marker. *)
Theorem redactCode_replaces_every_occurrence :
  (forall t, redactCode t "" = t) /\
  (forall c, RegExp.compile (escapeRegExp c) = Some (RegExp.literal c)) /\
  (forall t c, JsString.includes t c = false -> redactCode t c = t) /\
  (forall u c v,
      c <> "" ->
      JsString.includes (u ++ JsString.dropLast c) c = false ->
      redactCode (u ++ c ++ v) c = u ++ "[REDACTED]" ++ redactCode v c) /\
  (forall c parts,
      c <> "" ->
      Forall (fun u => JsString.includes (u ++ JsString.dropLast c) c = false)
        parts ->
      redactCode (String.concat c parts) c = String.concat "[REDACTED]" parts).
Proof.
  split; [exact redactCode_empty_code|].
  split; [exact compile_escapeRegExp|].
  split; [exact redactCode_no_occurrence|].
  split; [exact redactCode_leftmost | exact redactCode_joined].
Qed.

(* ===================================================================== *)
(** * The call primitive                                                  *)
(* ===================================================================== *)

Section CallProperties.

Variable Number_toString : float -> string.
Variables (code path method : string) (payload : Value).

Local Abbreviation theRequest :=
  (gatewayRequest Number_toString
     (buildEnvelope Number_toString code path method payload)).
Local Abbreviation loop :=
  (retryLoop Number_toString code path method payload).

Lemma gatewayMessage_startsWith (status : Z) (p safeBody : string) :
  JsString.startsWith (gatewayMessage status p safeBody) "Gateway returned"
  = true.
Proof. reflexivity. Qed.

(** The [catch] clause either records a network error and continues, or
    rethrows what it caught. *)
Lemma catchClause_cases (err : Thrown) :
  (exists e, catchClause code path err = Return (Continue e))
  \/ catchClause code path err = Throw err.
Proof.
  destruct err as [name message | v]; [|now right].
  unfold catchClause.
  destruct (negb (JsString.startsWith message "Gateway returned")
            && isNetworkError (JsError name message)); eauto.
Qed.

(** One turn of the loop against a transport that settles. *)
Lemma exec_retryLoop_step (remaining : nat) (attempt : Z)
    (lastError : option Thrown) (outcome : FetchOutcome)
    (rest : list FetchOutcome) :
  exec (loop (S remaining) attempt lastError) (outcome :: rest) =
  match settled code path outcome with
  | inl (ReturnData data) =>
      ((delayBefore attempt ++ [EvFetch theRequest])%list, Returned data)
  | inl (Continue err) =>
      let (trace, result) :=
        exec (loop remaining (attempt + 1) (Some err)) rest in
      ((delayBefore attempt ++ EvFetch theRequest :: trace)%list, result)
  | inr err =>
      ((delayBefore attempt ++ [EvFetch theRequest])%list, Threw err)
  end.
Proof.
  unfold delayBefore. cbn [retryLoop].
  set (next := loop remaining (attempt + 1)).
  assert (Hturn :
    exec (completion <-
            tryCatch (tryBlock Number_toString code path method payload)
              (catchClause code path) ;;
          match completion with
          | ReturnData data => Return data
          | Continue err => next (Some err)
          end) (outcome :: rest)
    = match settled code path outcome with
      | inl (ReturnData data) => ([EvFetch theRequest], Returned data)
      | inl (Continue err) =>
          let (trace, result) := exec (next (Some err)) rest in
          (EvFetch theRequest :: trace, result)
      | inr err => ([EvFetch theRequest], Threw err)
      end).
  { unfold tryBlock, awaitFetch. cbn [bind tryCatch exec].
    destruct outcome as [response | err]; cbn [bind tryCatch settled].
    - unfold handleResponse.
      destruct (negb (Response.ok response)).
      + cbv zeta.
        destruct (isTransientError (Response.status response)).
        * cbn [bind tryCatch exec]. reflexivity.
        * cbn [bind tryCatch]. unfold newError, catchClause.
          rewrite gatewayMessage_startsWith. reflexivity.
      + unfold awaitJson.
        destruct (Response.json response) as [data | err];
          cbn [bind tryCatch exec]; [reflexivity|].
        destruct (catchClause_cases err) as [[e ->] | ->];
          cbn [bind exec]; reflexivity.
    - destruct (catchClause_cases err) as [[e ->] | ->];
        cbn [bind exec]; reflexivity. }
  destruct (attempt >? 0).
  - cbn [exec]. rewrite Hturn.
    destruct (settled code path outcome) as [[data | err] | err];
      try reflexivity.
    destruct (exec (next (Some err)) rest); reflexivity.
  - rewrite Hturn.
    destruct (settled code path outcome) as [[data | err] | err];
      reflexivity.
Qed.

(** One turn of the loop against a transport that says no more. *)
Lemma exec_retryLoop_pending (remaining : nat) (attempt : Z)
    (lastError : option Thrown) :
  exec (loop (S remaining) attempt lastError) [] =
  ((delayBefore attempt ++ [EvFetch theRequest])%list, Pending).
Proof.
  unfold delayBefore. cbn [retryLoop].
  destruct (attempt >? 0); reflexivity.
Qed.

Lemma exec_retryLoop_exhausted (attempt : Z) (err : Thrown)
    (transport : list FetchOutcome) :
  exec (loop O attempt (Some err)) transport = ([], Threw err).
Proof. reflexivity. Qed.

Lemma transient_not_ok (response : Response.t) :
  isTransientError (Response.status response) = true ->
  Response.ok response = false.
Proof.
  unfold isTransientError, Response.ok. intros H.
  apply andb_false_iff.
  repeat (apply orb_true_iff in H as [H|H]); lia.
Qed.

Lemma settled_transient (response : Response.t) :
  isTransientError (Response.status response) = true ->
  settled code path (Resolved response) =
  inl (Continue
         (newError
            (gatewayMessage (Response.status response) path
               (redactCode (awaitTextOrEmpty response) code)))).
Proof.
  intros H. unfold settled.
  now rewrite (transient_not_ok _ H), H.
Qed.

Lemma settled_fatal (response : Response.t) :
  Response.ok response = false ->
  isTransientError (Response.status response) = false ->
  settled code path (Resolved response) =
  inr (newError
         (gatewayMessage (Response.status response) path
            (redactCode (awaitTextOrEmpty response) code))).
Proof. intros Hok H. unfold settled. now rewrite Hok, H. Qed.

Lemma settled_success (response : Response.t) (data : Value) :
  Response.ok response = true ->
  Response.json response = inl data ->
  settled code path (Resolved response) = inl (ReturnData data).
Proof. intros Hok H. unfold settled. now rewrite Hok, H. Qed.

Lemma settled_network (name message : string) :
  isNetworkError (JsError name message) = true ->
  JsString.startsWith message "Gateway returned" = false ->
  settled code path (Rejected (JsError name message)) =
  inl (Continue
         (newError
            (redactCode ("Network error calling " ++ path ++ ": " ++ message)
               code))).
Proof.
  intros Hnet Hstart. unfold settled, catchClause.
  now rewrite Hstart, Hnet.
Qed.

(** Every run of [call] is one, two or three attempts, all with the same
    request, with the two delays in between. *)
Lemma call_trace_shape (transport : list FetchOutcome) :
  let trace :=
    fst (exec (call Number_toString code path method payload) transport) in
  trace = [EvFetch theRequest]
  \/ trace = [EvFetch theRequest; EvSleep (backoff 1); EvFetch theRequest]
  \/ trace = [EvFetch theRequest; EvSleep (backoff 1); EvFetch theRequest;
              EvSleep (backoff 2); EvFetch theRequest].
Proof.
  unfold call, MAX_RETRIES.
  destruct transport as [|o1 transport];
    [rewrite exec_retryLoop_pending; now left|].
  rewrite exec_retryLoop_step.
  destruct (settled code path o1) as [[d1 | e1] | e1];
    [now left | | now left].
  destruct transport as [|o2 transport];
    [rewrite exec_retryLoop_pending; right; now left|].
  rewrite exec_retryLoop_step.
  destruct (settled code path o2) as [[d2 | e2] | e2];
    [right; now left | | right; now left].
  destruct transport as [|o3 transport];
    [rewrite exec_retryLoop_pending; right; now right|].
  rewrite exec_retryLoop_step.
  destruct (settled code path o3) as [[d3 | e3] | e3]; right; now right.
Qed.

(** C2, as amended.  In every run of [GatewayClient.call] the loop
    suspends before each attempt after the first, and only there, for
    [min(1000 * 2^attempt, 10000)] milliseconds: 2000 ms before the second
    attempt (index 1) and 4000 ms before the third and final one
    (index 2). *)
Theorem call_backoff_schedule (transport : list FetchOutcome) :
  let trace :=
    fst (exec (call Number_toString code path method payload) transport) in
  (trace = [EvFetch theRequest]
   \/ trace = [EvFetch theRequest; EvSleep (backoff 1); EvFetch theRequest]
   \/ trace = [EvFetch theRequest; EvSleep (backoff 1); EvFetch theRequest;
               EvSleep (backoff 2); EvFetch theRequest])
  /\ (forall attempt, backoff attempt = Z.min (1000 * 2 ^ attempt) 10000)
  /\ backoff 1 = 2000
  /\ backoff 2 = 4000.
Proof.
  split; [exact (call_trace_shape transport) | repeat split].
Qed.

(** C4.  When the first response has a non-success status that is not
    transient (not >= 500, not 429, not 408), [call] makes exactly one
    transport attempt, never suspends, and throws an error that carries
    the status code and the body with the credential redacted. *)
Theorem call_fatal_status_raises_at_once (response : Response.t)
    (rest : list FetchOutcome) :
  Response.ok response = false ->
  isTransientError (Response.status response) = false ->
  let run :=
    exec (call Number_toString code path method payload)
      (Resolved response :: rest) in
  fst run = [EvFetch theRequest]
  /\ attempts (fst run) = 1%nat
  /\ sleeps (fst run) = []
  /\ snd run =
       Threw (JsError "Error"
                ("Gateway returned "
                   ++ JsString.ofZ (Response.status response)
                   ++ " for " ++ path ++ ": "
                   ++ redactCode (awaitTextOrEmpty response) code)).
Proof.
  intros Hok Hfatal. unfold call, MAX_RETRIES.
  rewrite exec_retryLoop_step, (settled_fatal _ Hok Hfatal).
  repeat split.
Qed.

(** C5.  When the first three responses all have a transient status
    (>= 500, 429 or 408), [call] makes exactly three transport attempts
    and then throws the error of the last one, whose message contains the
    last status observed. *)
Theorem call_exhausts_three_attempts (r1 r2 r3 : Response.t)
    (rest : list FetchOutcome) :
  isTransientError (Response.status r1) = true ->
  isTransientError (Response.status r2) = true ->
  isTransientError (Response.status r3) = true ->
  let run :=
    exec (call Number_toString code path method payload)
      (Resolved r1 :: Resolved r2 :: Resolved r3 :: rest) in
  let message :=
    "Gateway returned " ++ JsString.ofZ (Response.status r3)
      ++ " for " ++ path ++ ": " ++ redactCode (awaitTextOrEmpty r3) code in
  fst run = [EvFetch theRequest; EvSleep 2000; EvFetch theRequest;
             EvSleep 4000; EvFetch theRequest]
  /\ attempts (fst run) = 3%nat
  /\ snd run = Threw (JsError "Error" message)
  /\ JsString.includes message (JsString.ofZ (Response.status r3)) = true.
Proof.
  intros H1 H2 H3. unfold call, MAX_RETRIES.
  rewrite exec_retryLoop_step, (settled_transient _ H1).
  rewrite exec_retryLoop_step, (settled_transient _ H2).
  rewrite exec_retryLoop_step, (settled_transient _ H3).
  rewrite exec_retryLoop_exhausted.
  repeat split. apply includes_infix.
Qed.

(** C6.  When the statuses of the first three responses are 500, 500 and
    200, [call] makes exactly three transport attempts, suspends before
    the second and before the third, and returns the decoded body of the
    third response. *)
Theorem call_recovers_on_third_attempt (r1 r2 r3 : Response.t)
    (data : Value) (rest : list FetchOutcome) :
  Response.status r1 = 500 ->
  Response.status r2 = 500 ->
  Response.status r3 = 200 ->
  Response.json r3 = inl data ->
  let run :=
    exec (call Number_toString code path method payload)
      (Resolved r1 :: Resolved r2 :: Resolved r3 :: rest) in
  fst run = [EvFetch theRequest; EvSleep 2000; EvFetch theRequest;
             EvSleep 4000; EvFetch theRequest]
  /\ attempts (fst run) = 3%nat
  /\ List.length (sleeps (fst run)) = 2%nat
  /\ snd run = Returned data.
Proof.
  intros H1 H2 H3 Hjson. unfold call, MAX_RETRIES.
  rewrite exec_retryLoop_step, settled_transient
    by (rewrite H1; reflexivity).
  rewrite exec_retryLoop_step, settled_transient
    by (rewrite H2; reflexivity).
  rewrite exec_retryLoop_step, (settled_success r3 data)
    by (unfold Response.ok; rewrite ?H3; auto).
  repeat split.
Qed.

(** C7, as amended.  When the first attempt throws an exception that
    [isNetworkError] recognises and whose message does not start with
    "Gateway returned", and the second attempt returns a success status
    with a body that decodes, [call] makes exactly two transport attempts
    and returns the decoded body. *)
Theorem call_retries_after_network_error (name message : string)
    (response : Response.t) (data : Value) (rest : list FetchOutcome) :
  isNetworkError (JsError name message) = true ->
  JsString.startsWith message "Gateway returned" = false ->
  Response.ok response = true ->
  Response.json response = inl data ->
  let run :=
    exec (call Number_toString code path method payload)
      (Rejected (JsError name message) :: Resolved response :: rest) in
  fst run = [EvFetch theRequest; EvSleep 2000; EvFetch theRequest]
  /\ attempts (fst run) = 2%nat
  /\ snd run = Returned data.
Proof.
  intros Hnet Hstart Hok Hjson. unfold call, MAX_RETRIES.
  rewrite exec_retryLoop_step, (settled_network _ _ Hnet Hstart).
  rewrite exec_retryLoop_step, (settled_success _ _ Hok Hjson).
  repeat split.
Qed.

(** C8.  Whatever the logical method, every transport request of every
    run of [call] (and there is at least one) is a POST to the fixed
    gateway URL with the header Content-Type: application/json, and its
    body is the JSON text of the envelope [{code, post_data, path,
    method}], where [post_data] is the JSON text of the payload carried
    as a string, hence quoted a second time. *)
Theorem call_always_posts_the_envelope (transport : list FetchOutcome) :
  let sent :=
    requests
      (fst (exec (call Number_toString code path method payload)
              transport)) in
  sent <> []
  /\ Forall (fun req =>
       Request.url req
       = "https://interface.cournot.ai/play/polymarket/ai_data"
       /\ Request.method req = "POST"
       /\ Request.headers req = [("Content-Type", "application/json")]
       /\ Request.body req =
            Json.stringifyObject Number_toString
              (GatewayEnvelope.toValue
                 (buildEnvelope Number_toString code path method payload))
       /\ GatewayEnvelope.post_data
            (buildEnvelope Number_toString code path method payload)
          = Json.stringify Number_toString payload
       /\ (forall text,
             Json.stringify Number_toString payload = Some text ->
             Request.body req =
               "{" ++ String.concat ","
                        [ Json.member "code" (QuoteJSONString code);
                          Json.member "post_data" (QuoteJSONString text);
                          Json.member "path" (QuoteJSONString path);
                          Json.member "method" (QuoteJSONString method) ]
                   ++ "}"))
       sent.
Proof.
  assert (Hreq :
    Request.url theRequest
    = "https://interface.cournot.ai/play/polymarket/ai_data"
    /\ Request.method theRequest = "POST"
    /\ Request.headers theRequest = [("Content-Type", "application/json")]
    /\ Request.body theRequest =
         Json.stringifyObject Number_toString
           (GatewayEnvelope.toValue
              (buildEnvelope Number_toString code path method payload))
    /\ GatewayEnvelope.post_data
         (buildEnvelope Number_toString code path method payload)
       = Json.stringify Number_toString payload
    /\ (forall text,
          Json.stringify Number_toString payload = Some text ->
          Request.body theRequest =
            "{" ++ String.concat ","
                     [ Json.member "code" (QuoteJSONString code);
                       Json.member "post_data" (QuoteJSONString text);
                       Json.member "path" (QuoteJSONString path);
                       Json.member "method" (QuoteJSONString method) ]
                ++ "}")).
  { repeat split. intros text Htext.
    unfold gatewayRequest, buildEnvelope, GatewayEnvelope.toValue,
      Json.member.
    cbn [Request.body GatewayEnvelope.code GatewayEnvelope.post_data
           GatewayEnvelope.path GatewayEnvelope.method].
    rewrite Htext. reflexivity. }
  cbv zeta.
  destruct (call_trace_shape transport) as [-> | [-> | ->]];
    cbn [requests];
    (split;
     [discriminate
     | repeat (apply Forall_cons; [exact Hreq|]); apply Forall_nil]).
Qed.

End CallProperties.

(* ===================================================================== *)
(** * The step sequencer                                                  *)
(* ===================================================================== *)

Lemma extractData_wrapped (raw : Value) :
  hasProperty raw "data" = true -> extractData raw = prop raw "data".
Proof. destruct raw; try discriminate. intros H. unfold extractData. now rewrite H. Qed.

Lemma extractData_unwrapped (raw : Value) :
  hasProperty raw "data" = false -> extractData raw = raw.
Proof.
  intros H. unfold extractData. rewrite H.
  now rewrite andb_false_r.
Qed.

Lemma prop_string_is_object (v : Value) (key s : string) :
  prop v key = VStr s -> truthy v = true /\ typeofObject v = true.
Proof. destruct v; try discriminate. now split. Qed.

Section PipelineProperties.

Variable Number_toString : float -> string.

(** A call whose first attempt succeeds hands the decoded body to what
    follows, after exactly one transport call. *)
Lemma exec_call_first_success {B : Type} (code path method : string)
    (payload : Value) (k : Value -> Prog B) (response : Response.t)
    (body : Value) (rest : list FetchOutcome) :
  succeedsWith body response ->
  exec (raw <- call Number_toString code path method payload ;; k raw)
    (Resolved response :: rest)
  = let (trace, result) := exec (k body) rest in
    (EvFetch (gatewayRequest Number_toString
                (buildEnvelope Number_toString code path method payload))
       :: trace, result).
Proof.
  intros [Hok Hjson].
  unfold call, MAX_RETRIES. cbn [retryLoop Z.gtb Z.compare].
  unfold tryBlock, awaitFetch. cbn [bind tryCatch exec].
  unfold handleResponse. rewrite Hok. cbn [negb].
  unfold awaitJson. rewrite Hjson. cbn [bind tryCatch]. reflexivity.
Qed.

Lemma exec_parse_valid {A B : Type} (schema : Zod.Schema A) (data : Value)
    (a : A) (k : A -> Prog B) (transport : list FetchOutcome) :
  schema data = Zod.Valid a ->
  exec (x <- parse schema data ;; k x) transport = exec (k a) transport.
Proof. intros H. unfold parse. rewrite H. reflexivity. Qed.

Lemma exec_parse_invalid {A B : Type} (schema : Zod.Schema A) (data : Value)
    (issues : list string) (k : A -> Prog B)
    (transport : list FetchOutcome) :
  schema data = Zod.Invalid issues ->
  exec (x <- parse schema data ;; k x) transport
  = ([], Threw (JsError "ZodError" (String.concat "; " issues))).
Proof. intros H. unfold parse. rewrite H. reflexivity. Qed.

Variable options : PipelineOptions.t.

(** The transport answers the five calls with success responses whose
    bodies decode to [b1] ... [b5]. *)
Variables r1 r2 r3 r4 r5 : Response.t.
Variables b1 b2 b3 b4 b5 : Value.
Variable rest : list FetchOutcome.

Hypothesis H1 : succeedsWith b1 r1.
Hypothesis H2 : succeedsWith b2 r2.
Hypothesis H3 : succeedsWith b3 r3.
Hypothesis H4 : succeedsWith b4 r4.
Hypothesis H5 : succeedsWith b5 r5.

Local Abbreviation transport :=
  (Resolved r1 :: Resolved r2 :: Resolved r3 :: Resolved r4 :: Resolved r5
     :: rest).

(** A run in which all five unwrapped bodies validate: five calls, one
    per step, and the report built from the five parsed responses. *)
Lemma runPipeline_valid_run (prompt : PromptResponse.t)
    (collect : CollectResponse.t) (audit : AuditResponse.t)
    (judge : JudgeResponse.t) (bundle : BundleResponse.t) :
  promptResponseSchema (extractData b1) = Zod.Valid prompt ->
  collectResponseSchema (extractData b2) = Zod.Valid collect ->
  auditResponseSchema (extractData b3) = Zod.Valid audit ->
  judgeResponseSchema (extractData b4) = Zod.Valid judge ->
  bundleResponseSchema (extractData b5) = Zod.Valid bundle ->
  exec (runPipeline Number_toString options) transport
  = (map (fun envelope => EvFetch (gatewayRequest Number_toString envelope))
       (stepEnvelopes Number_toString options prompt collect audit judge),
     Returned
       (buildReport Number_toString prompt collect audit judge bundle)).
Proof.
  intros V1 V2 V3 V4 V5. unfold runPipeline.
  rewrite (exec_call_first_success _ _ _ _ _ _ _ _ H1),
    (exec_parse_valid _ _ _ _ _ V1).
  rewrite (exec_call_first_success _ _ _ _ _ _ _ _ H2),
    (exec_parse_valid _ _ _ _ _ V2).
  rewrite (exec_call_first_success _ _ _ _ _ _ _ _ H3),
    (exec_parse_valid _ _ _ _ _ V3).
  rewrite (exec_call_first_success _ _ _ _ _ _ _ _ H4),
    (exec_parse_valid _ _ _ _ _ V4).
  rewrite (exec_call_first_success _ _ _ _ _ _ _ _ H5),
    (exec_parse_valid _ _ _ _ _ V5).
  reflexivity.
Qed.

(** The outcome of a run is the outcome of validating the unwrapped
    bodies in order: the report, or the first validation error. *)
Lemma runPipeline_validates_extractData :
  snd (exec (runPipeline Number_toString options) transport)
  = match validateAll Number_toString b1 b2 b3 b4 b5 with
    | Zod.Valid report => Returned report
    | Zod.Invalid issues =>
        Threw (JsError "ZodError" (String.concat "; " issues))
    end.
Proof.
  unfold runPipeline, validateAll.
  rewrite (exec_call_first_success _ _ _ _ _ _ _ _ H1).
  destruct (promptResponseSchema (extractData b1)) as [prompt|i] eqn:V1;
    [rewrite (exec_parse_valid _ _ _ _ _ V1)
    | rewrite (exec_parse_invalid _ _ _ _ _ V1); reflexivity].
  rewrite (exec_call_first_success _ _ _ _ _ _ _ _ H2).
  destruct (collectResponseSchema (extractData b2)) as [collect|i] eqn:V2;
    [rewrite (exec_parse_valid _ _ _ _ _ V2)
    | rewrite (exec_parse_invalid _ _ _ _ _ V2); reflexivity].
  rewrite (exec_call_first_success _ _ _ _ _ _ _ _ H3).
  destruct (auditResponseSchema (extractData b3)) as [audit|i] eqn:V3;
    [rewrite (exec_parse_valid _ _ _ _ _ V3)
    | rewrite (exec_parse_invalid _ _ _ _ _ V3); reflexivity].
  rewrite (exec_call_first_success _ _ _ _ _ _ _ _ H4).
  destruct (judgeResponseSchema (extractData b4)) as [judge|i] eqn:V4;
    [rewrite (exec_parse_valid _ _ _ _ _ V4)
    | rewrite (exec_parse_invalid _ _ _ _ _ V4); reflexivity].
  rewrite (exec_call_first_success _ _ _ _ _ _ _ _ H5).
  destruct (bundleResponseSchema (extractData b5)) as [bundle|i] eqn:V5;
    [rewrite (exec_parse_valid _ _ _ _ _ V5)
    | rewrite (exec_parse_invalid _ _ _ _ _ V5)]; reflexivity.
Qed.

(** C3.  When the five step responses validate and supply outcome "YES",
    confidence 0.85 (the binary64 number nearest to it), resolution rule
    id "RULE-001" and a roots object of four hash strings, [runPipeline]
    makes exactly five gateway calls, whose envelopes carry the paths
    /step/prompt, /step/collect, /step/audit, /step/judge, /step/bundle
    in this order, and returns a report whose outcome, confidence and
    roots are exactly those values. *)
Theorem runPipeline_five_calls_and_report_values
    (prompt : PromptResponse.t) (collect : CollectResponse.t)
    (audit : AuditResponse.t) (judge : JudgeResponse.t)
    (bundle : BundleResponse.t) (h1 h2 h3 h4 : string) :
  promptResponseSchema (extractData b1) = Zod.Valid prompt ->
  collectResponseSchema (extractData b2) = Zod.Valid collect ->
  auditResponseSchema (extractData b3) = Zod.Valid audit ->
  judgeResponseSchema (extractData b4) = Zod.Valid judge ->
  bundleResponseSchema (extractData b5) = Zod.Valid bundle ->
  JudgeResponse.outcome judge = "YES" ->
  JudgeResponse.confidence judge = 0x1.b333333333333p-1%float ->
  prop (JudgeResponse.verdict judge) "resolution_rule_id" = VStr "RULE-001" ->
  BundleResponse.roots bundle = Roots.make h1 h2 h3 h4 ->
  exists (envelopes : list GatewayEnvelope.t) (report : PorReport.t),
    exec (runPipeline Number_toString options) transport
    = (map (fun envelope =>
              EvFetch (gatewayRequest Number_toString envelope)) envelopes,
       Returned report)
    /\ map GatewayEnvelope.path envelopes
       = ["/step/prompt"; "/step/collect"; "/step/audit"; "/step/judge";
          "/step/bundle"]
    /\ attempts
         (fst (exec (runPipeline Number_toString options) transport))
       = 5%nat
    /\ PorReport.outcome report = "YES"
    /\ PorReport.confidence report = 0x1.b333333333333p-1%float
    /\ PorReport.roots report = Roots.make h1 h2 h3 h4
    /\ PorReport.resolution_rule_id report = Some "RULE-001".
Proof.
  intros V1 V2 V3 V4 V5 Houtcome Hconfidence Hrule Hroots.
  exists (stepEnvelopes Number_toString options prompt collect audit judge),
    (buildReport Number_toString prompt collect audit judge bundle).
  rewrite (runPipeline_valid_run _ _ _ _ _ V1 V2 V3 V4 V5).
  split; [reflexivity|]. split; [reflexivity|]. split; [reflexivity|].
  unfold buildReport.
  destruct (extractRequirements judge) as [fulfilled unfulfilled].
  cbn [PorReport.outcome PorReport.confidence PorReport.roots
         PorReport.resolution_rule_id].
  repeat split; try assumption.
  unfold extractResolutionRuleId.
  destruct (prop_string_is_object _ _ _ Hrule) as [-> ->].
  cbn [negb orb]. rewrite Hrule. reflexivity.
Qed.

(** C9.  The sequencer validates [extractData] of each decoded body:
    the value of the field "data" when the body is an object that has
    one, the whole body otherwise.  The outcome of the run is the outcome
    of these five validations in order; in particular, when no body has
    a "data" field and each body is valid for its step as it stands, all
    five validations succeed and the report is built from them. *)
Theorem runPipeline_validates_unwrapped_bodies :
  (forall raw,
      hasProperty raw "data" = true -> extractData raw = prop raw "data")
  /\ (forall raw, hasProperty raw "data" = false -> extractData raw = raw)
  /\ snd (exec (runPipeline Number_toString options) transport)
     = match validateAll Number_toString b1 b2 b3 b4 b5 with
       | Zod.Valid report => Returned report
       | Zod.Invalid issues =>
           Threw (JsError "ZodError" (String.concat "; " issues))
       end
  /\ (forall prompt collect audit judge bundle,
        hasProperty b1 "data" = false ->
        hasProperty b2 "data" = false ->
        hasProperty b3 "data" = false ->
        hasProperty b4 "data" = false ->
        hasProperty b5 "data" = false ->
        promptResponseSchema b1 = Zod.Valid prompt ->
        collectResponseSchema b2 = Zod.Valid collect ->
        auditResponseSchema b3 = Zod.Valid audit ->
        judgeResponseSchema b4 = Zod.Valid judge ->
        bundleResponseSchema b5 = Zod.Valid bundle ->
        snd (exec (runPipeline Number_toString options) transport)
        = Returned
            (buildReport Number_toString prompt collect audit judge
               bundle)).
Proof.
  split; [exact extractData_wrapped|].
  split; [exact extractData_unwrapped|].
  split; [exact runPipeline_validates_extractData|].
  intros prompt collect audit judge bundle U1 U2 U3 U4 U5 V1 V2 V3 V4 V5.
  rewrite <- (extractData_unwrapped _ U1) in V1.
  rewrite <- (extractData_unwrapped _ U2) in V2.
  rewrite <- (extractData_unwrapped _ U3) in V3.
  rewrite <- (extractData_unwrapped _ U4) in V4.
  rewrite <- (extractData_unwrapped _ U5) in V5.
  now rewrite (runPipeline_valid_run _ _ _ _ _ V1 V2 V3 V4 V5).
Qed.

End PipelineProperties.

(* ===================================================================== *)
(** * The report builder                                                  *)
(* ===================================================================== *)

Section ReportProperties.

Variable Number_toString : float -> string.

(** A value that passes the filter of [extractReasoningSummary] always
    has a JSON text. *)
Lemma stringify_nonNullObject (step : Value) :
  isNonNullObject step = true ->
  exists text, Json.stringify Number_toString step = Some text.
Proof. destruct step; try discriminate; intros _; eexists; reflexivity. Qed.

(** The recursive call of the source: an object whose [steps] (or
    [trace], or [reasoning_steps]) is an array is summarized as that
    array is. *)
Lemma extractReasoningSummary_steps (fields : list (string * Value))
    (elements : list Value) :
  prop (VObj fields) "steps" ?? prop (VObj fields) "trace"
    ?? prop (VObj fields) "reasoning_steps" = VArr elements ->
  extractReasoningSummary Number_toString (VObj fields)
  = extractReasoningSummary Number_toString (VArr elements).
Proof.
  intros H. unfold extractReasoningSummary. cbn [truthy negb].
  now rewrite H.
Qed.

Lemma length_extractEvidenceHighlights (bundles : list Value) :
  (List.length (extractEvidenceHighlights bundles) <= 10)%nat.
Proof. apply firstn_le_length. Qed.

Lemma length_summarizeSteps (trace : list Value) :
  (List.length (summarizeSteps Number_toString trace) <= 10)%nat.
Proof. apply firstn_le_length. Qed.

Lemma length_extractReasoningSummary (trace : Value) :
  (List.length (extractReasoningSummary Number_toString trace) <= 10)%nat.
Proof.
  unfold extractReasoningSummary.
  destruct (negb (truthy trace)); [simpl; lia|].
  destruct trace; try (simpl; lia).
  - apply length_summarizeSteps.
  - destruct (prop (VObj fields) "steps" ?? prop (VObj fields) "trace"
                ?? prop (VObj fields) "reasoning_steps");
      try apply length_summarizeSteps;
      destruct (prop (VObj fields) "summary" ?? prop (VObj fields) "text");
      simpl; lia.
Qed.

(** C10.  Whatever the five step responses, the report of [buildReport]
    holds at most 10 evidence highlights and at most 10 reasoning summary
    entries. *)
Theorem buildReport_at_most_ten (prompt : PromptResponse.t)
    (collect : CollectResponse.t) (audit : AuditResponse.t)
    (judge : JudgeResponse.t) (bundle : BundleResponse.t) :
  let report :=
    buildReport Number_toString prompt collect audit judge bundle in
  (List.length (PorReport.evidence_highlights report) <= 10)%nat
  /\ (List.length (PorReport.reasoning_summary report) <= 10)%nat.
Proof.
  unfold buildReport.
  destruct (extractRequirements judge) as [fulfilled unfulfilled].
  cbn [PorReport.evidence_highlights PorReport.reasoning_summary].
  split;
    [apply length_extractEvidenceHighlights
    | apply length_extractReasoningSummary].
Qed.

End ReportProperties.

(* ===================================================================== *)
(** * Concrete runs                                                       *)
(* ===================================================================== *)

Example stringify_nested :
  Json.stringify noNumberText
    (VObj [ ("user_input", VStr "Will it rain?");
            ("strict_mode", VBool false);
            ("skipped", VUndefined);
            ("tools", VArr [VNull; VUndefined; VStr "search"]) ])
  = Some ("{" ++ String.concat ","
                   [ Json.member "user_input" (QuoteJSONString "Will it rain?");
                     Json.member "strict_mode" "false";
                     Json.member "tools"
                       ("[null,null," ++ QuoteJSONString "search" ++ "]") ]
              ++ "}").
Proof. reflexivity. Qed.

(** Quotation marks, backslashes and control characters are escaped. *)
Example QuoteJSONString_escapes :
  QuoteJSONString (String quotationMark (String "\" (String "010" (String "001" "x"))))
  = String quotationMark
      (String "\" (String quotationMark
         ("\\" ++ "\n" ++ "\u0001" ++ "x" ++ String quotationMark ""))).
Proof. reflexivity. Qed.

(** "retries on 429 errors" *)
Example call_retries_on_429 :
  exec (call noNumberText "code" "/step/prompt" "POST" (VObj []))
    [ Resolved (errorResponse 429 "Rate limited");
      Resolved (jsonResponse (VObj [("ok", VBool true)])) ]
  = ( [ EvFetch (gatewayRequest noNumberText
                   (buildEnvelope noNumberText "code" "/step/prompt" "POST"
                      (VObj [])));
        EvSleep 2000;
        EvFetch (gatewayRequest noNumberText
                   (buildEnvelope noNumberText "code" "/step/prompt" "POST"
                      (VObj []))) ],
      Returned (VObj [("ok", VBool true)]) ).
Proof. reflexivity. Qed.

(** An exception that is not network-classified is not retried. *)
Example call_rethrows_unexpected_error :
  exec (call noNumberText "code" "/step/prompt" "POST" (VObj []))
    [ Rejected (JsError "TypeError" "x is not a function");
      Resolved (jsonResponse (VObj [])) ]
  = ( [ EvFetch (gatewayRequest noNumberText
                   (buildEnvelope noNumberText "code" "/step/prompt" "POST"
                      (VObj []))) ],
      Threw (JsError "TypeError" "x is not a function") ).
Proof. reflexivity. Qed.

(** C1, at the credential of the test "handles special regex characters
    in the code". *)
Lemma redactCode_replaces_every_occurrence_witness :
  "a+b.c" <> ""
  /\ JsString.includes ("code " ++ JsString.dropLast "a+b.c") "a+b.c" = false
  /\ redactCode ("code " ++ "a+b.c" ++ " here") "a+b.c"
     = "code " ++ "[REDACTED]" ++ redactCode " here" "a+b.c".
Proof.
  split; [discriminate|]. split; [reflexivity|].
  apply (proj1 (proj2 (proj2 (proj2 redactCode_replaces_every_occurrence))));
    [discriminate | reflexivity].
Defined.

(** C2: the claim fails on the run of the test "retries on 500 errors":
    the two delays are 2000 ms and 4000 ms, not 1000 ms and 2000 ms. *)
Lemma call_backoff_is_not_1s_then_2s :
  let run :=
    exec (call noNumberText "code" "/step/prompt" "POST" (VObj []))
      [ Resolved (errorResponse 500 "Internal Server Error");
        Resolved (errorResponse 500 "Internal Server Error");
        Resolved (jsonResponse (VObj [("success", VBool true)])) ] in
  attempts (fst run) = 3%nat
  /\ sleeps (fst run) = [2000; 4000]
  /\ sleeps (fst run) <> [1000; 2000].
Proof. repeat split. discriminate. Qed.

(** C4, at the run of the test "throws immediately on 4xx errors". *)
Lemma call_fatal_status_raises_at_once_witness :
  Response.ok (errorResponse 400 "Bad Request with code secret123") = false
  /\ isTransientError 400 = false
  /\ let run :=
       exec (call noNumberText "secret123" "/step/prompt" "POST" (VObj []))
         [ Resolved (errorResponse 400 "Bad Request with code secret123") ] in
     attempts (fst run) = 1%nat
     /\ snd run =
          Threw (JsError "Error"
                   "Gateway returned 400 for /step/prompt: Bad Request with code [REDACTED]").
Proof.
  split; [reflexivity|]. split; [reflexivity|].
  destruct (call_fatal_status_raises_at_once noNumberText "secret123"
              "/step/prompt" "POST" (VObj [])
              (errorResponse 400 "Bad Request with code secret123") [])
    as (_ & Hattempts & _ & Hresult); [reflexivity | reflexivity |].
  split; [exact Hattempts | exact Hresult].
Defined.

(** C5, at the run of the test "throws after max retries exhausted". *)
Lemma call_exhausts_three_attempts_witness :
  isTransientError 500 = true
  /\ let run :=
       exec (call noNumberText "code" "/step/prompt" "POST" (VObj []))
         [ Resolved (errorResponse 500 "Server Error");
           Resolved (errorResponse 500 "Server Error");
           Resolved (errorResponse 500 "Server Error") ] in
     attempts (fst run) = 3%nat
     /\ snd run =
          Threw (JsError "Error"
                   "Gateway returned 500 for /step/prompt: Server Error").
Proof.
  split; [reflexivity|].
  destruct (call_exhausts_three_attempts noNumberText "code" "/step/prompt"
              "POST" (VObj [])
              (errorResponse 500 "Server Error")
              (errorResponse 500 "Server Error")
              (errorResponse 500 "Server Error") [])
    as (_ & Hattempts & Hresult & _); [reflexivity | reflexivity | reflexivity |].
  split; [exact Hattempts | exact Hresult].
Defined.

(** C6, at the run of the test "retries on 500 errors". *)
Lemma call_recovers_on_third_attempt_witness :
  let run :=
    exec (call noNumberText "code" "/step/prompt" "POST" (VObj []))
      [ Resolved (errorResponse 500 "Internal Server Error");
        Resolved (errorResponse 500 "Internal Server Error");
        Resolved (jsonResponse (VObj [("success", VBool true)])) ] in
  attempts (fst run) = 3%nat
  /\ List.length (sleeps (fst run)) = 2%nat
  /\ snd run = Returned (VObj [("success", VBool true)]).
Proof.
  destruct (call_recovers_on_third_attempt noNumberText "code" "/step/prompt"
              "POST" (VObj [])
              (errorResponse 500 "Internal Server Error")
              (errorResponse 500 "Internal Server Error")
              (jsonResponse (VObj [("success", VBool true)]))
              (VObj [("success", VBool true)]) [])
    as (_ & Hattempts & Hsleeps & Hresult);
    [reflexivity | reflexivity | reflexivity | reflexivity |].
  split; [exact Hattempts | split; [exact Hsleeps | exact Hresult]].
Defined.

(** C7: the claim fails for a network-classified exception whose message
    starts with "Gateway returned": the [catch] clause rethrows it at
    once, and the success that the transport would give next is never
    asked for. *)
Lemma call_network_error_not_retried :
  let err := JsError "Error" "Gateway returned no response: socket hang up" in
  let run :=
    exec (call noNumberText "code" "/test" "POST" (VObj []))
      [ Rejected err;
        Resolved (jsonResponse (VObj [("recovered", VBool true)])) ] in
  isNetworkError err = true
  /\ attempts (fst run) = 1%nat
  /\ snd run = Threw err
  /\ ~ (attempts (fst run) = 2%nat
        /\ snd run = Returned (VObj [("recovered", VBool true)])).
Proof.
  repeat split. intros [H _]. discriminate H.
Qed.

(** C7 as amended, at the run of the test "retries on network errors". *)
Lemma call_retries_after_network_error_witness :
  isNetworkError (JsError "Error" "fetch failed: ECONNREFUSED") = true
  /\ JsString.startsWith "fetch failed: ECONNREFUSED" "Gateway returned" = false
  /\ let run :=
       exec (call noNumberText "code" "/test" "POST" (VObj []))
         [ Rejected (JsError "Error" "fetch failed: ECONNREFUSED");
           Resolved (jsonResponse (VObj [("recovered", VBool true)])) ] in
     attempts (fst run) = 2%nat
     /\ snd run = Returned (VObj [("recovered", VBool true)]).
Proof.
  split; [reflexivity|]. split; [reflexivity|].
  destruct (call_retries_after_network_error noNumberText "code" "/test"
              "POST" (VObj []) "Error" "fetch failed: ECONNREFUSED"
              (jsonResponse (VObj [("recovered", VBool true)]))
              (VObj [("recovered", VBool true)]) [])
    as (_ & Hattempts & Hresult);
    [reflexivity | reflexivity | reflexivity | reflexivity |].
  split; [exact Hattempts | exact Hresult].
Defined.

(** C8, at the capabilities query, whose logical method is GET. *)
Lemma call_always_posts_the_envelope_witness :
  Json.stringify noNumberText (VObj []) = Some "{}"
  /\ map Request.method
       (requests
          (fst (exec (call noNumberText "testCode" "/capabilities" "GET"
                        (VObj []))
                  [ Resolved (jsonResponse (VObj [])) ])))
     = ["POST"]
  /\ map Request.body
       (requests
          (fst (exec (call noNumberText "testCode" "/capabilities" "GET"
                        (VObj []))
                  [ Resolved (jsonResponse (VObj [])) ])))
     = [ "{" ++ String.concat ","
                  [ Json.member "code" (QuoteJSONString "testCode");
                    Json.member "post_data" (QuoteJSONString "{}");
                    Json.member "path" (QuoteJSONString "/capabilities");
                    Json.member "method" (QuoteJSONString "GET") ]
             ++ "}" ].
Proof.
  split; [reflexivity|].
  destruct (call_always_posts_the_envelope noNumberText "testCode"
              "/capabilities" "GET" (VObj [])
              [ Resolved (jsonResponse (VObj [])) ]) as [_ Hall].
  inversion Hall as [|req sent (_ & Hmethod & _ & _ & _ & Hbody) Hrest].
  split.
  - exact (f_equal (fun m => [m]) Hmethod).
  - exact (f_equal (fun b => [b]) (Hbody "{}" eq_refl)).
Defined.

(** C3, at the run of the test "executes all 5 steps in order and returns
    a report". *)
Lemma runPipeline_five_calls_and_report_values_witness :
  let run :=
    exec (runPipeline noNumberText testOptions)
      [ Resolved (jsonResponse MOCK_PROMPT_RESPONSE);
        Resolved (jsonResponse MOCK_COLLECT_RESPONSE);
        Resolved (jsonResponse MOCK_AUDIT_RESPONSE);
        Resolved (jsonResponse MOCK_JUDGE_RESPONSE);
        Resolved (jsonResponse MOCK_BUNDLE_RESPONSE) ] in
  attempts (fst run) = 5%nat
  /\ exists report,
       snd run = Returned report
       /\ PorReport.outcome report = "YES"
       /\ PorReport.confidence report = 0x1.b333333333333p-1%float
       /\ PorReport.roots report
          = Roots.make "0xdef456" "0x789abc" "0xdef012" "0xabc123"
       /\ PorReport.resolution_rule_id report = Some "RULE-001".
Proof.
  edestruct (runPipeline_five_calls_and_report_values noNumberText
               testOptions
               (jsonResponse MOCK_PROMPT_RESPONSE)
               (jsonResponse MOCK_COLLECT_RESPONSE)
               (jsonResponse MOCK_AUDIT_RESPONSE)
               (jsonResponse MOCK_JUDGE_RESPONSE)
               (jsonResponse MOCK_BUNDLE_RESPONSE)
               MOCK_PROMPT_RESPONSE MOCK_COLLECT_RESPONSE MOCK_AUDIT_RESPONSE
               MOCK_JUDGE_RESPONSE MOCK_BUNDLE_RESPONSE [])
    as (envelopes & report & Hrun & _ & Hcalls & Hout & Hconf & Hroots & Hrule);
    try (split; reflexivity); try reflexivity.
  cbv zeta. split; [exact Hcalls|].
  exists report. rewrite Hrun.
  repeat split; [exact Hout | exact Hconf | exact Hroots | exact Hrule].
Defined.

(** C9, at the run of the test "handles non-wrapped responses (no data
    envelope)". *)
Lemma runPipeline_validates_unwrapped_bodies_witness :
  hasProperty UNWRAPPED_JUDGE "data" = false
  /\ extractData UNWRAPPED_JUDGE = UNWRAPPED_JUDGE
  /\ exists report,
       snd (exec (runPipeline noNumberText testOptions)
              [ Resolved (jsonResponse UNWRAPPED_PROMPT);
                Resolved (jsonResponse UNWRAPPED_COLLECT);
                Resolved (jsonResponse UNWRAPPED_AUDIT);
                Resolved (jsonResponse UNWRAPPED_JUDGE);
                Resolved (jsonResponse UNWRAPPED_BUNDLE) ])
       = Returned report
       /\ PorReport.outcome report = "NO"
       /\ PorReport.confidence report = 0x1.3333333333333p-2%float
       /\ Roots.por_root (PorReport.roots report) = "0x111".
Proof.
  split; [reflexivity|]. split; [reflexivity|].
  destruct (runPipeline_validates_unwrapped_bodies noNumberText testOptions
              (jsonResponse UNWRAPPED_PROMPT)
              (jsonResponse UNWRAPPED_COLLECT)
              (jsonResponse UNWRAPPED_AUDIT)
              (jsonResponse UNWRAPPED_JUDGE)
              (jsonResponse UNWRAPPED_BUNDLE)
              UNWRAPPED_PROMPT UNWRAPPED_COLLECT UNWRAPPED_AUDIT
              UNWRAPPED_JUDGE UNWRAPPED_BUNDLE [])
    as (_ & _ & _ & Hunwrapped); try (split; reflexivity).
  eexists. split.
  - apply Hunwrapped; reflexivity.
  - repeat split.
Defined.

(** "limits evidence highlights to 10": twenty items give ten highlights. *)
Example extractEvidenceHighlights_cuts_at_ten :
  List.length (extractEvidenceHighlights [VObj [("items", VArr manyItems)]])
  = 10%nat.
Proof. reflexivity. Qed.

(** Twenty reasoning steps give ten summary entries, whether the trace is
    the array itself or an object that holds it under [steps]. *)
Example extractReasoningSummary_cuts_at_ten :
  List.length (extractReasoningSummary noNumberText (VArr manyItems)) = 10%nat
  /\ List.length
       (extractReasoningSummary noNumberText (VObj [("steps", VArr manyItems)]))
     = 10%nat.
Proof. split; reflexivity. Qed.

(** "extracts evidence highlights correctly" and "extracts requirements
    correctly" *)
Example runPipeline_report_details :
  match snd (exec (runPipeline noNumberText testOptions)
               [ Resolved (jsonResponse MOCK_PROMPT_RESPONSE);
                 Resolved (jsonResponse MOCK_COLLECT_RESPONSE);
                 Resolved (jsonResponse MOCK_AUDIT_RESPONSE);
                 Resolved (jsonResponse MOCK_JUDGE_RESPONSE);
                 Resolved (jsonResponse MOCK_BUNDLE_RESPONSE) ]) with
  | Returned report =>
      PorReport.evidence_highlights report
      = [ EvidenceHighlight.make (Some "Weather Report")
            (Some "https://weather.example.com")
            (Some "Rain expected tomorrow");
          EvidenceHighlight.make (Some "Climate Data")
            (Some "https://climate.example.com")
            (Some "Precipitation probability 80%") ]
      /\ PorReport.requirements_fulfilled report
         = Some ["Multiple sources agree"; "Recent data available"]
      /\ PorReport.requirements_unfulfilled report
         = Some ["Official source confirms"]
      /\ List.length (PorReport.reasoning_summary report) = 3%nat
  | _ => False
  end.
Proof. cbn. repeat split. Qed.

(** A body that fails validation stops the run at its step. *)
Example runPipeline_stops_at_invalid_body :
  exec (runPipeline noNumberText testOptions)
    [ Resolved (jsonResponse MOCK_PROMPT_RESPONSE);
      Resolved (jsonResponse (VObj [("data", VObj [("evidence_bundles", VNull)])]));
      Resolved (jsonResponse MOCK_AUDIT_RESPONSE) ]
  = ( map (fun envelope => EvFetch (gatewayRequest noNumberText envelope))
        [ buildEnvelope noNumberText "testCode" "/step/prompt" "POST"
            (promptPayload "Will it rain?" false);
          buildEnvelope noNumberText "testCode" "/step/collect" "POST"
            (VObj [ ("prompt_spec",
                      VObj [("id", VStr "spec-1"); ("query", VStr "Will it rain?")]);
                    ("tool_plan", VObj [("tools", VArr [VStr "search"])]);
                    ("collectors", VArr [VStr "CollectorGeminiGrounded"]);
                    ("include_raw_content", VBool false) ]) ],
      Threw (JsError "ZodError" "Expected array") ).
Proof. reflexivity. Qed.

(* ===================================================================== *)
(** * Further properties of the client, the sequencer, the schemas, the
      report and the command line                                         *)
(* ===================================================================== *)

(** ** Redaction removes the credential *)

Lemma member_eqb_false (a x : ascii) (m : string) :
  RegExp.member a (String x m) = false -> Ascii.eqb a x = false.
Proof.
  cbn [RegExp.member]. intros H. apply orb_false_iff in H as [H _].
  now rewrite Ascii.eqb_sym.
Qed.

Lemma startsWith_marker_false (a x : ascii) (m rest c : string) :
  RegExp.member a (String x m) = false ->
  JsString.startsWith (String x m ++ rest) (String a c) = false.
Proof.
  intros H. cbn [append JsString.startsWith].
  now rewrite (member_eqb_false _ _ _ H).
Qed.

(** An occurrence of [c] cannot start inside the marker. *)
Lemma includes_after_marker (a : ascii) (c m rest : string) :
  RegExp.member a m = false ->
  JsString.includes (m ++ rest) (String a c)
  = JsString.includes rest (String a c).
Proof.
  induction m as [|x m IH]; intros H; [reflexivity|].
  change (String x m ++ rest) with (String x (m ++ rest)).
  cbn [JsString.includes].
  change (String x (m ++ rest)) with (String x m ++ rest).
  rewrite (startsWith_marker_false _ _ _ _ _ H). cbn [orb].
  apply IH. cbn [RegExp.member] in H. now apply orb_false_iff in H as [_ H].
Qed.

Lemma includes_after_marker_all (c m rest : string) :
  c <> "" ->
  noCommonCharacter c m = true ->
  JsString.includes (m ++ rest) c = JsString.includes rest c.
Proof.
  intros Hc H. destruct c as [|a c']; [congruence|].
  cbn [noCommonCharacter] in H. apply andb_true_iff in H as [Ha _].
  apply includes_after_marker. now apply negb_true_iff in Ha.
Qed.

Section Redaction.

Variable c : string.
Hypothesis c_not_empty : c <> "".

Local Abbreviation redacted :=
  (RegExp.replaceAll (RegExp.literal c) (fun _ => REDACTED)).

Lemma redacted_empty : redacted "" = "".
Proof. destruct c; [congruence | reflexivity]. Qed.

(** Either the credential starts here and is replaced, or one code unit
    is copied. *)
Lemma redacted_cons (ch : ascii) (rest : string) :
  (exists v,
      redacted (String ch rest) = REDACTED ++ redacted v
      /\ (String.length v <= String.length rest)%nat)
  \/ (JsString.startsWith (String ch rest) c = false
      /\ redacted (String ch rest) = String ch (redacted rest)).
Proof.
  destruct (JsString.startsWith (String ch rest) c) eqn:Hs.
  - left. destruct (startsWith_split _ _ Hs) as [v Hv]. exists v. split.
    + rewrite Hv. now apply replaceAll_literal_hit.
    + apply (f_equal String.length) in Hv. rewrite length_append in Hv.
      cbn [String.length] in Hv.
      assert (String.length c <> 0)%nat
        by (destruct c; [congruence | discriminate]).
      lia.
  - right. split; [reflexivity | now apply replaceAll_literal_copy].
Qed.

(** What the redacted text starts with, the text started with, as long
    as it has no code unit of the marker. *)
Lemma startsWith_redacted (part t : string) :
  noCommonCharacter part REDACTED = true ->
  JsString.startsWith (redacted t) part = true ->
  JsString.startsWith t part = true.
Proof.
  revert t. induction part as [|a part IH]; intros t Hpart H; [reflexivity|].
  cbn [noCommonCharacter] in Hpart. apply andb_true_iff in Hpart as [Ha Hpart].
  apply negb_true_iff in Ha.
  destruct t as [|ch rest]; [now rewrite redacted_empty in H|].
  destruct (redacted_cons ch rest) as [(v & Hr & _) | [_ Hr]]; rewrite Hr in H.
  - unfold REDACTED in H.
    rewrite (startsWith_marker_false a "[" "REDACTED]" _ _ Ha) in H.
    discriminate.
  - cbn [JsString.startsWith] in *.
    apply andb_true_iff in H as [Hch H]. rewrite Hch.
    exact (IH _ Hpart H).
Qed.

Lemma includes_redacted_bounded (n : nat) (t : string) :
  (String.length t <= n)%nat ->
  noCommonCharacter c REDACTED = true ->
  JsString.includes (redacted t) c = false.
Proof.
  intros Hlen Hc. revert t Hlen.
  assert (Hempty : JsString.includes "" c = false)
    by (destruct c; [congruence | reflexivity]).
  induction n as [|n IH]; intros t Hlen.
  - destruct t; [|cbn in Hlen; lia]. now rewrite redacted_empty.
  - destruct t as [|ch rest]; [now rewrite redacted_empty|].
    cbn [String.length] in Hlen.
    destruct (redacted_cons ch rest) as [(v & Hr & Hlenv) | [Hno Hr]].
    + rewrite Hr, includes_after_marker_all by assumption.
      apply IH. lia.
    + destruct (JsString.includes (redacted (String ch rest)) c) eqn:Hi;
        [|reflexivity].
      rewrite Hr in Hi. cbn [JsString.includes] in Hi.
      rewrite (IH rest) in Hi by lia. rewrite orb_false_r in Hi.
      rewrite <- Hr in Hi. apply startsWith_redacted in Hi; [|assumption].
      congruence.
Qed.

End Redaction.

(** X1: redaction leaves no credential behind.  When the credential is
    not empty and has no code unit in common with the marker [[REDACTED]],
    the redacted text does not contain the credential anywhere (the
    replacements cannot join with their surroundings into a new
    occurrence), and redacting it again changes nothing. *)
Theorem redactCode_removes_the_credential (t c : string) :
  c <> "" ->
  noCommonCharacter c "[REDACTED]" = true ->
  JsString.includes (redactCode t c) c = false
  /\ redactCode (redactCode t c) c = redactCode t c.
Proof.
  intros Hc Hm.
  assert (H : JsString.includes (redactCode t c) c = false).
  { rewrite redactCode_literal by assumption.
    now apply (includes_redacted_bounded c Hc (String.length t)). }
  split; [exact H | now apply redactCode_no_occurrence].
Qed.

(** ** Classification of transport exceptions *)

Lemma toLowerCase_append (a b : string) :
  JsString.toLowerCase (a ++ b)
  = JsString.toLowerCase a ++ JsString.toLowerCase b.
Proof. induction a as [|x a IH]; cbn; [reflexivity | now rewrite IH]. Qed.

Lemma includes_toLowerCase (message k : string) :
  JsString.includes message k = true ->
  JsString.includes (JsString.toLowerCase message) (JsString.toLowerCase k)
  = true.
Proof.
  intros H. apply includes_occurs in H as (p & s & ->).
  rewrite !toLowerCase_append. apply includes_infix.
Qed.

(** X2: [isNetworkError] looks for its markers without regard to case: an
    error whose message contains "fetch", "network", "econnrefused",
    "econnreset", "etimedout" or "socket" in any mix of upper and lower
    case is network-classified, as is every error named AbortError; a
    thrown value that is not an Error never is. *)
Theorem isNetworkError_ignores_case :
  (forall name message k,
      In (JsString.toLowerCase k) networkMarkers ->
      JsString.includes message k = true ->
      isNetworkError (JsError name message) = true)
  /\ (forall message, isNetworkError (JsError "AbortError" message) = true)
  /\ (forall v, isNetworkError (NonError v) = false).
Proof.
  split; [|split; reflexivity].
  intros name message k Hk H. apply includes_toLowerCase in H.
  unfold isNetworkError. cbn [networkMarkers In] in Hk.
  destruct Hk as [Hk | [Hk | [Hk | [Hk | [Hk | [Hk | []]]]]]];
    rewrite <- Hk in H; rewrite H; rewrite ?orb_true_r; reflexivity.
Qed.

Lemma isNetworkError_ignores_case_witness :
  In (JsString.toLowerCase "ECONNREFUSED") networkMarkers
  /\ JsString.includes "connect ECONNREFUSED 127.0.0.1:443" "ECONNREFUSED"
     = true
  /\ isNetworkError (JsError "Error" "connect ECONNREFUSED 127.0.0.1:443")
     = true.
Proof.
  split; [cbn; tauto|]. split; [reflexivity|].
  apply (proj1 isNetworkError_ignores_case "Error"
           "connect ECONNREFUSED 127.0.0.1:443" "ECONNREFUSED");
    [cbn; tauto | reflexivity].
Defined.

(** ** More on the call primitive *)

Section CallExtras.

Variable Number_toString : float -> string.
Variables (code path method : string) (payload : Value).

Local Abbreviation theRequest :=
  (gatewayRequest Number_toString
     (buildEnvelope Number_toString code path method payload)).
Local Abbreviation theCall :=
  (call Number_toString code path method payload).




(** X4: when three attempts in a row fail with network-classified
    exceptions, [call] gives up after the third and throws a new Error
    whose message is "Network error calling <path>: <last message>" with
    the credential redacted; the first two messages are lost.  When the
    credential has no character in common with the marker, the message
    thrown does not contain it anywhere, whatever the path and the message
    of the transport were. *)
Theorem call_exhausts_on_network_errors (n1 m1 n2 m2 n3 m3 : string)
    (rest : list FetchOutcome) :
  isNetworkError (JsError n1 m1) = true ->
  isNetworkError (JsError n2 m2) = true ->
  isNetworkError (JsError n3 m3) = true ->
  JsString.startsWith m1 "Gateway returned" = false ->
  JsString.startsWith m2 "Gateway returned" = false ->
  JsString.startsWith m3 "Gateway returned" = false ->
  let message :=
    redactCode ("Network error calling " ++ path ++ ": " ++ m3) code in
  exec theCall
    (Rejected (JsError n1 m1) :: Rejected (JsError n2 m2)
       :: Rejected (JsError n3 m3) :: rest)
  = ([EvFetch theRequest; EvSleep 2000; EvFetch theRequest; EvSleep 4000;
      EvFetch theRequest],
     Threw (JsError "Error" message))
  /\ (code <> "" ->
      noCommonCharacter code "[REDACTED]" = true ->
      JsString.includes message code = false).
Proof.
  intros H1 H2 H3 S1 S2 S3. cbv zeta. split.
  - unfold call, MAX_RETRIES.
    rewrite exec_retryLoop_step, (settled_network _ _ _ _ H1 S1).
    rewrite exec_retryLoop_step, (settled_network _ _ _ _ H2 S2).
    rewrite exec_retryLoop_step, (settled_network _ _ _ _ H3 S3).
    reflexivity.
  - intros Hc Hm. rewrite redactCode_literal by assumption.
    now apply (includes_redacted_bounded code Hc
                 (String.length
                    ("Network error calling " ++ path ++ ": " ++ m3))).
Qed.

(** X5: whatever the transport does, one [call] makes at least one and at
    most three attempts, sleeps exactly once between two consecutive
    attempts, and never sleeps more than 6000 ms in all. *)
Theorem call_attempts_and_delay_bounded (transport : list FetchOutcome) :
  let trace := fst (exec theCall transport) in
  (1 <= attempts trace <= 3)%nat
  /\ List.length (sleeps trace) = (attempts trace - 1)%nat
  /\ 0 <= total (sleeps trace) <= 6000.
Proof.
  cbv zeta.
  destruct (call_trace_shape Number_toString code path method payload
              transport) as [-> | [-> | ->]];
    cbn; repeat split; lia.
Qed.


(** X7: a fatal status after a transient one ends the call at the second
    attempt: the error thrown is the one of the fatal response, and the
    recorded error of the first attempt is dropped. *)
Theorem call_fatal_status_after_transient (r1 r2 : Response.t)
    (rest : list FetchOutcome) :
  isTransientError (Response.status r1) = true ->
  Response.ok r2 = false ->
  isTransientError (Response.status r2) = false ->
  exec theCall (Resolved r1 :: Resolved r2 :: rest)
  = ([EvFetch theRequest; EvSleep 2000; EvFetch theRequest],
     Threw (JsError "Error"
              ("Gateway returned " ++ JsString.ofZ (Response.status r2)
                 ++ " for " ++ path ++ ": "
                 ++ redactCode (awaitTextOrEmpty r2) code))).
Proof.
  intros H1 Hok H2. unfold call, MAX_RETRIES.
  rewrite exec_retryLoop_step, (settled_transient _ _ _ H1).
  now rewrite exec_retryLoop_step, (settled_fatal _ _ _ Hok H2).
Qed.

End CallExtras.

(** ** Sequencing *)

Lemma exec_bind {A B : Type} (p : Prog A) (k : A -> Prog B)
    (transport : list FetchOutcome) :
  exec (bind p k) transport =
  match exec p transport with
  | (trace, Returned a) =>
      let (trace', result) := exec (k a) (leftover p transport) in
      ((trace ++ trace')%list, result)
  | (trace, Threw err) => (trace, Threw err)
  | (trace, Pending) => (trace, Pending)
  end.
Proof.
  revert transport. induction p as [a | err | ms p IH | req p IH];
    intros transport; cbn [bind exec leftover].
  - destruct (exec (k a) transport); reflexivity.
  - reflexivity.
  - rewrite IH. destruct (exec p transport) as [trace [a | err |]];
      [destruct (exec (k a) (leftover p transport)) |..]; reflexivity.
  - destruct transport as [|outcome rest]; [reflexivity|].
    rewrite IH. destruct (exec (p outcome) rest) as [trace [a | err |]];
      [destruct (exec (k a) (leftover (p outcome) rest)) |..]; reflexivity.
Qed.

(** What is left of the transport is a tail of it. *)
Lemma leftover_is_tail {A : Type} (p : Prog A)
    (transport : list FetchOutcome) :
  exists used, transport = (used ++ leftover p transport)%list.
Proof.
  revert transport. induction p as [a | err | ms p IH | req p IH];
    intros transport; cbn [leftover].
  - now exists [].
  - now exists [].
  - apply IH.
  - destruct transport as [|outcome rest]; [now exists []|].
    destruct (IH outcome rest) as [used Hused].
    exists (outcome :: used). cbn. now rewrite <- Hused.
Qed.

Lemma in_leftover {A : Type} (p : Prog A) (transport : list FetchOutcome)
    (outcome : FetchOutcome) :
  In outcome (leftover p transport) -> In outcome transport.
Proof.
  intros H. destruct (leftover_is_tail p transport) as [used Hused].
  rewrite Hused. apply in_or_app. now right.
Qed.

Lemma exec_bind_returned {A B : Type} (p : Prog A) (k : A -> Prog B)
    (transport : list FetchOutcome) (trace : list Event) (b : B) :
  exec (bind p k) transport = (trace, Returned b) ->
  exists a trace1 trace2,
    exec p transport = (trace1, Returned a)
    /\ exec (k a) (leftover p transport) = (trace2, Returned b)
    /\ trace = (trace1 ++ trace2)%list.
Proof.
  rewrite exec_bind.
  destruct (exec p transport) as [trace1 [a | err |]]; try discriminate.
  destruct (exec (k a) (leftover p transport)) as [trace2 result] eqn:Hk.
  intros H. injection H as <- ->. now exists a, trace1, trace2.
Qed.

Lemma exec_parse_returned {A : Type} (schema : Zod.Schema A) (data : Value)
    (transport : list FetchOutcome) (trace : list Event) (a : A) :
  exec (parse schema data) transport = (trace, Returned a) ->
  schema data = Zod.Valid a /\ trace = []
  /\ leftover (parse schema data) transport = transport.
Proof.
  unfold parse. destruct (schema data) as [x | issues]; cbn; intros H;
    [|discriminate].
  injection H as <- <-. repeat split.
Qed.

Lemma attempts_app (t1 t2 : list Event) :
  attempts (t1 ++ t2) = (attempts t1 + attempts t2)%nat.
Proof.
  unfold attempts. induction t1 as [|[ms | req] t1 IH]; cbn in *;
    [reflexivity | exact IH | now rewrite IH].
Qed.

Section CallReturns.

Variable Number_toString : float -> string.
Variables (code path method : string) (payload : Value).

Lemma settled_returns (outcome : FetchOutcome) (data : Value) :
  settled code path outcome = inl (ReturnData data) ->
  exists response,
    outcome = Resolved response /\ succeedsWith data response.
Proof.
  unfold settled. destruct outcome as [response | err].
  - destruct (Response.ok response) eqn:Hok; cbn [negb].
    + destruct (Response.json response) as [d | err] eqn:Hjson.
      * intros H. injection H as <-. exists response. repeat split; assumption.
      * destruct (catchClause_cases code path err) as [[e ->] | ->];
          discriminate.
    + cbv zeta. destruct (isTransientError (Response.status response));
        discriminate.
  - destruct (catchClause_cases code path err) as [[e ->] | ->]; discriminate.
Qed.

(** A call returns only what a success response of the transport decoded
    to. *)
Lemma call_returned (transport : list FetchOutcome) (trace : list Event)
    (data : Value) :
  exec (call Number_toString code path method payload) transport
  = (trace, Returned data) ->
  (1 <= attempts trace)%nat
  /\ exists response,
       In (Resolved response) transport /\ succeedsWith data response.
Proof.
  unfold call, MAX_RETRIES.
  destruct transport as [|o1 transport];
    [rewrite exec_retryLoop_pending; discriminate|].
  rewrite exec_retryLoop_step.
  destruct (settled code path o1) as [[d1 | e1] | e1] eqn:S1;
    [ | | discriminate].
  { intros H. injection H as <- <-. split; [cbn; lia|].
    destruct (settled_returns _ _ S1) as (r & -> & Hr).
    exists r. split; [now left | exact Hr]. }
  destruct transport as [|o2 transport];
    [rewrite exec_retryLoop_pending; discriminate|].
  rewrite exec_retryLoop_step.
  destruct (settled code path o2) as [[d2 | e2] | e2] eqn:S2;
    [ | | discriminate].
  { intros H. injection H as <- <-. split; [cbn; lia|].
    destruct (settled_returns _ _ S2) as (r & -> & Hr).
    exists r. split; [right; now left | exact Hr]. }
  destruct transport as [|o3 transport];
    [rewrite exec_retryLoop_pending; discriminate|].
  rewrite exec_retryLoop_step.
  destruct (settled code path o3) as [[d3 | e3] | e3] eqn:S3;
    [ | discriminate | discriminate].
  intros H. injection H as <- <-. split; [cbn; lia|].
  destruct (settled_returns _ _ S3) as (r & -> & Hr).
  exists r. split; [right; right; now left | exact Hr].
Qed.

End CallReturns.

(** ** More on the step sequencer *)

Section PipelineExtras.

Variable Number_toString : float -> string.
Variable options : PipelineOptions.t.

Local Abbreviation promptCall :=
  (call Number_toString (PipelineOptions.code options) "/step/prompt" "POST"
     (promptPayload (PipelineOptions.query options)
        (orDefault (PipelineOptions.strict_mode options) false))).

(** X8: when the first call does not return (it throws, whatever the
    reason, or the transport never answers), the run ends the same way,
    with the very trace of that call: no later step is attempted. *)
Theorem runPipeline_ends_with_the_first_call (transport : list FetchOutcome)
    (trace : list Event) :
  (forall err,
      exec promptCall transport = (trace, Threw err) ->
      exec (runPipeline Number_toString options) transport
      = (trace, Threw err))
  /\ (exec promptCall transport = (trace, Pending) ->
      exec (runPipeline Number_toString options) transport
      = (trace, Pending)).
Proof.
  split; [intros err H | intros H];
    unfold runPipeline; cbv zeta; now rewrite exec_bind, H.
Qed.

(** One step of the sequencer that lets the run go on to a result: its
    call returned the body of a success response, and the unwrapped body
    validated. *)
Lemma step_returned {A B : Type} (code path method : string)
    (payload : Value) (schema : Zod.Schema A) (k : A -> Prog B)
    (transport : list FetchOutcome) (trace : list Event) (b : B) :
  exec (raw <- call Number_toString code path method payload ;;
        x <- parse schema (extractData raw) ;; k x) transport
  = (trace, Returned b) ->
  exists body response a transport' trace1 trace2,
    In (Resolved response) transport
    /\ succeedsWith body response
    /\ schema (extractData body) = Zod.Valid a
    /\ exec (k a) transport' = (trace2, Returned b)
    /\ (forall outcome, In outcome transport' -> In outcome transport)
    /\ (1 <= attempts trace1)%nat
    /\ trace = (trace1 ++ trace2)%list.
Proof.
  intros H.
  apply exec_bind_returned in H as (body & trace1 & u & Hcall & H & ->).
  apply call_returned in Hcall as (Hn & response & Hin & Hok).
  apply exec_bind_returned in H as (a & tp & trace2 & Hparse & H & ->).
  apply exec_parse_returned in Hparse as (Hvalid & -> & Hleft).
  rewrite Hleft in H.
  exists body, response, a, (leftover (call Number_toString code path method
                                         payload) transport), trace1, trace2.
  split; [exact Hin|]. split; [exact Hok|]. split; [exact Hvalid|].
  split; [exact H|]. split; [intros outcome; apply in_leftover|].
  split; [exact Hn | reflexivity].
Qed.

(** X9: a report is never partial: when [runPipeline] returns a report,
    the transport gave five success responses whose decoded bodies, once
    unwrapped, all validated, the report is the one built from them, and
    at least five transport calls were made. *)
Theorem runPipeline_report_needs_five_valid_bodies
    (transport : list FetchOutcome) (trace : list Event)
    (report : PorReport.t) :
  exec (runPipeline Number_toString options) transport
  = (trace, Returned report) ->
  (5 <= attempts trace)%nat
  /\ exists r1 r2 r3 r4 r5 b1 b2 b3 b4 b5,
       (In (Resolved r1) transport /\ succeedsWith b1 r1)
       /\ (In (Resolved r2) transport /\ succeedsWith b2 r2)
       /\ (In (Resolved r3) transport /\ succeedsWith b3 r3)
       /\ (In (Resolved r4) transport /\ succeedsWith b4 r4)
       /\ (In (Resolved r5) transport /\ succeedsWith b5 r5)
       /\ validateAll Number_toString b1 b2 b3 b4 b5 = Zod.Valid report.
Proof.
  unfold runPipeline; cbv zeta. intros H.
  apply step_returned in H
    as (b1 & r1 & prompt & tr1 & t1 & u1 & I1 & S1 & V1 & H & T1 & N1 & ->).
  apply step_returned in H
    as (b2 & r2 & collect & tr2 & t2 & u2 & I2 & S2 & V2 & H & T2 & N2 & ->).
  apply step_returned in H
    as (b3 & r3 & audit & tr3 & t3 & u3 & I3 & S3 & V3 & H & T3 & N3 & ->).
  apply step_returned in H
    as (b4 & r4 & judge & tr4 & t4 & u4 & I4 & S4 & V4 & H & T4 & N4 & ->).
  apply step_returned in H
    as (b5 & r5 & bundle & tr5 & t5 & u5 & I5 & S5 & V5 & H & T5 & N5 & ->).
  cbn [exec] in H. injection H as <- <-.
  split.
  - rewrite !attempts_app. lia.
  - exists r1, r2, r3, r4, r5, b1, b2, b3, b4, b5.
    repeat (split; [split; auto|]).
    unfold validateAll. rewrite V1. cbn [Zod.andThen]. rewrite V2.
    cbn [Zod.andThen]. rewrite V3. cbn [Zod.andThen]. rewrite V4.
    cbn [Zod.andThen]. rewrite V5. reflexivity.
Qed.

(** The transport answers the five calls with success responses whose
    bodies decode to [b1] ... [b5]. *)
Variables r1 r2 r3 r4 r5 : Response.t.
Variables b1 b2 b3 b4 b5 : Value.
Variable rest : list FetchOutcome.

Hypothesis H1 : succeedsWith b1 r1.
Hypothesis H2 : succeedsWith b2 r2.
Hypothesis H3 : succeedsWith b3 r3.
Hypothesis H4 : succeedsWith b4 r4.
Hypothesis H5 : succeedsWith b5 r5.

Local Abbreviation transport :=
  (Resolved r1 :: Resolved r2 :: Resolved r3 :: Resolved r4 :: Resolved r5
     :: rest).

(** X10: the run stops calling at the first body that does not validate:
    the number of transport calls is the number of the step whose body
    was rejected, and five when all validate. *)
Theorem runPipeline_stops_at_first_invalid_body :
  attempts (fst (exec (runPipeline Number_toString options) transport))
  = match promptResponseSchema (extractData b1) with
    | Zod.Invalid _ => 1
    | Zod.Valid _ =>
    match collectResponseSchema (extractData b2) with
    | Zod.Invalid _ => 2
    | Zod.Valid _ =>
    match auditResponseSchema (extractData b3) with
    | Zod.Invalid _ => 3
    | Zod.Valid _ =>
    match judgeResponseSchema (extractData b4) with
    | Zod.Invalid _ => 4
    | Zod.Valid _ => 5
    end end end end%nat.
Proof.
  unfold runPipeline.
  rewrite (exec_call_first_success _ _ _ _ _ _ _ _ _ H1).
  destruct (promptResponseSchema (extractData b1)) as [prompt|i] eqn:V1;
    [rewrite (exec_parse_valid _ _ _ _ _ V1)
    | rewrite (exec_parse_invalid _ _ _ _ _ V1); reflexivity].
  rewrite (exec_call_first_success _ _ _ _ _ _ _ _ _ H2).
  destruct (collectResponseSchema (extractData b2)) as [collect|i] eqn:V2;
    [rewrite (exec_parse_valid _ _ _ _ _ V2)
    | rewrite (exec_parse_invalid _ _ _ _ _ V2); reflexivity].
  rewrite (exec_call_first_success _ _ _ _ _ _ _ _ _ H3).
  destruct (auditResponseSchema (extractData b3)) as [audit|i] eqn:V3;
    [rewrite (exec_parse_valid _ _ _ _ _ V3)
    | rewrite (exec_parse_invalid _ _ _ _ _ V3); reflexivity].
  rewrite (exec_call_first_success _ _ _ _ _ _ _ _ _ H4).
  destruct (judgeResponseSchema (extractData b4)) as [judge|i] eqn:V4;
    [rewrite (exec_parse_valid _ _ _ _ _ V4)
    | rewrite (exec_parse_invalid _ _ _ _ _ V4); reflexivity].
  rewrite (exec_call_first_success _ _ _ _ _ _ _ _ _ H5).
  destruct (bundleResponseSchema (extractData b5)) as [bundle|i] eqn:V5;
    [rewrite (exec_parse_valid _ _ _ _ _ V5)
    | rewrite (exec_parse_invalid _ _ _ _ _ V5)]; reflexivity.
Qed.

End PipelineExtras.

Lemma requests_map_fetch (sent : list Request.t) :
  requests (map EvFetch sent) = sent.
Proof.
  induction sent as [|req sent IH]; cbn; [reflexivity | now rewrite IH].
Qed.

Section PipelinePayloads.

Variable Number_toString : float -> string.
Variable options : PipelineOptions.t.
Variables r0 r1 r2 r3 r4 r5 : Response.t.
Variables b1 b2 b3 b4 b5 : Value.
Variable rest : list FetchOutcome.

Local Abbreviation send :=
  (fun path payload =>
     gatewayRequest Number_toString
       (buildEnvelope Number_toString (PipelineOptions.code options) path
          "POST" payload)).

(** X11: in a run whose five bodies validate, every request is built from
    the options and from what the earlier steps returned: the prompt
    request carries the query and the strict flag (false when not given),
    the collect request the prompt spec and tool plan of step 1 with the
    collectors (CollectorGeminiGrounded alone when not given) and the raw
    flag (false when not given), and the audit, judge and bundle requests
    carry the same prompt spec, the evidence bundles of step 2, then the
    reasoning trace of step 3, then the verdict of step 4. *)
Theorem runPipeline_threads_step_outputs (prompt : PromptResponse.t)
    (collect : CollectResponse.t) (audit : AuditResponse.t)
    (judge : JudgeResponse.t) (bundle : BundleResponse.t) :
  succeedsWith b1 r1 -> succeedsWith b2 r2 -> succeedsWith b3 r3 ->
  succeedsWith b4 r4 -> succeedsWith b5 r5 ->
  promptResponseSchema (extractData b1) = Zod.Valid prompt ->
  collectResponseSchema (extractData b2) = Zod.Valid collect ->
  auditResponseSchema (extractData b3) = Zod.Valid audit ->
  judgeResponseSchema (extractData b4) = Zod.Valid judge ->
  bundleResponseSchema (extractData b5) = Zod.Valid bundle ->
  requests
    (fst (exec (runPipeline Number_toString options)
            (Resolved r1 :: Resolved r2 :: Resolved r3 :: Resolved r4
               :: Resolved r5 :: rest)))
  = [ send "/step/prompt"
        (VObj [ ("user_input", VStr (PipelineOptions.query options));
                ("strict_mode",
                  VBool (match PipelineOptions.strict_mode options with
                         | Some flag => flag
                         | None => false
                         end)) ]);
      send "/step/collect"
        (VObj [ ("prompt_spec", PromptResponse.prompt_spec prompt);
                ("tool_plan", PromptResponse.tool_plan prompt);
                ("collectors",
                  VArr (map VStr
                          (match PipelineOptions.collectors options with
                           | Some names => names
                           | None => ["CollectorGeminiGrounded"]
                           end)));
                ("include_raw_content",
                  VBool (match PipelineOptions.include_raw_content options with
                         | Some flag => flag
                         | None => false
                         end)) ]);
      send "/step/audit"
        (VObj [ ("prompt_spec", PromptResponse.prompt_spec prompt);
                ("evidence_bundles",
                  VArr (CollectResponse.evidence_bundles collect)) ]);
      send "/step/judge"
        (VObj [ ("prompt_spec", PromptResponse.prompt_spec prompt);
                ("evidence_bundles",
                  VArr (CollectResponse.evidence_bundles collect));
                ("reasoning_trace", AuditResponse.reasoning_trace audit) ]);
      send "/step/bundle"
        (VObj [ ("prompt_spec", PromptResponse.prompt_spec prompt);
                ("evidence_bundles",
                  VArr (CollectResponse.evidence_bundles collect));
                ("reasoning_trace", AuditResponse.reasoning_trace audit);
                ("verdict", JudgeResponse.verdict judge) ]) ].
Proof.
  intros H1 H2 H3 H4 H5 V1 V2 V3 V4 V5.
  rewrite (runPipeline_valid_run Number_toString options r1 r2 r3 r4 r5
             b1 b2 b3 b4 b5 rest H1 H2 H3 H4 H5 _ _ _ _ _ V1 V2 V3 V4 V5).
  cbn [fst]. rewrite <- map_map, requests_map_fetch. reflexivity.
Qed.


End PipelinePayloads.

Section CapabilitiesExtras.

Variable Number_toString : float -> string.

(** X13: [getCapabilities] makes one gateway call with the logical path
    /capabilities, the logical method GET and the empty object as
    payload, sent as a POST like every other call; its result is the
    validation of the unwrapped body: the collectors and providers, or a
    validation error. *)
Theorem getCapabilities_asks_once (code : string) (response : Response.t)
    (body : Value) (rest : list FetchOutcome) :
  succeedsWith body response ->
  exists req,
    exec (getCapabilities Number_toString code) (Resolved response :: rest)
    = ([EvFetch req],
       match capabilitiesResponseSchema (extractData body) with
       | Zod.Valid capabilities => Returned capabilities
       | Zod.Invalid issues =>
           Threw (JsError "ZodError" (String.concat "; " issues))
       end)
    /\ Request.method req = "POST"
    /\ Request.body req =
         "{" ++ String.concat ","
                  [ Json.member "code" (QuoteJSONString code);
                    Json.member "post_data" (QuoteJSONString "{}");
                    Json.member "path" (QuoteJSONString "/capabilities");
                    Json.member "method" (QuoteJSONString "GET") ]
             ++ "}".
Proof.
  intros H.
  exists (gatewayRequest Number_toString
            (buildEnvelope Number_toString code "/capabilities" "GET"
               (VObj []))).
  split; [|split; reflexivity].
  unfold getCapabilities. cbv zeta.
  rewrite (exec_call_first_success _ _ _ _ _ _ _ _ _ H).
  unfold parse.
  destruct (capabilitiesResponseSchema (extractData body)); reflexivity.
Qed.

End CapabilitiesExtras.

(** ** What the schemas accept *)

Lemma andThen_valid {A B : Type} (r : Zod.ParseResult A)
    (f : A -> Zod.ParseResult B) (b : B) :
  Zod.andThen r f = Zod.Valid b <->
  exists a, r = Zod.Valid a /\ f a = Zod.Valid b.
Proof.
  destruct r as [a | issues]; cbn; split.
  - intros H. now exists a.
  - now intros (a' & [= <-] & H).
  - discriminate.
  - now intros (a' & [=] & _).
Qed.

Lemma string_valid (data : Value) (s : string) :
  Zod.string data = Zod.Valid s <-> data = VStr s.
Proof. destruct data; cbn; split; congruence. Qed.

Lemma number_valid (data : Value) (x : float) :
  Zod.number data = Zod.Valid x <->
  data = VNum x /\ PrimFloat.is_nan x = false.
Proof.
  destruct data; cbn; try (split; [discriminate | intros [[=] _]]).
  destruct (PrimFloat.is_nan x0) eqn:Hnan; split.
  - discriminate.
  - intros [[= ->] H]. congruence.
  - intros [= ->]. now split.
  - now intros [[= ->] _].
Qed.

Lemma each_unknown (items : list Value) :
  Zod.each Zod.unknown items = Zod.Valid items.
Proof.
  induction items as [|item items IH]; cbn; [reflexivity | now rewrite IH].
Qed.

Lemma array_unknown_valid (data : Value) (items : list Value) :
  Zod.array Zod.unknown data = Zod.Valid items <-> data = VArr items.
Proof.
  destruct data; cbn; try (split; discriminate).
  rewrite each_unknown. split; congruence.
Qed.

Lemma each_string_valid (items : list Value) (names : list string) :
  Zod.each Zod.string items = Zod.Valid names <-> items = map VStr names.
Proof.
  revert names. induction items as [|item items IH]; intros names; cbn.
  - destruct names; cbn; split; congruence.
  - rewrite andThen_valid. split.
    + intros (s & Hs & H). apply string_valid in Hs. subst item.
      apply andThen_valid in H as (others & Ho & [= <-]).
      apply IH in Ho. now subst items.
    + destruct names as [|s names]; cbn; [discriminate|].
      intros [= -> H]. exists s. split; [reflexivity|].
      apply andThen_valid. exists names. split; [now apply IH | reflexivity].
Qed.

Lemma optional_array_unknown_valid (data : Value)
    (items : option (list Value)) :
  Zod.optional (Zod.array Zod.unknown) data = Zod.Valid items <->
  match items with
  | None => data = VUndefined
  | Some l => data = VArr l
  end.
Proof.
  destruct data; cbn; try rewrite each_unknown; cbn;
    destruct items; split; congruence.
Qed.

Lemma default_array_unknown_valid (data : Value) (items : list Value) :
  Zod.default (Zod.optional (Zod.array Zod.unknown)) [] data
  = Zod.Valid items <->
  (data = VUndefined /\ items = []) \/ data = VArr items.
Proof.
  destruct data; cbn; try rewrite each_unknown; cbn; split; intros H;
    try discriminate;
    try (destruct H as [[H _] | H]; discriminate).
  - injection H as <-. now left.
  - reflexivity || (destruct H as [[_ ->] | H]; [reflexivity | discriminate]).
  - injection H as <-. now right.
  - destruct H as [[H _] | H]; [discriminate | now injection H as ->].
Qed.

Lemma object_valid {A : Type}
    (shape : list (string * Value) -> Zod.ParseResult A) (data : Value)
    (a : A) :
  Zod.object shape data = Zod.Valid a <->
  exists fields, data = VObj fields /\ shape fields = Zod.Valid a.
Proof.
  destruct data; cbn; split; try discriminate;
    try (intros (fields' & [=] & _); fail).
  - intros H. now exists fields.
  - now intros (fields' & [= <-] & H).
Qed.

(** X14: the judge schema accepts exactly the objects whose [outcome] is a
    string, whose [confidence] is a number other than NaN and whose
    [errors], when present, is an array; [verdict] is not constrained and
    may be missing.  The parsed response carries those very values, and
    an absent [errors] becomes the empty list. *)
Theorem judgeResponseSchema_accepts (data : Value) (judge : JudgeResponse.t) :
  judgeResponseSchema data = Zod.Valid judge <->
  exists fields,
    data = VObj fields
    /\ prop data "outcome" = VStr (JudgeResponse.outcome judge)
    /\ prop data "confidence" = VNum (JudgeResponse.confidence judge)
    /\ PrimFloat.is_nan (JudgeResponse.confidence judge) = false
    /\ JudgeResponse.verdict judge = prop data "verdict"
    /\ ((prop data "errors" = VUndefined /\ JudgeResponse.errors judge = [])
        \/ prop data "errors" = VArr (JudgeResponse.errors judge))
    /\ JudgeResponse.passthrough judge
       = Zod.unknownKeys ["verdict"; "outcome"; "confidence"; "errors"] fields.
Proof.
  unfold judgeResponseSchema. rewrite object_valid.
  split.
  - intros (fields & -> & H). exists fields. split; [reflexivity|].
    apply andThen_valid in H as (verdict & [= <-] & H).
    apply andThen_valid in H as (outcome & Ho & H). apply string_valid in Ho.
    apply andThen_valid in H as (confidence & Hc & H).
    apply number_valid in Hc as [Hc Hnan].
    apply andThen_valid in H as (errors & He & [= <-]).
    apply default_array_unknown_valid in He.
    cbn [JudgeResponse.outcome JudgeResponse.confidence JudgeResponse.verdict
           JudgeResponse.errors JudgeResponse.passthrough].
    repeat split; assumption.
  - intros (fields & -> & Ho & Hc & Hnan & Hv & He & Hp).
    exists fields. split; [reflexivity|].
    destruct judge as [verdict outcome confidence errors passthrough].
    cbn [JudgeResponse.outcome JudgeResponse.confidence JudgeResponse.verdict
           JudgeResponse.errors JudgeResponse.passthrough] in *.
    apply andThen_valid. exists verdict. split; [now rewrite Hv|].
    apply andThen_valid. exists outcome.
    split; [now apply string_valid|].
    apply andThen_valid. exists confidence.
    split; [now apply number_valid|].
    apply andThen_valid. exists errors.
    split; [now apply default_array_unknown_valid|].
    now rewrite Hp.
Qed.

Lemma default_array_string_valid (data : Value) (names : list string) :
  Zod.default (Zod.optional (Zod.array Zod.string)) [] data
  = Zod.Valid names <->
  (data = VUndefined /\ names = []) \/ data = VArr (map VStr names).
Proof.
  destruct data; cbn; split; intros H;
    try discriminate;
    try (destruct H as [[H _] | H]; discriminate).
  - injection H as <-. now left.
  - destruct H as [[_ ->] | H]; [reflexivity | discriminate].
  - right. apply andThen_valid in H as (o & Ho & [= <-]).
    apply andThen_valid in Ho as (l & Hl & [= <-]).
    apply each_string_valid in Hl. now subst items.
  - destruct H as [[H _] | H]; [discriminate|]. injection H as ->.
    apply andThen_valid. exists (Some names). split; [|reflexivity].
    apply andThen_valid. exists names. split; [|reflexivity].
    now apply each_string_valid.
Qed.

Lemma optional_string_valid (data : Value) (s : option string) :
  Zod.optional Zod.string data = Zod.Valid s <->
  match s with
  | None => data = VUndefined
  | Some text => data = VStr text
  end.
Proof. destruct data; cbn; destruct s; split; congruence. Qed.

Lemma optional_unknown_valid (data : Value) (v : option Value) :
  Zod.optional Zod.unknown data = Zod.Valid v <->
  match v with
  | None => data = VUndefined
  | Some x => data = x /\ x <> VUndefined
  end.
Proof.
  destruct data; cbn; destruct v; split;
    try congruence;
    try (intros [= <-]; split; [reflexivity | discriminate]);
    try (intros [<- H]; congruence).
Qed.

(** X15: the collect schema accepts exactly the objects whose
    [evidence_bundles] is an array (it is required), whose
    [collectors_used], when present, is an array of strings, and whose
    [execution_logs] and [errors], when present, are arrays.  An absent
    [collectors_used] or [errors] becomes the empty list. *)
Theorem collectResponseSchema_accepts (data : Value)
    (collect : CollectResponse.t) :
  collectResponseSchema data = Zod.Valid collect <->
  exists fields,
    data = VObj fields
    /\ prop data "evidence_bundles"
       = VArr (CollectResponse.evidence_bundles collect)
    /\ ((prop data "collectors_used" = VUndefined
         /\ CollectResponse.collectors_used collect = [])
        \/ prop data "collectors_used"
           = VArr (map VStr (CollectResponse.collectors_used collect)))
    /\ match CollectResponse.execution_logs collect with
       | None => prop data "execution_logs" = VUndefined
       | Some logs => prop data "execution_logs" = VArr logs
       end
    /\ ((prop data "errors" = VUndefined /\ CollectResponse.errors collect = [])
        \/ prop data "errors" = VArr (CollectResponse.errors collect))
    /\ CollectResponse.passthrough collect
       = Zod.unknownKeys
           ["evidence_bundles"; "collectors_used"; "execution_logs"; "errors"]
           fields.
Proof.
  unfold collectResponseSchema. rewrite object_valid.
  split.
  - intros (fields & -> & H). exists fields. split; [reflexivity|].
    apply andThen_valid in H as (bundles & Hb & H).
    apply array_unknown_valid in Hb.
    apply andThen_valid in H as (used & Hu & H).
    apply default_array_string_valid in Hu.
    apply andThen_valid in H as (logs & Hl & H).
    apply optional_array_unknown_valid in Hl.
    apply andThen_valid in H as (errors & He & [= <-]).
    apply default_array_unknown_valid in He.
    cbn [CollectResponse.evidence_bundles CollectResponse.collectors_used
           CollectResponse.execution_logs CollectResponse.errors
           CollectResponse.passthrough].
    repeat split; assumption.
  - intros (fields & -> & Hb & Hu & Hl & He & Hp).
    exists fields. split; [reflexivity|].
    destruct collect as [bundles used logs errors passthrough].
    cbn [CollectResponse.evidence_bundles CollectResponse.collectors_used
           CollectResponse.execution_logs CollectResponse.errors
           CollectResponse.passthrough] in *.
    apply andThen_valid. exists bundles.
    split; [now apply array_unknown_valid|].
    apply andThen_valid. exists used.
    split; [now apply default_array_string_valid|].
    apply andThen_valid. exists logs.
    split; [now apply optional_array_unknown_valid|].
    apply andThen_valid. exists errors.
    split; [now apply default_array_unknown_valid|].
    now rewrite Hp.
Qed.

Lemma rootsSchema_valid (data : Value) (roots : Roots.t) :
  rootsSchema data = Zod.Valid roots <->
  exists fields,
    data = VObj fields
    /\ prop data "prompt_spec_hash" = VStr (Roots.prompt_spec_hash roots)
    /\ prop data "evidence_root" = VStr (Roots.evidence_root roots)
    /\ prop data "reasoning_root" = VStr (Roots.reasoning_root roots)
    /\ prop data "por_root" = VStr (Roots.por_root roots).
Proof.
  unfold rootsSchema. rewrite object_valid. split.
  - intros (fields & -> & H). exists fields. split; [reflexivity|].
    apply andThen_valid in H as (h1 & H1 & H). apply string_valid in H1.
    apply andThen_valid in H as (h2 & H2 & H). apply string_valid in H2.
    apply andThen_valid in H as (h3 & H3 & H). apply string_valid in H3.
    apply andThen_valid in H as (h4 & H4 & [= <-]). apply string_valid in H4.
    cbn. repeat split; assumption.
  - intros (fields & -> & H1 & H2 & H3 & H4). exists fields.
    split; [reflexivity|]. destruct roots as [h1 h2 h3 h4]. cbn in *.
    apply andThen_valid. exists h1. split; [now apply string_valid|].
    apply andThen_valid. exists h2. split; [now apply string_valid|].
    apply andThen_valid. exists h3. split; [now apply string_valid|].
    apply andThen_valid. exists h4. split; [now apply string_valid|].
    reflexivity.
Qed.

(** X16: the bundle schema accepts exactly the objects that have a string
    [por_root] and an object [roots] with the four hashes
    [prompt_spec_hash], [evidence_root], [reasoning_root] and [por_root],
    all strings, and whose [errors], when present, is an array.  The
    roots of the parsed response are those four strings and nothing
    else. *)
Theorem bundleResponseSchema_accepts (data : Value)
    (bundle : BundleResponse.t) :
  bundleResponseSchema data = Zod.Valid bundle <->
  exists fields rootFields,
    data = VObj fields
    /\ BundleResponse.por_bundle bundle = prop data "por_bundle"
    /\ prop data "por_root" = VStr (BundleResponse.por_root bundle)
    /\ prop data "roots" = VObj rootFields
    /\ prop (VObj rootFields) "prompt_spec_hash"
       = VStr (Roots.prompt_spec_hash (BundleResponse.roots bundle))
    /\ prop (VObj rootFields) "evidence_root"
       = VStr (Roots.evidence_root (BundleResponse.roots bundle))
    /\ prop (VObj rootFields) "reasoning_root"
       = VStr (Roots.reasoning_root (BundleResponse.roots bundle))
    /\ prop (VObj rootFields) "por_root"
       = VStr (Roots.por_root (BundleResponse.roots bundle))
    /\ ((prop data "errors" = VUndefined /\ BundleResponse.errors bundle = [])
        \/ prop data "errors" = VArr (BundleResponse.errors bundle))
    /\ BundleResponse.passthrough bundle
       = Zod.unknownKeys ["por_bundle"; "por_root"; "roots"; "errors"] fields.
Proof.
  unfold bundleResponseSchema. rewrite object_valid. split.
  - intros (fields & -> & H).
    apply andThen_valid in H as (por_bundle & [= <-] & H).
    apply andThen_valid in H as (por_root & Hr & H). apply string_valid in Hr.
    apply andThen_valid in H as (roots & Hroots & H).
    apply rootsSchema_valid in Hroots as (rootFields & Hf & R1 & R2 & R3 & R4).
    apply andThen_valid in H as (errors & He & [= <-]).
    apply default_array_unknown_valid in He.
    exists fields, rootFields.
    cbn [BundleResponse.por_bundle BundleResponse.por_root
           BundleResponse.roots BundleResponse.errors
           BundleResponse.passthrough].
    rewrite Hf in R1, R2, R3, R4.
    repeat split; assumption.
  - intros (fields & rootFields & -> & Hb & Hr & Hf & R1 & R2 & R3 & R4 & He
            & Hp).
    exists fields. split; [reflexivity|].
    destruct bundle as [por_bundle por_root roots errors passthrough].
    cbn [BundleResponse.por_bundle BundleResponse.por_root
           BundleResponse.roots BundleResponse.errors
           BundleResponse.passthrough] in *.
    apply andThen_valid. exists por_bundle. split; [now rewrite Hb|].
    apply andThen_valid. exists por_root. split; [now apply string_valid|].
    apply andThen_valid. exists roots. split.
    { apply rootsSchema_valid. exists rootFields. rewrite Hf.
      repeat split; assumption. }
    apply andThen_valid. exists errors.
    split; [now apply default_array_unknown_valid|].
    now rewrite Hp.
Qed.

(** X17: the prompt and audit schemas ask for little.  The prompt schema
    accepts every object whose [market_id] is absent or a string, and the
    audit schema every object whose [errors] is absent or an array:
    [prompt_spec], [tool_plan] and [reasoning_trace] are taken as they are,
    and a missing one is taken as [undefined].  Neither accepts anything
    that is not a plain object. *)
Theorem prompt_and_audit_schemas_accept (data : Value) :
  ((exists prompt, promptResponseSchema data = Zod.Valid prompt) <->
   exists fields,
     data = VObj fields
     /\ (prop data "market_id" = VUndefined
         \/ exists id, prop data "market_id" = VStr id))
  /\ (forall prompt,
         promptResponseSchema data = Zod.Valid prompt ->
         PromptResponse.prompt_spec prompt = prop data "prompt_spec"
         /\ PromptResponse.tool_plan prompt = prop data "tool_plan")
  /\ ((exists audit, auditResponseSchema data = Zod.Valid audit) <->
      exists fields,
        data = VObj fields
        /\ (prop data "errors" = VUndefined
            \/ exists errors, prop data "errors" = VArr errors))
  /\ (forall audit,
         auditResponseSchema data = Zod.Valid audit ->
         AuditResponse.reasoning_trace audit = prop data "reasoning_trace").
Proof.
  unfold promptResponseSchema, auditResponseSchema.
  split; [|split; [|split]].
  - split.
    + intros (prompt & H). apply object_valid in H as (fields & -> & H).
      exists fields. split; [reflexivity|].
      apply andThen_valid in H as (id & Hid & _).
      apply optional_string_valid in Hid. destruct id; eauto.
    + intros (fields & -> & Hid).
      set (metadata :=
             match prop (VObj fields) "metadata" with
             | VUndefined => None
             | v => Some v
             end).
      assert (Hm : Zod.field fields "metadata" (Zod.optional Zod.unknown)
                   = Zod.Valid metadata).
      { unfold Zod.field, metadata.
        destruct (prop (VObj fields) "metadata"); reflexivity. }
      destruct Hid as [Hid | [id Hid]].
      * eexists. apply object_valid. exists fields. split; [reflexivity|].
        apply andThen_valid. exists None.
        split; [now apply optional_string_valid|].
        cbn [Zod.andThen Zod.field Zod.unknown]. rewrite Hm. reflexivity.
      * eexists. apply object_valid. exists fields. split; [reflexivity|].
        apply andThen_valid. exists (Some id).
        split; [now apply optional_string_valid|].
        cbn [Zod.andThen Zod.field Zod.unknown]. rewrite Hm. reflexivity.
  - intros prompt H. apply object_valid in H as (fields & -> & H).
    apply andThen_valid in H as (id & _ & H).
    apply andThen_valid in H as (spec & [= <-] & H).
    apply andThen_valid in H as (plan & [= <-] & H).
    apply andThen_valid in H as (metadata & _ & [= <-]).
    now split.
  - split.
    + intros (audit & H). apply object_valid in H as (fields & -> & H).
      exists fields. split; [reflexivity|].
      apply andThen_valid in H as (trace & _ & H).
      apply andThen_valid in H as (errors & He & _).
      apply default_array_unknown_valid in He as [[He _] | He]; eauto.
    + intros (fields & -> & He).
      destruct He as [He | [errors He]].
      * eexists. apply object_valid. exists fields. split; [reflexivity|].
        cbn [Zod.andThen Zod.field Zod.unknown]. unfold Zod.field.
        rewrite He. reflexivity.
      * eexists. apply object_valid. exists fields. split; [reflexivity|].
        cbn [Zod.andThen Zod.field Zod.unknown]. unfold Zod.field.
        rewrite He. cbn. rewrite each_unknown. reflexivity.
  - intros audit H. apply object_valid in H as (fields & -> & H).
    apply andThen_valid in H as (trace & [= <-] & H).
    apply andThen_valid in H as (errors & _ & [= <-]).
    reflexivity.
Qed.

(* ===================================================================== *)
(** * More on report.ts                                                   *)
(* ===================================================================== *)

Lemma bundleHighlights_not_object (v : Value) :
  (forall fields, v <> VObj fields) -> bundleHighlights v = [].
Proof.
  intros H. destruct v as [| |b|x|s|items|fields]; try reflexivity.
  - unfold bundleHighlights. cbn [typeofObject negb orb].
    now rewrite orb_true_r.
  - unfold bundleHighlights. cbn [typeofObject negb orb].
    now rewrite orb_true_r.
  - unfold bundleHighlights. cbn [typeofObject negb orb].
    now rewrite orb_true_r.
  - now destruct (H fields).
Qed.

(** X18: only plain objects contribute evidence.  A bundle that is a
    primitive, [null] or an array is skipped, wherever it stands among the
    bundles. *)
Theorem extractEvidenceHighlights_skips_non_objects
    (before after : list Value) (v : Value) :
  (forall fields, v <> VObj fields) ->
  extractEvidenceHighlights (before ++ v :: after)
  = extractEvidenceHighlights (before ++ after).
Proof.
  intros H. unfold extractEvidenceHighlights.
  rewrite !flat_map_app. cbn [flat_map].
  now rewrite (bundleHighlights_not_object v H).
Qed.

Lemma length_itemHighlights (item : Value) :
  (List.length (itemHighlights item) <= 1)%nat.
Proof.
  unfold itemHighlights.
  destruct (negb (truthy item) || negb (typeofObject item)); simpl; lia.
Qed.

Lemma length_flat_map_itemHighlights (elements : list Value) :
  (List.length (flat_map itemHighlights elements) <= List.length elements)%nat.
Proof.
  induction elements as [|item rest IH]; simpl; [lia|].
  rewrite length_app. pose proof (length_itemHighlights item). lia.
Qed.

(** X19: a bundle whose [items] is an array is read through its items
    only, one highlight at most for each: the fields of the bundle itself
    are not used, so an empty [items] array gives no highlight even when
    the bundle has a title. *)
Theorem bundleHighlights_items_array (fields : list (string * Value))
    (elements : list Value) :
  prop (VObj fields) "items" = VArr elements ->
  bundleHighlights (VObj fields) = flat_map itemHighlights elements
  /\ (List.length (bundleHighlights (VObj fields))
      <= List.length elements)%nat
  /\ (elements = [] -> extractEvidenceHighlights [VObj fields] = []).
Proof.
  intros H.
  assert (E : bundleHighlights (VObj fields)
              = flat_map itemHighlights elements).
  { unfold bundleHighlights. cbn [truthy typeofObject negb orb].
    rewrite H. cbn [coalesce isUndefined isArray negb orb].
    apply app_nil_r. }
  split; [exact E|]. split.
  - rewrite E. apply length_flat_map_itemHighlights.
  - intros ->. unfold extractEvidenceHighlights. cbn [flat_map].
    rewrite E. reflexivity.
Qed.

(** X20: the ten highlights are the first ten found.  Once the bundles
    read so far have given ten highlights, no later bundle changes the
    result. *)
Theorem extractEvidenceHighlights_first_ten (bundles more : list Value) :
  (10 <= List.length (flat_map bundleHighlights bundles))%nat ->
  extractEvidenceHighlights (bundles ++ more)
  = extractEvidenceHighlights bundles.
Proof.
  intros H. unfold extractEvidenceHighlights. rewrite flat_map_app.
  rewrite firstn_app.
  replace (10 - List.length (flat_map bundleHighlights bundles))%nat
    with 0%nat by lia.
  cbn [firstn]. apply app_nil_r.
Qed.

Section ReportExtras.

Variable Number_toString : float -> string.

Lemma summarizeSteps_descriptions (steps : list Value)
    (descriptions : list string) :
  Forall2 (fun step description =>
             isNonNullObject step = true
             /\ prop step "description" = VStr description)
    steps descriptions ->
  map (fun step =>
         let desc :=
           prop step "description" ?? prop step "summary"
             ?? prop step "step" ?? prop step "text" in
         match desc with
         | VStr s => s
         | _ => stringifyStep Number_toString step
         end)
    (filter isNonNullObject steps)
  = descriptions.
Proof.
  induction 1 as [|step description steps descriptions [Hobj Hd] _ IH];
    [reflexivity|].
  cbn [filter]. rewrite Hobj. cbn [map]. rewrite Hd. cbn [coalesce].
  f_equal. exact IH.
Qed.

(** X21: a trace that is an array of objects, each with a string
    [description], is summarized by the first ten descriptions, in the
    order of the trace; [JSON.stringify] is not used at all. *)
Theorem extractReasoningSummary_descriptions (steps : list Value)
    (descriptions : list string) :
  Forall2 (fun step description =>
             isNonNullObject step = true
             /\ prop step "description" = VStr description)
    steps descriptions ->
  extractReasoningSummary Number_toString (VArr steps)
  = firstn 10 descriptions.
Proof.
  intros H. unfold extractReasoningSummary. cbn [truthy negb].
  unfold summarizeSteps. f_equal. now apply summarizeSteps_descriptions.
Qed.

Lemma requirementEntry_label (req : Value) (label : string) (met : bool) :
  requirementEntry req = Some (label, met) -> label <> "".
Proof.
  unfold requirementEntry.
  destruct (negb (truthy req) || negb (typeofObject req)); [discriminate|].
  destruct (asOptionalString _) as [l|]; [|discriminate].
  destruct (String.eqb l "") eqn:E; [discriminate|].
  intros [= <- _]. now apply String.eqb_neq.
Qed.

Lemma partitionRequirements_labels (reqs : list Value) :
  Forall (fun label => label <> "") (fst (partitionRequirements reqs))
  /\ Forall (fun label => label <> "") (snd (partitionRequirements reqs))
  /\ (List.length (fst (partitionRequirements reqs))
      + List.length (snd (partitionRequirements reqs))
      <= List.length reqs)%nat.
Proof.
  induction reqs as [|req rest (IHf & IHu & IHn)]; cbn [partitionRequirements].
  - repeat split; constructor.
  - destruct (partitionRequirements rest) as [fulfilled unfulfilled].
    cbn [fst snd] in *.
    destruct (requirementEntry req) as [[label [|]]|] eqn:E; cbn [fst snd].
    + apply requirementEntry_label in E.
      repeat split; [now constructor | assumption | simpl; lia].
    + apply requirementEntry_label in E.
      repeat split; [assumption | now constructor | simpl; lia].
    + repeat split; [assumption | assumption | simpl; lia].
Qed.

Lemma extractRequirements_labels (judge : JudgeResponse.t) :
  Forall (fun label => label <> "") (fst (extractRequirements judge))
  /\ Forall (fun label => label <> "") (snd (extractRequirements judge)).
Proof.
  unfold extractRequirements.
  destruct (negb (truthy (JudgeResponse.verdict judge))
            || negb (typeofObject (JudgeResponse.verdict judge)));
    [split; constructor|].
  destruct (prop _ "requirements" ?? prop _ "criteria" ?? prop _ "rules");
    try (split; constructor).
  pose proof (partitionRequirements_labels items) as (Hf & Hu & _).
  now split.
Qed.

Lemma nonEmpty_some (l entries : list string) :
  nonEmpty l = Some entries -> entries = l /\ entries <> [].
Proof. destruct l; [discriminate|]. intros [= <-]. now split. Qed.

(** X22: the requirement lists of a report, when present, are not empty
    and hold no empty label: a report never carries an empty array of
    requirements, the field is absent instead. *)
Theorem buildReport_requirement_lists (prompt : PromptResponse.t)
    (collect : CollectResponse.t) (audit : AuditResponse.t)
    (judge : JudgeResponse.t) (bundle : BundleResponse.t)
    (entries : list string) :
  let report :=
    buildReport Number_toString prompt collect audit judge bundle in
  PorReport.requirements_fulfilled report = Some entries
  \/ PorReport.requirements_unfulfilled report = Some entries ->
  entries <> [] /\ Forall (fun label => label <> "") entries.
Proof.
  cbn zeta. unfold buildReport.
  pose proof (extractRequirements_labels judge) as [Hf Hu].
  destruct (extractRequirements judge) as [fulfilled unfulfilled].
  cbn [fst snd PorReport.requirements_fulfilled
         PorReport.requirements_unfulfilled] in *.
  intros [H | H]; apply nonEmpty_some in H as [-> Hne]; now split.
Qed.

(** X23: the verdict's requirements are split without loss: every entry of
    the [requirements] array that is an object with a non-empty string
    label goes to exactly one of the two lists, in the order of the array,
    and nothing else does. *)
Theorem extractRequirements_partition (judge : JudgeResponse.t)
    (fields : list (string * Value)) (reqs : list Value) :
  JudgeResponse.verdict judge = VObj fields ->
  prop (VObj fields) "requirements" = VArr reqs ->
  let entries :=
    flat_map (fun req =>
                match requirementEntry req with
                | Some entry => [entry]
                | None => []
                end) reqs in
  fst (extractRequirements judge) = map fst (filter snd entries)
  /\ snd (extractRequirements judge)
     = map fst (filter (fun entry => negb (snd entry)) entries)
  /\ (List.length (fst (extractRequirements judge))
      + List.length (snd (extractRequirements judge))
      = List.length entries)%nat.
Proof.
  intros Hv Hr. cbn zeta. unfold extractRequirements. rewrite Hv.
  cbn [truthy typeofObject negb orb]. rewrite Hr. cbn [coalesce].
  clear Hv Hr.
  induction reqs as [|req rest (IHf & IHu & IHn)]; [now repeat split|].
  cbn [partitionRequirements flat_map].
  destruct (partitionRequirements rest) as [fulfilled unfulfilled].
  cbn [fst snd] in *.
  destruct (requirementEntry req) as [[label [|]]|];
    cbn [fst snd app filter map negb List.length];
    rewrite <- ?IHf, <- ?IHu, <- ?IHn; repeat split; lia.
Qed.

End ReportExtras.

(* ===================================================================== *)
(** * report.ts: the Markdown rendering                                   *)
(* ===================================================================== *)

Lemma append_empty_r (s : string) : s ++ "" = s.
Proof. induction s as [|x s IH]; simpl; [reflexivity | now rewrite IH]. Qed.

Lemma concat_cons (sep x y : string) (l : list string) :
  String.concat sep (x :: y :: l) = x ++ sep ++ String.concat sep (y :: l).
Proof. reflexivity. Qed.

Lemma concat_snoc (sep z : string) (l : list string) :
  l <> [] ->
  String.concat sep (l +++ [z]) = String.concat sep l ++ sep ++ z.
Proof.
  induction l as [|x l IH]; intros H; [congruence|].
  destruct l as [|y l]; [reflexivity|].
  specialize (IH ltac:(discriminate)). cbn [List.app] in *.
  rewrite (concat_cons sep x y l), (concat_cons sep x y (l +++ [z])), IH.
  now rewrite !append_assoc.
Qed.

Lemma concat_In (sep x : string) (l : list string) :
  In x l -> JsString.occurs x (String.concat sep l).
Proof.
  induction l as [|y l IH]; intros H; [destruct H|].
  destruct l as [|z l].
  - destruct H as [-> | []]. exists "", "". cbn. now rewrite append_empty_r.
  - rewrite concat_cons. destruct H as [-> | H].
    + now exists "", (sep ++ String.concat sep (z :: l)).
    + destruct (IH H) as (a & b & E). rewrite E.
      exists (y ++ sep ++ a), b. now rewrite !append_assoc.
Qed.

Lemma In_numberedFrom (i k : nat) (entries : list string) (entry : string) :
  nth_error entries k = Some entry ->
  In (JsString.ofZ (Z.of_nat (i + k) + 1) ++ ". " ++ entry)
    (numberedFrom i entries).
Proof.
  revert i k. induction entries as [|e rest IH]; intros i k H.
  - now destruct k.
  - destruct k as [|k]; cbn [numberedFrom].
    + injection H as ->. left. now rewrite Nat.add_0_r.
    + right. replace (i + S k)%nat with (S i + k)%nat by lia.
      now apply IH.
Qed.

Section FormatProperties.

Variable Number_toFixed1 : float -> string.

Local Abbreviation render := (formatReport Number_toFixed1).
Local Abbreviation renderLines := (formatReportLines Number_toFixed1).

(** X24: whatever the report holds, its rendering opens with the title, an
    empty line and the outcome line, and closes with an empty line, the
    rule [---] and the disclaimer. *)
Theorem formatReport_frame (report : PorReport.t) :
  (exists rest,
      render report
      = "# PoR Report" ++ lineFeed ++ lineFeed
          ++ "**Outcome:** " ++ PorReport.outcome report ++ lineFeed ++ rest)
  /\ (exists body,
         render report
         = body ++ lineFeed ++ lineFeed ++ "---" ++ lineFeed ++ DISCLAIMER).
Proof.
  split.
  - unfold formatReport, formatReportLines.
    cbn [List.app]. rewrite !concat_cons.
    eexists. rewrite !append_assoc. reflexivity.
  - unfold formatReport, formatReportLines.
    set (closing := [""; "---"; DISCLAIMER]).
    rewrite !app_assoc.
    match goal with
    | |- context [String.concat lineFeed (?front +++ closing)] =>
        set (lines := front)
    end.
    assert (Hne : lines <> []) by (subst lines; discriminate).
    change closing with ([""] +++ ["---"] +++ [DISCLAIMER]).
    rewrite !app_assoc.
    rewrite concat_snoc.
    2:{ destruct lines; [congruence | discriminate]. }
    rewrite concat_snoc.
    2:{ destruct lines; [congruence | discriminate]. }
    rewrite concat_snoc by exact Hne.
    exists (String.concat lineFeed lines).
    now rewrite !append_assoc.
Qed.

Lemma In_formatReportLines_highlight (report : PorReport.t)
    (item : EvidenceHighlight.t) :
  In item (PorReport.evidence_highlights report) ->
  In (highlightLine item) (renderLines report).
Proof.
  intros H. unfold formatReportLines.
  apply in_or_app. right. apply in_or_app. right.
  apply in_or_app. right. apply in_or_app. left.
  destruct (PorReport.evidence_highlights report); [destruct H|].
  now apply in_map.
Qed.

Lemma In_formatReportLines_summary (report : PorReport.t) (k : nat)
    (entry : string) :
  nth_error (PorReport.reasoning_summary report) k = Some entry ->
  In (JsString.ofZ (Z.of_nat k + 1) ++ ". " ++ entry) (renderLines report).
Proof.
  intros H. unfold formatReportLines.
  apply in_or_app. right. apply in_or_app. right.
  apply in_or_app. right. apply in_or_app. right.
  apply in_or_app. right. apply in_or_app. right.
  apply in_or_app. left.
  destruct (PorReport.reasoning_summary report) eqn:E; [now destruct k|].
  rewrite <- E in *. exact (In_numberedFrom 0 k _ _ H).
Qed.

(** X25: nothing of the report's lists is dropped by the rendering.  Every
    evidence highlight has its line, the [k]-th entry of the reasoning
    summary (counting from 0) has the line numbered [k + 1], and the four
    roots are shown between backquotes. *)
Theorem formatReport_shows_every_entry (report : PorReport.t) :
  (forall item,
      In item (PorReport.evidence_highlights report) ->
      JsString.includes (render report) (highlightLine item) = true)
  /\ (forall k entry,
         nth_error (PorReport.reasoning_summary report) k = Some entry ->
         JsString.includes (render report)
           (JsString.ofZ (Z.of_nat k + 1) ++ ". " ++ entry) = true)
  /\ JsString.includes (render report)
       ("- **Prompt Spec Hash:** `"
          ++ Roots.prompt_spec_hash (PorReport.roots report) ++ "`") = true
  /\ JsString.includes (render report)
       ("- **Evidence Root:** `"
          ++ Roots.evidence_root (PorReport.roots report) ++ "`") = true
  /\ JsString.includes (render report)
       ("- **Reasoning Root:** `"
          ++ Roots.reasoning_root (PorReport.roots report) ++ "`") = true
  /\ JsString.includes (render report)
       ("- **PoR Root:** `"
          ++ Roots.por_root (PorReport.roots report) ++ "`") = true.
Proof.
  assert (Hroots : forall line,
             In line
               [ "- **Prompt Spec Hash:** `"
                   ++ Roots.prompt_spec_hash (PorReport.roots report) ++ "`";
                 "- **Evidence Root:** `"
                   ++ Roots.evidence_root (PorReport.roots report) ++ "`";
                 "- **Reasoning Root:** `"
                   ++ Roots.reasoning_root (PorReport.roots report) ++ "`";
                 "- **PoR Root:** `"
                   ++ Roots.por_root (PorReport.roots report) ++ "`" ] ->
             In line (renderLines report)).
  { intros line H. unfold formatReportLines.
    apply in_or_app. right. apply in_or_app. right.
    apply in_or_app. right. apply in_or_app. right.
    apply in_or_app. right. apply in_or_app. right.
    apply in_or_app. right. apply in_or_app. left.
    right. right. exact H. }
  repeat split.
  - intros item H. apply includes_occurs, concat_In.
    now apply In_formatReportLines_highlight.
  - intros k entry H. apply includes_occurs, concat_In.
    now apply In_formatReportLines_summary.
  - apply includes_occurs, concat_In, Hroots. now left.
  - apply includes_occurs, concat_In, Hroots. right. now left.
  - apply includes_occurs, concat_In, Hroots. right. right. now left.
  - apply includes_occurs, concat_In, Hroots. right. right. right. now left.
Qed.

Lemma ofZ_not_heading (z : Z) (rest heading : string) :
  JsString.ofZ z ++ rest <> String "#" heading.
Proof.
  unfold JsString.ofZ.
  destruct (Z.to_int z) as [d | d]; destruct d; cbn; discriminate.
Qed.

Lemma numbered_not_heading (i : nat) (entries : list string)
    (heading : string) :
  ~ In (String "#" heading) (numberedFrom i entries).
Proof.
  revert i. induction entries as [|e rest IH]; intros i; cbn [numberedFrom].
  - intros [].
  - intros [H | H]; [|now apply (IH (S i))].
    now apply ofZ_not_heading in H.
Qed.

Lemma map_prefix_not_heading {A : Type} (f : A -> string) (l : list A)
    (heading : string) :
  (forall a, exists rest, f a = String "-" rest) ->
  ~ In (String "#" heading) (map f l).
Proof.
  intros Hf H. apply in_map_iff in H as (a & E & _).
  destruct (Hf a) as [rest Hr]. rewrite Hr in E. discriminate.
Qed.

(** X26: the rendering has a [## Requirements] section exactly when one of
    the two requirement lists of the report has an entry; a report with
    neither list, or with empty ones, goes from the evidence straight to
    the reasoning summary. *)
Theorem formatReport_requirements_section (report : PorReport.t) :
  In "## Requirements" (renderLines report)
  <-> hasEntries (PorReport.requirements_fulfilled report)
      || hasEntries (PorReport.requirements_unfulfilled report) = true.
Proof.
  unfold formatReportLines. split.
  - intros H.
    destruct (hasEntries (PorReport.requirements_fulfilled report)
              || hasEntries (PorReport.requirements_unfulfilled report));
      [reflexivity|].
    exfalso.
    repeat (apply in_app_or in H as [H | H]).
    + cbn in H. intuition discriminate.
    + destruct (isNonEmptyString _); cbn in H; intuition discriminate.
    + cbn in H. intuition discriminate.
    + destruct (PorReport.evidence_highlights report) as [|h hs].
      * cbn in H. intuition discriminate.
      * revert H. apply map_prefix_not_heading.
        intros a. eexists. reflexivity.
    + destruct H.
    + cbn in H. intuition discriminate.
    + destruct (PorReport.reasoning_summary report) as [|s ss].
      * cbn in H. intuition discriminate.
      * revert H. apply numbered_not_heading.
    + cbn in H. intuition discriminate.
    + cbn in H. intuition discriminate.
  - intros H. rewrite H.
    apply in_or_app. right. apply in_or_app. right.
    apply in_or_app. right. apply in_or_app. right.
    apply in_or_app. left. apply in_or_app. left. right. now left.
Qed.

End FormatProperties.

(* ===================================================================== *)
(** * cli.ts: reading the command line                                    *)
(* ===================================================================== *)

Lemma indexOf_bounds (args : list string) (x : string) :
  -1 <= indexOf args x < Z.of_nat (List.length args).
Proof.
  induction args as [|a rest IH]; cbn [indexOf List.length]; [lia|].
  destruct (String.eqb a x); [lia|].
  destruct (indexOf rest x =? -1) eqn:E; lia.
Qed.

Lemma indexOf_app (pre post : list string) (x : string) :
  ~ In x pre ->
  indexOf (pre +++ x :: post) x = Z.of_nat (List.length pre).
Proof.
  induction pre as [|a pre IH]; intros H; cbn [List.app indexOf List.length].
  - now rewrite String.eqb_refl.
  - assert (Ha : String.eqb a x = false).
    { apply String.eqb_neq. intros ->. apply H. now left. }
    rewrite Ha, IH by (intros Hin; apply H; now right).
    destruct (Z.eqb_spec (Z.of_nat (List.length pre)) (-1)); lia.
Qed.

Lemma indexOf_split (args : list string) (x : string) :
  indexOf args x <> -1 ->
  exists pre post,
    args = pre +++ x :: post
    /\ ~ In x pre
    /\ indexOf args x = Z.of_nat (List.length pre).
Proof.
  induction args as [|a rest IH]; cbn [indexOf]; [congruence|].
  destruct (String.eqb a x) eqn:Ha.
  - apply String.eqb_eq in Ha as ->. intros _.
    exists [], rest. repeat split. intros [].
  - destruct (indexOf rest x =? -1) eqn:E; [congruence|]. intros _.
    apply Z.eqb_neq in E. destruct (IH E) as (pre & post & -> & Hpre & Hi).
    exists (a :: pre), post. repeat split.
    + intros [-> | Hin]; [|now apply Hpre].
      now rewrite String.eqb_refl in Ha.
    + rewrite Hi. cbn [List.length]. lia.
Qed.

(** X27: [getArg] gives the element that follows the first occurrence of
    the flag, whatever that element is (another flag included), and gives
    nothing when the flag is absent or is the last element.  Later
    occurrences of the flag are never looked at. *)
Theorem getArg_reads_after_first_flag (args : list string)
    (name value : string) :
  getArg args name = Some value <->
  exists before after,
    args = before +++ ("--" ++ name) :: value :: after
    /\ ~ In ("--" ++ name) before.
Proof.
  unfold getArg. set (flag := "--" ++ name). split.
  - intros H.
    destruct (indexOf args flag =? -1) eqn:E; [discriminate|].
    apply Z.eqb_neq in E.
    destruct (indexOf_split _ _ E) as (pre & post & Hargs & Hpre & Hi).
    cbn [orb] in H.
    destruct (indexOf args flag + 1 >=? Z.of_nat (List.length args));
      [discriminate|].
    rewrite Hi in H.
    replace (Z.to_nat (Z.of_nat (List.length pre) + 1))
      with (List.length pre + 1)%nat in H by lia.
    rewrite Hargs in H. rewrite nth_error_app2 in H by lia.
    replace (List.length pre + 1 - List.length pre)%nat with 1%nat in H
      by lia.
    destruct post as [|v post]; [discriminate|]. injection H as ->.
    now exists pre, post.
  - intros (pre & post & -> & Hpre).
    rewrite (indexOf_app pre (value :: post) flag Hpre).
    destruct (Z.eqb_spec (Z.of_nat (List.length pre)) (-1)); [lia|].
    cbn [orb]. rewrite length_app. cbn [List.length].
    rewrite Z.geb_leb.
    destruct (Z.leb_spec
                (Z.of_nat (List.length pre + S (S (List.length post))))
                (Z.of_nat (List.length pre) + 1)); [lia|].
    replace (Z.to_nat (Z.of_nat (List.length pre) + 1))
      with (List.length pre + 1)%nat by lia.
    rewrite nth_error_app2 by lia.
    replace (List.length pre + 1 - List.length pre)%nat with 1%nat by lia.
    reflexivity.
Qed.

Lemma isNonEmptyString_some (s : option string) :
  isNonEmptyString s = true ->
  exists text, s = Some text /\ text <> "" /\ orDefault s "" = text.
Proof.
  destruct s as [text|]; [|discriminate]. cbn.
  intros H. exists text. repeat split.
  apply String.eqb_neq. now destruct (String.eqb text "").
Qed.

(** X28: what [main] decides from the arguments.  A gateway run is started
    only for the command [resolve] or [capabilities] and with a non-empty
    [--code] value (for [resolve] also a non-empty [--query] value); the
    options handed to the pipeline carry those values, always say whether
    [--strict] and [--include-raw] were given, and have collectors only
    for a non-empty [--collectors] value.  The usage is printed only for
    no command, [--help] or [-h]; every other outcome is one of three
    error reports. *)
Theorem main_dispatch (args : list string) :
  match main args with
  | RunResolve options json =>
      nth_error args 0 = Some "resolve"
      /\ getArg args "code" = Some (PipelineOptions.code options)
      /\ PipelineOptions.code options <> ""
      /\ getArg args "query" = Some (PipelineOptions.query options)
      /\ PipelineOptions.query options <> ""
      /\ PipelineOptions.strict_mode options = Some (hasFlag args "strict")
      /\ PipelineOptions.include_raw_content options
         = Some (hasFlag args "include-raw")
      /\ match PipelineOptions.collectors options with
         | Some names =>
             exists text,
               getArg args "collectors" = Some text
               /\ text <> "" /\ names = splitOn "," text
         | None => isNonEmptyString (getArg args "collectors") = false
         end
      /\ json = hasFlag args "json"
  | RunCapabilities code =>
      nth_error args 0 = Some "capabilities"
      /\ getArg args "code" = Some code
      /\ code <> ""
  | PrintUsage =>
      nth_error args 0 = None \/ nth_error args 0 = Some ""
      \/ nth_error args 0 = Some "--help" \/ nth_error args 0 = Some "-h"
  | ReportError lines =>
      exists command,
        nth_error args 0 = Some command
        /\ (lines
            = [ "Error: --code is required. Provide your Cournot access code." ]
            /\ isNonEmptyString (getArg args "code") = false
            \/ lines = [ "Error: --query is required." ]
               /\ command = "resolve"
               /\ isNonEmptyString (getArg args "query") = false
            \/ lines = [ "Unknown command: " ++ command;
                         "Run with --help for usage information." ]
               /\ command <> "capabilities" /\ command <> "resolve")
  end.
Proof.
  unfold main.
  destruct (nth_error args 0) as [command|] eqn:Hc; [|cbn; now left].
  cbn [orDefault isNonEmptyString].
  destruct (String.eqb command "") eqn:E0.
  { apply String.eqb_eq in E0 as ->. cbn. right. now left. }
  cbn [negb orb].
  destruct (String.eqb command "--help") eqn:E1.
  { apply String.eqb_eq in E1 as ->. cbn. right. right. now left. }
  destruct (String.eqb command "-h") eqn:E2.
  { apply String.eqb_eq in E2 as ->. cbn. right. right. now right. }
  cbn [orb].
  destruct (isNonEmptyString (getArg args "code")) eqn:Ecode; cbn [negb].
  2:{ exists command. split; [reflexivity|]. left. now split. }
  destruct (isNonEmptyString_some _ Ecode) as (code & Hcode & Hne & ->).
  destruct (String.eqb command "capabilities") eqn:E3.
  { apply String.eqb_eq in E3 as ->. now repeat split. }
  destruct (String.eqb command "resolve") eqn:E4.
  2:{ exists command. split; [reflexivity|]. right. right.
      repeat split; now apply String.eqb_neq. }
  apply String.eqb_eq in E4 as ->.
  destruct (isNonEmptyString (getArg args "query")) eqn:Equery; cbn [negb].
  2:{ exists "resolve". split; [reflexivity|]. right. left. now repeat split. }
  destruct (isNonEmptyString_some _ Equery) as (query & Hquery & Hnq & ->).
  cbn [PipelineOptions.code PipelineOptions.query PipelineOptions.strict_mode
         PipelineOptions.include_raw_content PipelineOptions.collectors].
  repeat split; try assumption.
  destruct (isNonEmptyString (getArg args "collectors")) eqn:Ecol;
    [|reflexivity].
  destruct (isNonEmptyString_some _ Ecol) as (text & Htext & Hnt & ->).
  now exists text.
Qed.

(** X29: the access code is asked for before the command is looked at: when
    [--code] has no non-empty value, [main] prints the usage (no command,
    or a help flag first) or reports the missing code, also for a command
    it does not know, and starts nothing. *)
Theorem main_requires_code_first (args : list string) :
  isNonEmptyString (getArg args "code") = false ->
  main args = PrintUsage
  \/ main args
     = ReportError
         [ "Error: --code is required. Provide your Cournot access code." ].
Proof.
  intros H. unfold main.
  destruct (negb (isNonEmptyString (nth_error args 0))
            || String.eqb (orDefault (nth_error args 0) "") "--help"
            || String.eqb (orDefault (nth_error args 0) "") "-h");
    [now left|].
  rewrite H. now right.
Qed.

Lemma splitOn_not_empty (sep : ascii) (s : string) : splitOn sep s <> [].
Proof.
  induction s as [|ch rest IH]; cbn [splitOn]; [discriminate|].
  destruct (Ascii.eqb ch sep); [discriminate|].
  destruct (splitOn sep rest); [congruence | discriminate].
Qed.

(** X30: splitting loses nothing.  The pieces of [s.split(sep)] joined with
    the separator give [s] back, there is always at least one piece, there
    is one piece more than [s] has separators, and no piece holds the
    separator. *)
Theorem splitOn_join (sep : ascii) (s : string) :
  String.concat (String sep "") (splitOn sep s) = s
  /\ splitOn sep s <> []
  /\ Forall (fun piece => RegExp.member sep piece = false) (splitOn sep s)
  /\ List.length (splitOn sep s)
     = S (List.length
            (filter (Ascii.eqb sep) (list_ascii_of_string s))).
Proof.
  induction s as [|ch rest (IHj & IHn & IHf & IHl)]; cbn [splitOn].
  - repeat split; [discriminate | now repeat constructor].
  - destruct (Ascii.eqb ch sep) eqn:E.
    + apply Ascii.eqb_eq in E as ->.
      cbn [list_ascii_of_string filter]. rewrite Ascii.eqb_refl.
      repeat split.
      * destruct (splitOn sep rest) as [|p ps] eqn:Es; [congruence|].
        rewrite <- IHj. reflexivity.
      * discriminate.
      * now constructor.
      * cbn [List.length]. now rewrite IHl.
    + cbn [list_ascii_of_string filter].
      rewrite (Ascii.eqb_sym sep ch), E.
      destruct (splitOn sep rest) as [|p ps] eqn:Es; [congruence|].
      repeat split.
      * destruct ps as [|q ps].
        -- cbn in *. now rewrite IHj.
        -- rewrite <- IHj. reflexivity.
      * discriminate.
      * inversion IHf as [|? ? Hp Hps]; subst. constructor; [|assumption].
        cbn [RegExp.member]. now rewrite E.
      * exact IHl.
Qed.

(* ===================================================================== *)
(** * Concrete runs of the properties above                               *)
(* ===================================================================== *)

(** X1, at the error body of the test "redacts access code in error
    messages". *)
Lemma redactCode_removes_the_credential_witness :
  "secret123" <> ""
  /\ noCommonCharacter "secret123" "[REDACTED]" = true
  /\ JsString.includes
       (redactCode "Bad Request with code secret123" "secret123")
       "secret123" = false
  /\ redactCode (redactCode "Bad Request with code secret123" "secret123")
       "secret123"
     = redactCode "Bad Request with code secret123" "secret123".
Proof.
  split; [discriminate|]. split; [reflexivity|].
  apply (redactCode_removes_the_credential "Bad Request with code secret123"
           "secret123"); [discriminate | reflexivity].
Defined.


(** X4, at a transport that is refused three times and whose message
    quotes the credential. *)
Lemma call_exhausts_on_network_errors_witness :
  isNetworkError (JsError "Error" "fetch failed for secret123") = true
  /\ JsString.startsWith "fetch failed for secret123" "Gateway returned"
     = false
  /\ snd (exec (call noNumberText "secret123" "/test" "POST" (VObj []))
            [ Rejected (JsError "Error" "fetch failed for secret123");
              Rejected (JsError "Error" "fetch failed for secret123");
              Rejected (JsError "Error" "fetch failed for secret123") ])
     = Threw (JsError "Error"
                "Network error calling /test: fetch failed for [REDACTED]")
  /\ JsString.includes
       "Network error calling /test: fetch failed for [REDACTED]"
       "secret123" = false.
Proof.
  split; [reflexivity|]. split; [reflexivity|].
  destruct (call_exhausts_on_network_errors noNumberText "secret123" "/test"
              "POST" (VObj [])
              "Error" "fetch failed for secret123"
              "Error" "fetch failed for secret123"
              "Error" "fetch failed for secret123" [])
    as [Hrun Hhidden]; try reflexivity.
  split.
  - rewrite Hrun. reflexivity.
  - apply Hhidden; [discriminate | reflexivity].
Defined.


(** X7, at a 503 followed by a 401. *)
Lemma call_fatal_status_after_transient_witness :
  isTransientError 503 = true
  /\ Response.ok (errorResponse 401 "Unauthorized") = false
  /\ isTransientError 401 = false
  /\ snd (exec (call noNumberText "code" "/test" "POST" (VObj []))
            [ Resolved (errorResponse 503 "Service Unavailable");
              Resolved (errorResponse 401 "Unauthorized");
              Resolved (jsonResponse (VObj [])) ])
     = Threw (JsError "Error" "Gateway returned 401 for /test: Unauthorized").
Proof.
  split; [reflexivity|]. split; [reflexivity|]. split; [reflexivity|].
  rewrite (call_fatal_status_after_transient noNumberText "code" "/test"
             "POST" (VObj [])
             (errorResponse 503 "Service Unavailable")
             (errorResponse 401 "Unauthorized")
             [ Resolved (jsonResponse (VObj [])) ]);
    reflexivity.
Defined.

(** X9, at the run of the test "executes all 5 steps in order". *)
Lemma runPipeline_report_needs_five_valid_bodies_witness :
  exists trace report,
    exec (runPipeline noNumberText testOptions)
      [ Resolved (jsonResponse MOCK_PROMPT_RESPONSE);
        Resolved (jsonResponse MOCK_COLLECT_RESPONSE);
        Resolved (jsonResponse MOCK_AUDIT_RESPONSE);
        Resolved (jsonResponse MOCK_JUDGE_RESPONSE);
        Resolved (jsonResponse MOCK_BUNDLE_RESPONSE) ]
    = (trace, Returned report)
    /\ (5 <= attempts trace)%nat.
Proof.
  eexists. eexists. split; [reflexivity|].
  eapply (runPipeline_report_needs_five_valid_bodies noNumberText
            testOptions
            [ Resolved (jsonResponse MOCK_PROMPT_RESPONSE);
              Resolved (jsonResponse MOCK_COLLECT_RESPONSE);
              Resolved (jsonResponse MOCK_AUDIT_RESPONSE);
              Resolved (jsonResponse MOCK_JUDGE_RESPONSE);
              Resolved (jsonResponse MOCK_BUNDLE_RESPONSE) ]).
  reflexivity.
Defined.

(** X10, at a collect body whose [evidence_bundles] is [null]: the run
    stops after the second call. *)
Lemma runPipeline_stops_at_first_invalid_body_witness :
  succeedsWith (VObj [("evidence_bundles", VNull)])
    (jsonResponse (VObj [("evidence_bundles", VNull)]))
  /\ attempts
       (fst (exec (runPipeline noNumberText testOptions)
               [ Resolved (jsonResponse MOCK_PROMPT_RESPONSE);
                 Resolved (jsonResponse (VObj [("evidence_bundles", VNull)]));
                 Resolved (jsonResponse MOCK_AUDIT_RESPONSE);
                 Resolved (jsonResponse MOCK_JUDGE_RESPONSE);
                 Resolved (jsonResponse MOCK_BUNDLE_RESPONSE) ]))
     = 2%nat.
Proof.
  split; [split; reflexivity|].
  rewrite (runPipeline_stops_at_first_invalid_body noNumberText testOptions
             (jsonResponse MOCK_PROMPT_RESPONSE)
             (jsonResponse (VObj [("evidence_bundles", VNull)]))
             (jsonResponse MOCK_AUDIT_RESPONSE)
             (jsonResponse MOCK_JUDGE_RESPONSE)
             (jsonResponse MOCK_BUNDLE_RESPONSE)
             MOCK_PROMPT_RESPONSE (VObj [("evidence_bundles", VNull)])
             MOCK_AUDIT_RESPONSE MOCK_JUDGE_RESPONSE MOCK_BUNDLE_RESPONSE []);
    first [ reflexivity | split; reflexivity ].
Defined.

(** X11, at the run of the test "executes all 5 steps in order": the
    paths of the five envelopes, and the collectors of the second. *)
Lemma runPipeline_threads_step_outputs_witness :
  succeedsWith MOCK_PROMPT_RESPONSE (jsonResponse MOCK_PROMPT_RESPONSE)
  /\ List.length
       (requests
          (fst (exec (runPipeline noNumberText testOptions)
                  [ Resolved (jsonResponse MOCK_PROMPT_RESPONSE);
                    Resolved (jsonResponse MOCK_COLLECT_RESPONSE);
                    Resolved (jsonResponse MOCK_AUDIT_RESPONSE);
                    Resolved (jsonResponse MOCK_JUDGE_RESPONSE);
                    Resolved (jsonResponse MOCK_BUNDLE_RESPONSE) ])))
     = 5%nat.
Proof.
  split; [split; reflexivity|].
  erewrite (runPipeline_threads_step_outputs noNumberText testOptions
              (jsonResponse MOCK_PROMPT_RESPONSE)
              (jsonResponse MOCK_COLLECT_RESPONSE)
              (jsonResponse MOCK_AUDIT_RESPONSE)
              (jsonResponse MOCK_JUDGE_RESPONSE)
              (jsonResponse MOCK_BUNDLE_RESPONSE)
              MOCK_PROMPT_RESPONSE MOCK_COLLECT_RESPONSE MOCK_AUDIT_RESPONSE
              MOCK_JUDGE_RESPONSE MOCK_BUNDLE_RESPONSE []);
    first [ reflexivity | split; reflexivity ].
Defined.


(** X13, at a body that lists one collector. *)
Lemma getCapabilities_asks_once_witness :
  succeedsWith
    (VObj [("data",
            VObj [("collectors", VArr [VStr "CollectorGeminiGrounded"])])])
    (jsonResponse
       (VObj [("data",
               VObj [("collectors", VArr [VStr "CollectorGeminiGrounded"])])]))
  /\ exists req,
       exec (getCapabilities noNumberText "testCode")
         [ Resolved
             (jsonResponse
                (VObj [("data",
                        VObj [("collectors",
                               VArr [VStr "CollectorGeminiGrounded"])])])) ]
       = ( [EvFetch req],
           Returned
             (CapabilitiesResponse.make
                (Some [VStr "CollectorGeminiGrounded"]) None []) )
       /\ Request.method req = "POST".
Proof.
  split; [split; reflexivity|].
  destruct (getCapabilities_asks_once noNumberText "testCode"
              (jsonResponse
                 (VObj [("data",
                         VObj [("collectors",
                                VArr [VStr "CollectorGeminiGrounded"])])]))
              (VObj [("data",
                      VObj [("collectors",
                             VArr [VStr "CollectorGeminiGrounded"])])])
              [])
    as (req & Hrun & Hmethod & _); [split; reflexivity|].
  exists req. split; [exact Hrun | exact Hmethod].
Defined.

(** X18, at a [null] and a string among the bundles. *)
Lemma extractEvidenceHighlights_skips_non_objects_witness :
  (forall fields, VNull <> VObj fields)
  /\ extractEvidenceHighlights
       [ VObj [("title", VStr "A")]; VNull; VObj [("title", VStr "B")] ]
     = extractEvidenceHighlights
         [ VObj [("title", VStr "A")]; VObj [("title", VStr "B")] ].
Proof.
  split; [discriminate|].
  apply (extractEvidenceHighlights_skips_non_objects
           [ VObj [("title", VStr "A")] ] [ VObj [("title", VStr "B")] ]
           VNull).
  discriminate.
Defined.

(** X19, at a bundle with a title and an empty [items] array. *)
Lemma bundleHighlights_items_array_witness :
  prop (VObj [("title", VStr "Weather Report"); ("items", VArr [])]) "items"
  = VArr []
  /\ extractEvidenceHighlights
       [ VObj [("title", VStr "Weather Report"); ("items", VArr [])] ]
     = [].
Proof.
  split; [reflexivity|].
  apply (bundleHighlights_items_array
           [("title", VStr "Weather Report"); ("items", VArr [])] []);
    reflexivity.
Defined.

(** X20, at the twenty items of the test "limits evidence highlights to
    10" followed by one more bundle. *)
Lemma extractEvidenceHighlights_first_ten_witness :
  (10 <= List.length
           (flat_map bundleHighlights [VObj [("items", VArr manyItems)]]))%nat
  /\ extractEvidenceHighlights
       [ VObj [("items", VArr manyItems)]; VObj [("title", VStr "late")] ]
     = extractEvidenceHighlights [VObj [("items", VArr manyItems)]].
Proof.
  assert (H : (10 <= List.length
                       (flat_map bundleHighlights
                          [VObj [("items", VArr manyItems)]]))%nat)
    by (vm_compute; lia).
  split; [exact H|].
  exact (extractEvidenceHighlights_first_ten
           [VObj [("items", VArr manyItems)]]
           [VObj [("title", VStr "late")]] H).
Defined.

(** X21, at the reasoning trace of the mock audit response. *)
Lemma extractReasoningSummary_descriptions_witness :
  extractReasoningSummary noNumberText
    (VArr [ VObj [("description", VStr "Analyzed weather forecasts")];
            VObj [("description", VStr "Cross-referenced with history")] ])
  = [ "Analyzed weather forecasts"; "Cross-referenced with history" ].
Proof.
  apply (extractReasoningSummary_descriptions noNumberText
           [ VObj [("description", VStr "Analyzed weather forecasts")];
             VObj [("description", VStr "Cross-referenced with history")] ]
           [ "Analyzed weather forecasts"; "Cross-referenced with history" ]).
  repeat constructor.
Defined.

(** X22, at a verdict with one fulfilled requirement. *)
Lemma buildReport_requirement_lists_witness :
  let report :=
    buildReport noNumberText
      (PromptResponse.make None VNull VNull None [])
      (CollectResponse.make [] [] None [] [])
      (AuditResponse.make VNull [] [])
      (JudgeResponse.make
         (VObj [("requirements",
                 VArr [ VObj [ ("description", VStr "Multiple sources agree");
                               ("fulfilled", VBool true) ] ])])
         "YES" 1%float [] [])
      (BundleResponse.make VNull "0x1" (Roots.make "0x2" "0x3" "0x4" "0x1")
         [] []) in
  PorReport.requirements_fulfilled report = Some ["Multiple sources agree"]
  /\ PorReport.requirements_unfulfilled report = None
  /\ Forall (fun label => label <> "") ["Multiple sources agree"].
Proof.
  cbv zeta. split; [reflexivity|]. split; [reflexivity|].
  apply (buildReport_requirement_lists noNumberText
           (PromptResponse.make None VNull VNull None [])
           (CollectResponse.make [] [] None [] [])
           (AuditResponse.make VNull [] [])
           (JudgeResponse.make
              (VObj [("requirements",
                      VArr [ VObj [ ("description",
                                     VStr "Multiple sources agree");
                                    ("fulfilled", VBool true) ] ])])
              "YES" 1%float [] [])
           (BundleResponse.make VNull "0x1"
              (Roots.make "0x2" "0x3" "0x4" "0x1") [] [])
           ["Multiple sources agree"]).
  left. reflexivity.
Defined.

(** X23, at a verdict with one requirement of each kind and one entry
    without a label. *)
Lemma extractRequirements_partition_witness :
  extractRequirements
    (JudgeResponse.make
       (VObj [("requirements",
               VArr [ VObj [("label", VStr "met"); ("met", VBool true)];
                      VObj [("met", VBool true)];
                      VObj [("name", VStr "open")] ])])
       "YES" 1%float [] [])
  = (["met"], ["open"]).
Proof.
  pose proof (extractRequirements_partition
                (JudgeResponse.make
                   (VObj [("requirements",
                           VArr [ VObj [("label", VStr "met");
                                        ("met", VBool true)];
                                  VObj [("met", VBool true)];
                                  VObj [("name", VStr "open")] ])])
                   "YES" 1%float [] [])
                [("requirements",
                  VArr [ VObj [("label", VStr "met"); ("met", VBool true)];
                         VObj [("met", VBool true)];
                         VObj [("name", VStr "open")] ])]
                [ VObj [("label", VStr "met"); ("met", VBool true)];
                  VObj [("met", VBool true)];
                  VObj [("name", VStr "open")] ]
                eq_refl eq_refl) as (Hf & Hu & _).
  rewrite (surjective_pairing (extractRequirements _)), Hf, Hu.
  reflexivity.
Defined.

(** X29, at an unknown command without an access code. *)
Lemma main_requires_code_first_witness :
  isNonEmptyString (getArg ["deploy"; "--query"; "Will it rain?"] "code")
  = false
  /\ main ["deploy"; "--query"; "Will it rain?"]
     = ReportError
         [ "Error: --code is required. Provide your Cournot access code." ].
Proof.
  split; [reflexivity|].
  destruct (main_requires_code_first
              ["deploy"; "--query"; "Will it rain?"] eq_refl) as [H | H];
    [discriminate H | exact H].
Defined.
